(** * Lead service line portal: data access and authorization layer

    A shallow embedding of the non-presentation logic of the portal, and the
    properties of it that the specification states.

    The code:
    - [Dashboards]      the material classifier [MATERIAL_LABEL] and the
                        client-side address filter [filteredLocations]
                        (components/DashboardsIntegrated.tsx);
    - [AuthService]     the OAuth session object (services/arcgis/auth.ts);
    - [FeatureService]  [featureToLocation], [buildWhereClause] and the four
                        query operations (services/arcgis/featureService.ts);
    - [Geocoding]       [geocodeAddress] (services/arcgis/geocoding.ts).

    Beside these: [Pkce] and [AuthFlow] (the PKCE helpers, [login] and
    [checkForCallback] of auth.ts), [Suggest] and [ReverseGeocoding] (the
    other operations of geocoding.ts), [ArcgisConfig]
    (config/arcgis.config.ts), [DetailPanel] (the lead banner of the
    dashboard) and [Hooks] (the callbacks of the three hooks).

    [QueryDialect] and [WhereText] stand for the query language of the
    dataset, which receives the predicate as text: the first is the abstract
    syntax of what the clause builder emits, the second reads the emitted
    text back.

    Not embedded: the view, the percent-encoding of [URLSearchParams], and
    SHA-256, which is a parameter.

    Conventions of the embedding.
    - A JavaScript string is a [string], one character for each UTF-16 code
      unit; the embedding covers the code units 0 to 255 (Basic Latin and the
      Latin-1 supplement).  A character beyond ASCII is written by its code:
      ["201"%char] is the capital E with acute accent, ["233"%char] the small
      one.  [toLowerCase] is the default lower-casing of Unicode on that
      range: the capitals A to Z and those of the Latin-1 supplement go to
      their small letters, every other character stays; [length] counts code
      units.
    - [null]/[undefined] in a field of declared type [T | null] is [None].
    - Millisecond timestamps and integer attributes are [Z]; coordinates are
      binary64 values ([spec_float]).
    - An [async] function is a computation in the monad [Eff]: it reads the
      host environment (clock, network, configuration), threads the mutable
      world (the singleton's fields, [sessionStorage], the log of requests
      sent) and either returns or throws.  A throw keeps every mutation made
      before it, as in JavaScript.
    - The clock does not advance during one call.

    The properties follow the code, one module per component:
    [DashboardsFacts], [FeatureServiceFacts], [AuthServiceFacts],
    [FeatureQueryFacts], [HandshakeFacts], [GeocodingFacts], and then
    [PkceFacts], [AuthFlowFacts], [DataFacts], [ResolverFacts],
    [ConfigFacts] and [HooksFacts]. *)

From Stdlib Require Import ZArith String Ascii List Bool Lia.
From Stdlib Require Import Floats.SpecFloat DecimalString.
From stdpp Require Import gmap strings.

(** ** JavaScript primitives used by the sources *)

Module Js.

(** The capital letters among the code units 0 to 255: A to Z (65 to 90) and
    the capitals of the Latin-1 supplement (192 to 222), of which 215, the
    multiplication sign, is no letter. *)
Definition isUpperCase (c : ascii) : bool :=
  let n := nat_of_ascii c in
  ((65 <=? n) && (n <=? 90)) ||
  ((192 <=? n) && (n <=? 222) && negb (Nat.eqb n 215)).

(** The small letter of every capital of that range is 32 code units above
    it. *)
Definition toLowerChar (c : ascii) : ascii :=
  if isUpperCase c then ascii_of_nat (nat_of_ascii c + 32) else c.

(** [String.prototype.toLowerCase]: the default lower-casing of Unicode, on
    the code units 0 to 255. *)
Fixpoint toLowerCase (s : string) : string :=
  match s with
  | EmptyString => EmptyString
  | String c r => String (toLowerChar c) (toLowerCase r)
  end.

(** [String.prototype.includes]: does [needle] occur in [hay]? *)
Fixpoint includes (hay needle : string) : bool :=
  String.prefix needle hay ||
  match hay with
  | EmptyString => false
  | String _ r => includes r needle
  end.

(** [Array.prototype.includes] on an array of strings (strict equality). *)
Definition arrIncludes (l : list string) (v : string) : bool :=
  existsb (String.eqb v) l.

(** [Array.prototype.join] *)
Definition join (sep : string) (l : list string) : string :=
  String.concat sep l.

(** Truthiness of a value of type [string | null | undefined]. *)
Definition truthyStr (o : option string) : bool :=
  match o with
  | Some s => negb (String.eqb s "")
  | None => false
  end.

(** [a || d] at type string. *)
Definition orStr (o : option string) (d : string) : string :=
  match o with
  | Some s => if String.eqb s "" then d else s
  | None => d
  end.

(** [a || d] at an integer-valued number. *)
Definition orInt (o : option Z) (d : Z) : Z :=
  match o with
  | Some z => if Z.eqb z 0 then d else z
  | None => d
  end.

(** Truthiness of a binary64 number: zeros and NaN are falsy. *)
Definition truthyNum (f : spec_float) : bool :=
  match f with
  | S754_zero _ | S754_nan => false
  | _ => true
  end.

Definition zero : spec_float := S754_zero false.

(** [a || 0] at a coordinate. *)
Definition orNum (o : option spec_float) (d : spec_float) : spec_float :=
  match o with
  | Some f => if truthyNum f then f else d
  | None => d
  end.

(** Template interpolation of an integer-valued number. *)
Definition intToString (z : Z) : string :=
  NilEmpty.string_of_int (Z.to_int z).

(** A JSON scalar as the code inspects it with [===]. *)
Inductive Val :=
| VUndefined
| VNull
| VBool (b : bool)
| VNum (z : Z)
| VStr (s : string).

(** [v === 1 || v === true] *)
Definition isOneOrTrue (v : Val) : bool :=
  match v with
  | VNum z => Z.eqb z 1
  | VBool b => b
  | _ => false
  end.

(** Exceptions. *)
Inductive Exn :=
| Error (msg : string)
| TypeError (msg : string)
| SyntaxError (msg : string).

Inductive Result (A : Type) :=
| Ok (a : A)
| Thrown (e : Exn).
Arguments Ok {A} a.
Arguments Thrown {A} e.

End Js.

(** ** services/types.ts *)

Module Types.

(** One raw record of the dataset ([ServiceLineFeature]); every attribute
    but the identifier may be missing. *)
Record Attributes := {
  OBJECTID : Z;
  Address : option string;
  CustomerMaterial : option string;
  SupplierMaterial : option string;
  YearBuilt : option Z;
  Status : option string;
  LetterSent : Js.Val
}.

Record Point := { x : spec_float; y : spec_float }.

Record Feature := {
  attributes : Attributes;
  geometry : option Point
}.

Record Location := {
  id : Z;
  address : string;
  customerMaterial : string;
  supplierMaterial : string;
  letterSent : bool;
  buildYear : Z;
  status : string;
  lat : spec_float;
  lng : spec_float
}.

Inductive Material := all | lead | unknown.

Record FilterOptions := {
  material : Material;
  showCustomer : bool;
  showSupplier : bool;
  statusFilter : option (list string)
}.

Record GeocodeResult := {
  gAddress : string;
  gLocation : Point;
  score : spec_float;
  gAttributes : gmap string Js.Val
}.

End Types.

(** ** components/DashboardsIntegrated.tsx *)

Module Dashboards.
Import Js Types.

Definition MATERIAL_LABEL (code : option string) : string :=
  match code with
  | None => "Not determined"
  | Some c =>
      let v := toLowerCase c in
      if arrIncludes ["lead"; "pb"; "l"] v then "Lead"
      else if arrIncludes ["copper"; "cu"] v then "Copper"
      else if arrIncludes ["galv"; "galvanized"] v then "Galvanized Steel"
      else if arrIncludes ["unknown"; "unk"; "u"; ""] v then "Not determined"
      else c
  end.

Definition getMaterialColor (material : string) : string :=
  let m := toLowerCase material in
  if arrIncludes ["lead"; "pb"; "l"] m then "text-amber-700 bg-amber-50 border-amber-200"
  else if arrIncludes ["copper"; "cu"] m then "text-emerald-700 bg-emerald-50 border-emerald-200"
  else if arrIncludes ["galv"; "galvanized"] m then "text-slate-700 bg-slate-50 border-slate-200"
  else "text-gray-600 bg-gray-50 border-gray-200".

(** The callback of [locations.filter(...)]. *)
Definition matchesSearch (searchTerm : string) (loc : Location) : bool :=
  if negb (String.eqb searchTerm "") &&
     negb (includes (toLowerCase (address loc)) (toLowerCase searchTerm))
  then false
  else true.

Definition filteredLocations (locations : list Location) (searchTerm : string)
  : list Location :=
  List.filter (matchesSearch searchTerm) locations.

End Dashboards.

(** ** The host environment and the effect monad *)

Module Effects.
Import Js.

Inductive Method := GET | POST.

(** An HTTP request: the endpoint and the [URLSearchParams] sent with it
    (as the query string of a GET, as the form body of a POST). *)
Record Request := {
  method : Method;
  url : string;
  params : list (string * string)
}.

(** What [fetch] resolves to.  [body] is the result of [response.json()]:
    [None] when the body does not parse. *)
Record Response (P : Type) := {
  ok : bool;
  statusText : string;
  body : option P
}.
Arguments ok {P} r.
Arguments statusText {P} r.
Arguments body {P} r.

Inductive FetchOutcome (P : Type) :=
| Rejected (e : Exn)
| Resolved (r : Response P).
Arguments Rejected {P} e.
Arguments Resolved {P} r.

(** The fields of config/arcgis.config.ts read by the services. *)
Record Config := {
  featureServiceUrl : string;
  geocodeServiceUrl : string;
  clientId : string;
  portalUrl : string;
  redirectUri : string;
  mapCenter : spec_float * spec_float
}.

Record Env (P : Type) := {
  now : Z;
  network : Request -> FetchOutcome P;
  arcgisConfig : Config;
  numberToString : spec_float -> string
}.
Arguments now {P} e.
Arguments network {P} e.
Arguments arcgisConfig {P} e.
Arguments numberToString {P} e.

(** A JavaScript number holding a timestamp. *)
Inductive Num :=
| NaN
| Int (z : Z).

(** The mutable world: the fields of the [authService] singleton, the
    browser's [sessionStorage], and the requests sent so far. *)
Record World := {
  accessToken : option string;
  refreshToken : option string;
  tokenExpiry : option Num;
  codeVerifier : option string;
  sessionStorage : gmap string string;
  sent : list Request
}.

Definition setAccessToken (v : option string) (w : World) : World :=
  {| accessToken := v; refreshToken := refreshToken w;
     tokenExpiry := tokenExpiry w; codeVerifier := codeVerifier w;
     sessionStorage := sessionStorage w; sent := sent w |}.

Definition setRefreshToken (v : option string) (w : World) : World :=
  {| accessToken := accessToken w; refreshToken := v;
     tokenExpiry := tokenExpiry w; codeVerifier := codeVerifier w;
     sessionStorage := sessionStorage w; sent := sent w |}.

Definition setTokenExpiry (v : option Num) (w : World) : World :=
  {| accessToken := accessToken w; refreshToken := refreshToken w;
     tokenExpiry := v; codeVerifier := codeVerifier w;
     sessionStorage := sessionStorage w; sent := sent w |}.

Definition setCodeVerifier (v : option string) (w : World) : World :=
  {| accessToken := accessToken w; refreshToken := refreshToken w;
     tokenExpiry := tokenExpiry w; codeVerifier := v;
     sessionStorage := sessionStorage w; sent := sent w |}.

Definition setSessionStorage (m : gmap string string) (w : World) : World :=
  {| accessToken := accessToken w; refreshToken := refreshToken w;
     tokenExpiry := tokenExpiry w; codeVerifier := codeVerifier w;
     sessionStorage := m; sent := sent w |}.

Definition logRequest (r : Request) (w : World) : World :=
  {| accessToken := accessToken w; refreshToken := refreshToken w;
     tokenExpiry := tokenExpiry w; codeVerifier := codeVerifier w;
     sessionStorage := sessionStorage w; sent := sent w ++ [r] |}.

Definition Eff (P A : Type) : Type := Env P -> World -> Result A * World.

Definition ret {P A} (a : A) : Eff P A := fun _ w => (Ok a, w).

Definition bind {P A B} (c : Eff P A) (k : A -> Eff P B) : Eff P B :=
  fun env w =>
    match c env w with
    | (Ok a, w') => k a env w'
    | (Thrown e, w') => (Thrown e, w')
    end.

Definition throw {P A} (e : Exn) : Eff P A := fun _ w => (Thrown e, w).

(** [try { c } catch (error) { h error }] *)
Definition tryCatch {P A} (c : Eff P A) (h : Exn -> Eff P A) : Eff P A :=
  fun env w =>
    match c env w with
    | (Ok a, w') => (Ok a, w')
    | (Thrown e, w') => h e env w'
    end.

Definition reads {P A} (f : Env P -> World -> A) : Eff P A :=
  fun env w => (Ok (f env w), w).

Definition modify {P} (f : World -> World) : Eff P unit :=
  fun _ w => (Ok tt, f w).

(** [await fetch(...)]: the request is logged, then the network answers. *)
Definition fetch {P} (req : Request) : Eff P (Response P) :=
  fun env w =>
    (match network env req with
     | Rejected e => Thrown e
     | Resolved r => Ok r
     end, logRequest req w).

(** [await response.json()] *)
Definition json {P} (r : Response P) : Eff P P :=
  match body r with
  | Some d => ret d
  | None => throw (SyntaxError "Unexpected token in JSON")
  end.

Definition sessionGetItem {P} (k : string) : Eff P (option string) :=
  reads (fun _ w => sessionStorage w !! k).

Definition sessionRemoveItem {P} (k : string) : Eff P unit :=
  modify (fun w => setSessionStorage (delete k (sessionStorage w)) w).

Declare Scope eff_scope.
Delimit Scope eff_scope with eff.
Notation "'let!' x ':=' c 'in' k" := (bind c (fun x => k))
  (at level 10, x name, c at level 100, k at level 200) : eff_scope.

End Effects.

(** ** services/arcgis/auth.ts *)

Module AuthService.
Import Js Effects.
Local Open Scope eff_scope.
Local Open Scope Z_scope.

(** The body of a successful answer of the token endpoint. *)
Record TokenData := {
  access_token : option string;
  refresh_token : option string;
  expires_in : option Z
}.

(** [new ArcGISAuthService()], in a browser session with storage [store]. *)
Definition initial (store : gmap string string) : World :=
  {| accessToken := None; refreshToken := None; tokenExpiry := None;
     codeVerifier := None; sessionStorage := store; sent := [] |}.

(** Truthiness of [this.tokenExpiry]. *)
Definition truthyExpiry (o : option Num) : bool :=
  match o with
  | Some (Int z) => negb (Z.eqb z 0)
  | Some NaN => false
  | None => false
  end.

(** [Date.now() < this.tokenExpiry] *)
Definition beforeExpiry (t : Z) (o : option Num) : bool :=
  match o with
  | Some (Int z) => Z.ltb t z
  | Some NaN => false
  | None => Z.ltb t 0
  end.

Definition isAuthenticated (t : Z) (w : World) : bool :=
  if negb (truthyStr (accessToken w)) || negb (truthyExpiry (tokenExpiry w))
  then false
  else beforeExpiry t (tokenExpiry w).

Definition getAccessToken (t : Z) (w : World) : option string :=
  if isAuthenticated t w then accessToken w else None.

(** [Date.now() + data.expires_in * 1000] *)
Definition expiryFrom (t : Z) (expires : option Z) : Num :=
  match expires with
  | Some secs => Int (t + secs * 1000)
  | None => NaN
  end.

Definition logout (w : World) : World :=
  let w := setAccessToken None w in
  let w := setRefreshToken None w in
  let w := setTokenExpiry None w in
  let w := setCodeVerifier None w in
  let w := setSessionStorage (delete "pkce_verifier" (sessionStorage w)) w in
  setSessionStorage (delete "auth_redirect" (sessionStorage w)) w.

Definition tokenUrl (c : Config) : string :=
  portalUrl c +:+ "/sharing/rest/oauth2/token".

Definition handleCallback (code : string) : Eff TokenData unit :=
  let! verifier := sessionGetItem "pkce_verifier" in
  if negb (truthyStr verifier) then throw (Error "PKCE verifier not found")
  else
    let! cfg := reads (fun env _ => arcgisConfig env) in
    let params :=
      [("client_id", clientId cfg);
       ("grant_type", "authorization_code");
       ("code", code);
       ("redirect_uri", redirectUri cfg);
       ("code_verifier", default "" verifier)] in
    let! response :=
      fetch {| method := POST; url := tokenUrl cfg; params := params |} in
    if negb (ok response)
    then throw (Error "Failed to exchange authorization code for token")
    else
      let! data := json response in
      let! _ := modify (setAccessToken (access_token data)) in
      let! _ := modify (setRefreshToken (refresh_token data)) in
      let! t := reads (fun env _ => now env) in
      let! _ := modify (setTokenExpiry (Some (expiryFrom t (expires_in data)))) in
      sessionRemoveItem "pkce_verifier".

Definition refreshAccessToken : Eff TokenData unit :=
  let! rt := reads (fun _ w => refreshToken w) in
  if negb (truthyStr rt) then throw (Error "No refresh token available")
  else
    let! cfg := reads (fun env _ => arcgisConfig env) in
    let params :=
      [("client_id", clientId cfg);
       ("grant_type", "refresh_token");
       ("refresh_token", default "" rt)] in
    let! response :=
      fetch {| method := POST; url := tokenUrl cfg; params := params |} in
    if negb (ok response)
    then
      let! _ := modify logout in
      throw (Error "Refresh token expired, please log in again")
    else
      let! data := json response in
      let! _ := modify (setAccessToken (access_token data)) in
      let! t := reads (fun env _ => now env) in
      modify (setTokenExpiry (Some (expiryFrom t (expires_in data)))).

End AuthService.

(** ** services/arcgis/featureService.ts *)

Module FeatureService.
Import Js Types Effects.
Local Open Scope eff_scope.

Record ErrorInfo := { message : string }.

(** The body of an answer of the feature-query endpoint. *)
Record QueryData := {
  error : option ErrorInfo;
  features : option (list Feature)
}.

Record Stats := {
  total : nat;
  leadCount : nat;
  unknownCount : nat;
  verified : nat;
  assumed : nat
}.

Record Extent := {
  xmin : spec_float;
  ymin : spec_float;
  xmax : spec_float;
  ymax : spec_float
}.

Definition featureToLocation (feature : Feature) : Location :=
  let attrs := attributes feature in
  let geometry := geometry feature in
  {| id := OBJECTID attrs;
     address := orStr (Address attrs) "Unknown Address";
     customerMaterial := orStr (CustomerMaterial attrs) "Unknown";
     supplierMaterial := orStr (SupplierMaterial attrs) "Unknown";
     letterSent := isOneOrTrue (LetterSent attrs);
     buildYear := orInt (YearBuilt attrs) 0;
     status := orStr (Status attrs) "UNKNOWN";
     lat := orNum (y <$> geometry) zero;
     lng := orNum (x <$> geometry) zero |}.

(** [`'${s}'`] *)
Definition quote (s : string) : string := "'" +:+ s +:+ "'".

Definition buildWhereClause (filters : FilterOptions) : string :=
  let conditions : list string := [] in
  let conditions :=
    match material filters with
    | lead =>
        conditions ++ ["(CustomerMaterial = 'Lead' OR SupplierMaterial = 'Lead')"]
    | unknown =>
        conditions ++ ["(CustomerMaterial = 'Unknown' OR SupplierMaterial = 'Unknown')"]
    | all => conditions
    end in
  let conditions :=
    match statusFilter filters with
    | Some st =>
        if 0 <? length st then
          let statusList := join "," (map quote st) in
          conditions ++ ["Status IN (" +:+ statusList +:+ ")"]
        else conditions
    | None => conditions
    end in
  if 0 <? length conditions then join " AND " conditions else "1=1".

Definition defaultFilters : FilterOptions :=
  {| material := all; showCustomer := true; showSupplier := true;
     statusFilter := None |}.

(** [const token = authService.getAccessToken();
     if (token) params.append("token", token);] *)
Definition appendToken (ps : list (string * string)) (token : option string)
  : list (string * string) :=
  match token with
  | Some tk => if truthyStr token then ps ++ [("token", tk)] else ps
  | None => ps
  end.

Definition currentToken {P} : Eff P (option string) :=
  reads (fun env w => AuthService.getAccessToken (now env) w).

Definition queryRequest {P} (ps : list (string * string)) : Eff P Request :=
  reads (fun env _ =>
    {| method := GET;
       url := featureServiceUrl (arcgisConfig env) +:+ "/query";
       params := ps |}).

Definition arcgisError (e : ErrorInfo) : Exn :=
  Error ("ArcGIS Error: " +:+ message e).

(** [data.features] used as an array. *)
Definition featuresOf (data : QueryData) : Eff QueryData (list Feature) :=
  match features data with
  | Some fs => ret fs
  | None => throw (TypeError "Cannot read properties of undefined")
  end.

Definition queryFeatures (filters : FilterOptions)
  : Eff QueryData (list Location) :=
  let where_ := buildWhereClause filters in
  let ps :=
    [("where", where_); ("outFields", "*"); ("returnGeometry", "true");
     ("f", "json"); ("outSR", "4326")] in
  let! token := currentToken in
  let ps := appendToken ps token in
  let! req := queryRequest ps in
  tryCatch
    (let! response := fetch req in
     if negb (ok response)
     then throw (Error ("Feature service query failed: " +:+ statusText response))
     else
       let! data := json response in
       match error data with
       | Some e => throw (arcgisError e)
       | None =>
           let! fs := featuresOf data in
           ret (map featureToLocation fs)
       end)
    (fun err => throw err).

Definition queryFeatureById (objectId : Z) : Eff QueryData (option Location) :=
  let ps :=
    [("where", "OBJECTID = " +:+ intToString objectId); ("outFields", "*");
     ("returnGeometry", "true"); ("f", "json"); ("outSR", "4326")] in
  let! token := currentToken in
  let ps := appendToken ps token in
  let! req := queryRequest ps in
  tryCatch
    (let! response := fetch req in
     let! data := json response in
     match error data with
     | Some e => throw (arcgisError e)
     | None =>
         let! fs := featuresOf data in
         match fs with
         | f :: _ => ret (Some (featureToLocation f))
         | [] => ret None
         end
     end)
    (fun _ => ret None).

Definition queryFeaturesInExtent (extent : Extent) (filters : FilterOptions)
  : Eff QueryData (list Location) :=
  let where_ := buildWhereClause filters in
  let! show := reads (fun env _ => numberToString env) in
  let geometryString :=
    show (xmin extent) +:+ "," +:+ show (ymin extent) +:+ "," +:+
    show (xmax extent) +:+ "," +:+ show (ymax extent) in
  let ps :=
    [("where", where_); ("geometry", geometryString);
     ("geometryType", "esriGeometryEnvelope");
     ("spatialRel", "esriSpatialRelIntersects");
     ("outFields", "*"); ("returnGeometry", "true");
     ("f", "json"); ("outSR", "4326")] in
  let! token := currentToken in
  let ps := appendToken ps token in
  let! req := queryRequest ps in
  tryCatch
    (let! response := fetch req in
     let! data := json response in
     match error data with
     | Some e => throw (arcgisError e)
     | None =>
         let! fs := featuresOf data in
         ret (map featureToLocation fs)
     end)
    (fun err => throw err).

Definition strEq (o : option string) (lit : string) : bool :=
  match o with
  | Some s => String.eqb s lit
  | None => false
  end.

Definition isLead (f : Feature) : bool :=
  strEq (CustomerMaterial (attributes f)) "Lead" ||
  strEq (SupplierMaterial (attributes f)) "Lead".

Definition isUnknown (f : Feature) : bool :=
  strEq (CustomerMaterial (attributes f)) "Unknown" ||
  strEq (SupplierMaterial (attributes f)) "Unknown".

Definition isVerified (f : Feature) : bool :=
  strEq (Status (attributes f)) "VERIFIED".

Definition isAssumed (f : Feature) : bool :=
  strEq (Status (attributes f)) "ASSUMED".

Definition countStats (fs : list Feature) : Stats :=
  {| total := length fs;
     leadCount := length (List.filter isLead fs);
     unknownCount := length (List.filter isUnknown fs);
     verified := length (List.filter isVerified fs);
     assumed := length (List.filter isAssumed fs) |}.

Definition zeroStats : Stats :=
  {| total := 0; leadCount := 0; unknownCount := 0; verified := 0; assumed := 0 |}.

Definition getFeatureStats : Eff QueryData Stats :=
  let ps :=
    [("where", "1=1"); ("returnGeometry", "false"); ("returnCountOnly", "false");
     ("outFields", "CustomerMaterial,SupplierMaterial,Status"); ("f", "json")] in
  let! token := currentToken in
  let ps := appendToken ps token in
  let! req := queryRequest ps in
  tryCatch
    (let! response := fetch req in
     let! data := json response in
     match error data with
     | Some e => throw (arcgisError e)
     | None =>
         let! fs := featuresOf data in
         ret (countStats fs)
     end)
    (fun _ => ret zeroStats).

End FeatureService.

(** ** services/arcgis/geocoding.ts *)

Module Geocoding.
Import Js Types Effects.
Local Open Scope eff_scope.

Record Candidate := {
  cAddress : string;
  cLocation : Point;
  cScore : spec_float;
  cAttributes : gmap string Val
}.

(** The body of an answer of [findAddressCandidates]. *)
Record GeocodeData := {
  gError : option FeatureService.ErrorInfo;
  candidates : option (list Candidate)
}.

Definition toResult (candidate : Candidate) : GeocodeResult :=
  {| gAddress := cAddress candidate;
     gLocation := {| x := x (cLocation candidate); y := y (cLocation candidate) |};
     score := cScore candidate;
     gAttributes := cAttributes candidate |}.

(** [!searchText || searchText.length < 3] *)
Definition tooShort (searchText : option string) (min : nat) : bool :=
  negb (truthyStr searchText) ||
  (String.length (default "" searchText) <? min).

Definition geocodeAddress (searchText : option string) (center : option Point)
  : Eff GeocodeData (list GeocodeResult) :=
  if tooShort searchText 3 then ret []
  else
    let ps :=
      [("SingleLine", default "" searchText); ("f", "json"); ("outFields", "*");
       ("maxLocations", "10"); ("outSR", "4326")] in
    let! show := reads (fun env _ => numberToString env) in
    let! cfg := reads (fun env _ => arcgisConfig env) in
    let ps :=
      match center with
      | Some c => ps ++ [("location", show (x c) +:+ "," +:+ show (y c))]
      | None =>
          ps ++ [("location",
                  show (fst (mapCenter cfg)) +:+ "," +:+ show (snd (mapCenter cfg)))]
      end in
    let req :=
      {| method := GET;
         url := geocodeServiceUrl cfg +:+ "/findAddressCandidates";
         params := ps |} in
    tryCatch
      (let! response := fetch req in
       if negb (ok response)
       then throw (Error ("Geocoding request failed: " +:+ statusText response))
       else
         let! data := json response in
         match gError data with
         | Some e =>
             throw (Error ("ArcGIS Geocoding Error: " +:+ FeatureService.message e))
         | None =>
             match candidates data with
             | Some cs => ret (map toResult cs)
             | None => throw (TypeError "Cannot read properties of undefined")
             end
         end)
      (fun _ => ret []).

End Geocoding.

(** ** The fragment of the query dialect the clause builder emits

    The dataset's query language is an external collaborator.  [Cond] is the
    abstract syntax of the conditions [buildWhereClause] can emit, [render]
    their concrete syntax and [holds] their meaning on a record; a comparison
    with a missing attribute is not true. *)

Module QueryDialect.
Import Js Types.

Inductive Field := FCustomerMaterial | FSupplierMaterial | FStatus.

Inductive Cond :=
| Eq (f : Field) (lit : string)
| Either (a b : Cond)
| Member (f : Field) (lits : list string).

Definition fieldName (f : Field) : string :=
  match f with
  | FCustomerMaterial => "CustomerMaterial"
  | FSupplierMaterial => "SupplierMaterial"
  | FStatus => "Status"
  end.

Fixpoint render (c : Cond) : string :=
  match c with
  | Eq f lit => fieldName f +:+ " = " +:+ FeatureService.quote lit
  | Either a b => "(" +:+ render a +:+ " OR " +:+ render b +:+ ")"
  | Member f lits =>
      fieldName f +:+ " IN (" +:+ join "," (map FeatureService.quote lits) +:+ ")"
  end.

(** A predicate is a conjunction; the empty conjunction is written [1=1]. *)
Definition renderWhere (cs : list Cond) : string :=
  match cs with
  | [] => "1=1"
  | _ => join " AND " (map render cs)
  end.

Definition fieldOf (f : Field) (r : Attributes) : option string :=
  match f with
  | FCustomerMaterial => CustomerMaterial r
  | FSupplierMaterial => SupplierMaterial r
  | FStatus => Status r
  end.

Fixpoint holds (c : Cond) (r : Attributes) : bool :=
  match c with
  | Eq f lit => FeatureService.strEq (fieldOf f r) lit
  | Either a b => holds a r || holds b r
  | Member f lits => existsb (FeatureService.strEq (fieldOf f r)) lits
  end.

Definition holdsWhere (cs : list Cond) (r : Attributes) : bool :=
  forallb (fun c => holds c r) cs.

(** The literals of the membership conditions of a predicate. *)
Definition memberLiterals (cs : list Cond) : list string :=
  flat_map (fun c => match c with Member _ lits => lits | _ => [] end) cs.

Definition eitherSide (lit : string) : Cond :=
  Either (Eq FCustomerMaterial lit) (Eq FSupplierMaterial lit).

(** The predicate the specification describes for a filter selection: a
    material-match condition (either side equals the target value) and a
    status-membership condition over the given list, when present. *)
Definition specWhere (filters : FilterOptions) : list Cond :=
  match material filters with
  | lead => [eitherSide "Lead"]
  | unknown => [eitherSide "Unknown"]
  | all => []
  end ++
  match statusFilter filters with
  | Some (s :: st) => [Member FStatus (s :: st)]
  | _ => []
  end.

(** The closed status enumeration of [ServiceLineFeature.Status]. *)
Definition statusEnumeration : list string := ["VERIFIED"; "ASSUMED"; "UNKNOWN"].

(** The status values a caller supplied with a selection. *)
Definition statusValues (filters : FilterOptions) : list string :=
  default [] (statusFilter filters).

End QueryDialect.

(** ** Reading the text of a predicate

    The dataset receives the predicate as text.  [WhereText] reads that text
    the way SQL reads the fragment the clause builder can emit: words,
    quoted literals (a doubled quote inside a literal stands for one quote),
    parentheses, [=], [IN] over a literal list, [AND] binding tighter than
    [OR].  A comparison is true of a record when the attribute is present
    and equal to the literal; the fragment has no negation, so a comparison
    with a missing attribute, which SQL leaves unknown, selects nothing
    either way.  A text outside the fragment, or naming another column, is
    refused. *)

Module WhereText.
Import Js Types QueryDialect.

Inductive Token :=
| TOpen
| TClose
| TComma
| TEquals
| TWord (w : string)
| TLiteral (s : string).

(** Letters, digits and the underscore. *)
Definition isWordChar (c : ascii) : bool :=
  let n := nat_of_ascii c in
  ((48 <=? n) && (n <=? 57)) || ((65 <=? n) && (n <=? 90)) ||
  ((97 <=? n) && (n <=? 122)) || Nat.eqb n 95.

Inductive LexState :=
| Idle
| InWord (acc : string)
| InLiteral (acc : string)
| AfterQuote (acc : string).

(** What is pending at the end of the text; an open literal is an error. *)
Definition flush (st : LexState) : option (list Token) :=
  match st with
  | Idle => Some []
  | InWord w => Some [TWord w]
  | InLiteral _ => None
  | AfterQuote l => Some [TLiteral l]
  end.

(** A character met outside words and literals. *)
Definition start (c : ascii) : option (list Token * LexState) :=
  if Ascii.eqb c "(" then Some ([TOpen], Idle)
  else if Ascii.eqb c ")" then Some ([TClose], Idle)
  else if Ascii.eqb c "," then Some ([TComma], Idle)
  else if Ascii.eqb c "=" then Some ([TEquals], Idle)
  else if Ascii.eqb c " " then Some ([], Idle)
  else if Ascii.eqb c "'" then Some ([], InLiteral "")
  else if isWordChar c then Some ([], InWord (String c ""))
  else None.

Fixpoint lex (st : LexState) (text : string) : option (list Token) :=
  match text with
  | EmptyString => flush st
  | String c rest =>
      match st with
      | InLiteral acc =>
          if Ascii.eqb c "'" then lex (AfterQuote acc) rest
          else lex (InLiteral (acc +:+ String c "")) rest
      | AfterQuote acc =>
          if Ascii.eqb c "'" then lex (InLiteral (acc +:+ "'")) rest
          else
            match start c with
            | Some (ts, st') =>
                option_map (fun more => TLiteral acc :: ts ++ more) (lex st' rest)
            | None => None
            end
      | InWord w =>
          if isWordChar c then lex (InWord (w +:+ String c "")) rest
          else
            match start c with
            | Some (ts, st') =>
                option_map (fun more => TWord w :: ts ++ more) (lex st' rest)
            | None => None
            end
      | Idle =>
          match start c with
          | Some (ts, st') => option_map (fun more => ts ++ more) (lex st' rest)
          | None => None
          end
      end
  end.

Inductive Expr :=
| Const (b : bool)
| Compare (f : Field) (lit : string)
| InList (f : Field) (lits : list string)
| Or (a b : Expr)
| And (a b : Expr).

(** The columns of the dataset a predicate may name. *)
Definition column (w : string) : option Field :=
  if String.eqb w "CustomerMaterial" then Some FCustomerMaterial
  else if String.eqb w "SupplierMaterial" then Some FSupplierMaterial
  else if String.eqb w "Status" then Some FStatus
  else None.

(** Keywords are recognised in either letter case. *)
Definition isKeyword (k w : string) : bool := String.eqb (toLowerCase w) k.

(** A word made of digits, as a number. *)
Fixpoint numeral (acc : N) (w : string) : option N :=
  match w with
  | EmptyString => Some acc
  | String c rest =>
      let n := nat_of_ascii c in
      if (48 <=? n) && (n <=? 57)
      then numeral (10 * acc + N.of_nat (n - 48))%N rest
      else None
  end.

(** The rest of a literal list, up to its closing parenthesis. *)
Fixpoint literals (ts : list Token) : option (list string * list Token) :=
  match ts with
  | TLiteral l :: TClose :: rest => Some ([l], rest)
  | TLiteral l :: TComma :: rest =>
      match literals rest with
      | Some (ls, rest') => Some (l :: ls, rest')
      | None => None
      end
  | _ => None
  end.

Fixpoint disjunction (fuel : nat) (ts : list Token) : option (Expr * list Token) :=
  match fuel with
  | 0 => None
  | S n =>
      match conjunction n ts with
      | Some (a, TWord w :: rest) =>
          if isKeyword "or" w then
            match disjunction n rest with
            | Some (b, rest') => Some (Or a b, rest')
            | None => None
            end
          else Some (a, TWord w :: rest)
      | other => other
      end
  end
with conjunction (fuel : nat) (ts : list Token) : option (Expr * list Token) :=
  match fuel with
  | 0 => None
  | S n =>
      match primary n ts with
      | Some (a, TWord w :: rest) =>
          if isKeyword "and" w then
            match conjunction n rest with
            | Some (b, rest') => Some (And a b, rest')
            | None => None
            end
          else Some (a, TWord w :: rest)
      | other => other
      end
  end
with primary (fuel : nat) (ts : list Token) : option (Expr * list Token) :=
  match fuel with
  | 0 => None
  | S n =>
      match ts with
      | TOpen :: rest =>
          match disjunction n rest with
          | Some (e, TClose :: rest') => Some (e, rest')
          | _ => None
          end
      | TLiteral a :: TEquals :: TLiteral b :: rest =>
          Some (Const (String.eqb a b), rest)
      | TWord a :: TEquals :: TWord b :: rest =>
          match numeral 0 a, numeral 0 b with
          | Some x, Some y => Some (Const (N.eqb x y), rest)
          | _, _ => None
          end
      | TWord f :: TEquals :: TLiteral l :: rest =>
          match column f with
          | Some fd => Some (Compare fd l, rest)
          | None => None
          end
      | TWord f :: TWord k :: TOpen :: rest =>
          if isKeyword "in" k then
            match column f, literals rest with
            | Some fd, Some (ls, rest') => Some (InList fd ls, rest')
            | _, _ => None
            end
          else None
      | _ => None
      end
  end.

(** The predicate a text denotes, when it is one of the fragment. *)
Definition parseWhere (text : string) : option Expr :=
  match lex Idle text with
  | Some ts =>
      match disjunction (3 * length ts + 3) ts with
      | Some (e, []) => Some e
      | _ => None
      end
  | None => None
  end.

Fixpoint satisfies (e : Expr) (r : Attributes) : bool :=
  match e with
  | Const b => b
  | Compare f lit => bool_decide (fieldOf f r = Some lit)
  | InList f lits => existsb (fun lit => bool_decide (fieldOf f r = Some lit)) lits
  | Or a b => satisfies a r || satisfies b r
  | And a b => satisfies a r && satisfies b r
  end.

(** The records of [fs] the predicate text selects; nothing when the text
    is refused. *)
Definition selectWhere (text : string) (fs : list Feature) : option (list Feature) :=
  match parseWhere text with
  | Some e => Some (List.filter (fun f => satisfies e (attributes f)) fs)
  | None => None
  end.

End WhereText.

(** ** services/arcgis/auth.ts: the PKCE helpers *)

Module Pkce.
Import Js.

(** The browser primitives the helpers call.  [entropy] is the sequence of
    bytes [crypto.getRandomValues] delivers, in order; [sha256] is
    [crypto.subtle.digest("SHA-256", _)] on the bytes of its argument. *)
Record Crypto := {
  entropy : nat -> ascii;
  sha256 : string -> list ascii
}.

(** [crypto.getRandomValues(new Uint8Array(length))], for a generator that
    has already delivered [used] bytes. *)
Definition getRandomValues (c : Crypto) (used length : nat) : list ascii :=
  map (entropy c) (seq used length).

Definition charset : string :=
  "ABCDEFGHIJKLMNOPQRSTUVWXYZabcdefghijklmnopqrstuvwxyz0123456789-._~".

(** [charset[v % charset.length]], as [join] prints it. *)
Definition pick (v : ascii) : string :=
  match String.get (nat_of_ascii v mod String.length charset) charset with
  | Some ch => String ch EmptyString
  | None => EmptyString
  end.

(** [Array.from(values).map(...).join("")] *)
Definition generateRandomString (values : list ascii) : string :=
  join "" (map pick values).

(** The alphabet of the built-in [btoa] (RFC 4648, section 4). *)
Definition b64chars : string :=
  "ABCDEFGHIJKLMNOPQRSTUVWXYZabcdefghijklmnopqrstuvwxyz0123456789+/".

Definition b64 (i : N) : ascii :=
  match String.get (N.to_nat (i mod 64)) b64chars with
  | Some ch => ch
  | None => "="%char
  end.

(** The built-in [btoa] on a binary string: three bytes give four
    characters, and a last group of one or two bytes is padded with [=]. *)
Fixpoint btoa (s : string) : string :=
  match s with
  | EmptyString => EmptyString
  | String a EmptyString =>
      let n := (N_of_ascii a * 65536)%N in
      String (b64 (n / 262144)) (String (b64 (n / 4096)) "==")
  | String a (String b EmptyString) =>
      let n := (N_of_ascii a * 65536 + N_of_ascii b * 256)%N in
      String (b64 (n / 262144)) (String (b64 (n / 4096))
        (String (b64 (n / 64)) "="))
  | String a (String b (String c rest)) =>
      let n := (N_of_ascii a * 65536 + N_of_ascii b * 256 + N_of_ascii c)%N in
      String (b64 (n / 262144)) (String (b64 (n / 4096))
        (String (b64 (n / 64)) (String (b64 n) (btoa rest))))
  end.

(** [s.replace(/c/g, d)] for single characters. *)
Fixpoint replaceAll (c d : ascii) (s : string) : string :=
  match s with
  | EmptyString => EmptyString
  | String a r =>
      String (if Ascii.eqb a c then d else a) (replaceAll c d r)
  end.

(** [s.replace(/c/g, "")] *)
Fixpoint removeAll (c : ascii) (s : string) : string :=
  match s with
  | EmptyString => EmptyString
  | String a r =>
      if Ascii.eqb a c then removeAll c r else String a (removeAll c r)
  end.

(** The loop [binary += String.fromCharCode(bytes[i])]. *)
Definition binaryString (bytes : list ascii) : string :=
  fold_left (fun binary b => binary +:+ String b EmptyString) bytes EmptyString.

Definition base64UrlEncode (buffer : list ascii) : string :=
  removeAll "=" (replaceAll "/" "_" (replaceAll "+" "-" (btoa (binaryString buffer)))).

Definition generateCodeChallenge (c : Crypto) (verifier : string) : string :=
  base64UrlEncode (sha256 c verifier).

(** [generatePKCE], drawing its 128 bytes after [used] delivered ones. *)
Definition generatePKCE (c : Crypto) (used : nat) : string * string :=
  let verifier := generateRandomString (getRandomValues c used 128) in
  let challenge := generateCodeChallenge c verifier in
  (verifier, challenge).

End Pkce.

(** ** services/arcgis/auth.ts: the redirect round trip *)

Module AuthFlow.
Import Js Effects AuthService Pkce.
Local Open Scope eff_scope.

(** The address the user agent is sent to: the endpoint and the
    [URLSearchParams] after the question mark. *)
Record Navigation := {
  target : string;
  query : list (string * string)
}.

Definition sessionSetItem {P} (k v : string) : Eff P unit :=
  modify (fun w => setSessionStorage (<[k := v]> (sessionStorage w)) w).

(** [login()], on a page whose path is [pathname]; the value returned is the
    address assigned to [window.location.href]. *)
Definition login {P} (c : Crypto) (pathname : string) : Eff P Navigation :=
  let! cfg := reads (fun env _ => arcgisConfig env) in
  if negb (truthyStr (Some (clientId cfg)))
  then throw (Error "OAuth client ID not configured")
  else
    let '(verifier, challenge) := generatePKCE c 0 in
    let! _ := modify (setCodeVerifier (Some verifier)) in
    let! _ := sessionSetItem "pkce_verifier" verifier in
    let params :=
      [("client_id", clientId cfg);
       ("response_type", "code");
       ("redirect_uri", redirectUri cfg);
       ("code_challenge", challenge);
       ("code_challenge_method", "S256");
       ("state", generateRandomString (getRandomValues c 128 32))] in
    let authUrl :=
      {| target := portalUrl cfg +:+ "/sharing/rest/oauth2/authorize";
         query := params |} in
    let! _ := sessionSetItem "auth_redirect" pathname in
    ret authUrl.

(** [checkForCallback()], where [code] is [urlParams.get("code")]; the
    second component of the value is the path given to
    [window.history.replaceState], if it was called. *)
Definition checkForCallback (code : option string)
  : Eff TokenData (bool * option string) :=
  if truthyStr code then
    let! _ := handleCallback (default "" code) in
    let! stored := sessionGetItem "auth_redirect" in
    let redirectPath := orStr stored "/" in
    let! _ := sessionRemoveItem "auth_redirect" in
    ret (true, Some redirectPath)
  else ret (false, None).

End AuthFlow.

(** ** services/arcgis/geocoding.ts: suggestions and candidate lookup *)

Module Suggest.
Import Js Types Effects Geocoding.
Local Open Scope eff_scope.

Record Suggestion := {
  text : string;
  magicKey : string
}.

(** The body of an answer of [suggest]. *)
Record SuggestData := {
  sError : option FeatureService.ErrorInfo;
  suggestions : option (list Suggestion)
}.

Definition getSuggestions (searchText : option string) (center : option Point)
  : Eff SuggestData (list Suggestion) :=
  if tooShort searchText 2 then ret []
  else
    let ps :=
      [("text", default "" searchText); ("f", "json"); ("maxSuggestions", "8")] in
    let! show := reads (fun env _ => numberToString env) in
    let! cfg := reads (fun env _ => arcgisConfig env) in
    let ps :=
      match center with
      | Some c => ps ++ [("location", show (x c) +:+ "," +:+ show (y c))]
      | None =>
          ps ++ [("location",
                  show (fst (mapCenter cfg)) +:+ "," +:+ show (snd (mapCenter cfg)))]
      end in
    let req :=
      {| method := GET;
         url := geocodeServiceUrl cfg +:+ "/suggest";
         params := ps |} in
    tryCatch
      (let! response := fetch req in
       let! data := json response in
       match sError data with
       | Some _ => ret []
       | None => ret (default [] (suggestions data))
       end)
      (fun _ => ret []).

Definition findAddressFromMagicKey (key : string)
  : Eff GeocodeData (option GeocodeResult) :=
  let ps :=
    [("magicKey", key); ("f", "json"); ("outSR", "4326"); ("outFields", "*")] in
  let! cfg := reads (fun env _ => arcgisConfig env) in
  let req :=
    {| method := GET;
       url := geocodeServiceUrl cfg +:+ "/findAddressCandidates";
       params := ps |} in
  tryCatch
    (let! response := fetch req in
     let! data := json response in
     match gError data, candidates data with
     | Some _, _ => ret None
     | None, None => ret None
     | None, Some [] => ret None
     | None, Some (candidate :: _) => ret (Some (toResult candidate))
     end)
    (fun _ => ret None).

End Suggest.

(** ** services/arcgis/geocoding.ts: reverse geocoding *)

Module ReverseGeocoding.
Import Js Effects.
Local Open Scope eff_scope.




End ReverseGeocoding.

(** ** config/arcgis.config.ts *)

Module ArcgisConfig.
Import Js Effects.

(** The variables of [import.meta.env] the configuration reads. *)
Record ImportMetaEnv := {
  VITE_ARCGIS_FEATURE_SERVICE_URL : option string;
  VITE_ARCGIS_CLIENT_ID : option string;
  VITE_ARCGIS_PORTAL_URL : option string;
  VITE_ARCGIS_REDIRECT_URI : option string;
  VITE_ARCGIS_GEOCODE_SERVICE_URL : option string
}.

(** The binary64 values of the literals [-87.8] and [42.1]. *)
Definition lakeForest : spec_float * spec_float :=
  (S754_finite true 6178375738798899 (-46),
   S754_finite false 5925048259759309 (-47)).

(** The fields of [arcgisConfig] the services read, on a page whose
    [window.location.origin] is [origin]. *)
Definition arcgisConfig (env : ImportMetaEnv) (origin : string) : Config :=
  {| featureServiceUrl := orStr (VITE_ARCGIS_FEATURE_SERVICE_URL env) "";
     geocodeServiceUrl :=
       orStr (VITE_ARCGIS_GEOCODE_SERVICE_URL env)
         "https://geocode.arcgis.com/arcgis/rest/services/World/GeocodeServer";
     clientId := orStr (VITE_ARCGIS_CLIENT_ID env) "";
     portalUrl := orStr (VITE_ARCGIS_PORTAL_URL env) "https://www.arcgis.com";
     redirectUri := orStr (VITE_ARCGIS_REDIRECT_URI env) origin;
     mapCenter := lakeForest |}.

Record Validation := {
  valid : bool;
  errors : list string
}.

Definition validateConfig (c : Config) : Validation :=
  let errors : list string := [] in
  let errors :=
    if negb (truthyStr (Some (featureServiceUrl c)))
    then errors ++ ["VITE_ARCGIS_FEATURE_SERVICE_URL is required"]
    else errors in
  let errors :=
    if truthyStr (Some (clientId c)) && negb (truthyStr (Some (redirectUri c)))
    then errors ++ ["VITE_ARCGIS_REDIRECT_URI is required when using OAuth"]
    else errors in
  {| valid := Nat.eqb (length errors) 0; errors := errors |}.

End ArcgisConfig.

(** ** components/DashboardsIntegrated.tsx: the detail panel *)

Module DetailPanel.
Import Js Types.

(** The condition under which the "Lead Service Line Detected" banner is
    rendered for the selected location. *)
Definition leadBanner (selected : Location) : bool :=
  String.eqb (toLowerCase (customerMaterial selected)) "lead" ||
  String.eqb (toLowerCase (supplierMaterial selected)) "lead".

End DetailPanel.

(** ** hooks/useFeatureLayer.ts, hooks/useGeocoder.ts, hooks/useArcGISAuth.ts

    The state of a hook is a record; a callback of the hook is a computation
    that takes the state before it and returns the state after its last
    [set...] call. *)

Module Hooks.
Import Js Types Effects FeatureService.
Local Open Scope eff_scope.

(** [err instanceof Error ? err.message : fallback]: every exception of the
    embedding is an [Error]. *)
Definition messageOf (e : Exn) : string :=
  match e with
  | Error msg | TypeError msg | SyntaxError msg => msg
  end.

Record FeatureLayer := {
  locations : list Location;
  stats : Stats;
  loading : bool;
  error : option string
}.

(** The state [useFeatureLayer] starts with. *)
Definition featureLayerInit : FeatureLayer :=
  {| locations := []; stats := zeroStats; loading := true; error := None |}.

(** [fetchData]: both operations of [Promise.all] are started, the list query
    first; the stats operation cannot reject, so a rejection of the pair is
    the rejection of the list query. *)
Definition fetchData (filters : FilterOptions) (st : FeatureLayer)
  : Eff QueryData FeatureLayer :=
  fun env w =>
    let st := {| locations := locations st; stats := stats st;
                 loading := true; error := None |} in
    let '(locationsData, w1) := queryFeatures filters env w in
    let '(statsData, w2) := getFeatureStats env w1 in
    let st :=
      match locationsData, statsData with
      | Ok ls, Ok s =>
          {| locations := ls; stats := s;
             loading := loading st; error := error st |}
      | Thrown err, _ | Ok _, Thrown err =>
          {| locations := locations st; stats := stats st;
             loading := loading st; error := Some (messageOf err) |}
      end in
    (Ok {| locations := locations st; stats := stats st;
           loading := false; error := error st |}, w2).

Record Geocoder := {
  results : list GeocodeResult;
  suggestions : list Suggest.Suggestion;
  searching : bool;
  searchError : option string
}.

Definition geocoderInit : Geocoder :=
  {| results := []; suggestions := []; searching := false; searchError := None |}.

(** [search] of [useGeocoder] *)
Definition search (text : option string) (center : option Point) (st : Geocoder)
  : Eff Geocoding.GeocodeData Geocoder :=
  if Geocoding.tooShort text 3 then
    ret {| results := []; suggestions := suggestions st;
           searching := searching st; searchError := searchError st |}
  else
    fun env w =>
      let st := {| results := results st; suggestions := suggestions st;
                   searching := true; searchError := None |} in
      let '(r, w1) := Geocoding.geocodeAddress text center env w in
      let st :=
        match r with
        | Ok geocodeResults =>
            {| results := geocodeResults; suggestions := suggestions st;
               searching := searching st; searchError := searchError st |}
        | Thrown err =>
            {| results := results st; suggestions := suggestions st;
               searching := searching st; searchError := Some (messageOf err) |}
        end in
      (Ok {| results := results st; suggestions := suggestions st;
             searching := false; searchError := searchError st |}, w1).

(** [getSuggestions] of [useGeocoder] *)
Definition fetchSuggestions (text : option string) (center : option Point)
  (st : Geocoder) : Eff Suggest.SuggestData Geocoder :=
  if Geocoding.tooShort text 2 then
    ret {| results := results st; suggestions := [];
           searching := searching st; searchError := searchError st |}
  else
    fun env w =>
      let '(r, w1) := Suggest.getSuggestions text center env w in
      (Ok {| results := results st;
             suggestions := match r with Ok s => s | Thrown _ => [] end;
             searching := searching st; searchError := searchError st |}, w1).

Definition clearResults (st : Geocoder) : Geocoder :=
  {| results := []; suggestions := [];
     searching := searching st; searchError := None |}.

(** [handleSearch] of the dashboard: the new search term, and the geocoder
    after the call. *)
Definition handleSearch (value : string) (st : Geocoder)
  : Eff Geocoding.GeocodeData (string * Geocoder) :=
  if 3 <=? String.length value then
    let! st' := search (Some value) None st in
    ret (value, st')
  else ret (value, st).

Record Auth := {
  isAuthenticated : bool;
  authLoading : bool;
  authError : option string
}.

Definition authInit : Auth :=
  {| isAuthenticated := false; authLoading := true; authError := None |}.

(** [checkAuth], the effect [useArcGISAuth] runs on mount; [code] is the
    code parameter of the page address. *)
Definition checkAuth (code : option string) (st : Auth)
  : Eff AuthService.TokenData Auth :=
  fun env w =>
    let '(r, w1) := AuthFlow.checkForCallback code env w in
    let st :=
      match r with
      | Ok _ =>
          {| isAuthenticated := AuthService.isAuthenticated (now env) w1;
             authLoading := authLoading st; authError := authError st |}
      | Thrown err =>
          {| isAuthenticated := isAuthenticated st;
             authLoading := authLoading st;
             authError := Some (messageOf err) |}
      end in
    (Ok {| isAuthenticated := isAuthenticated st; authLoading := false;
           authError := authError st |}, w1).

(** [login] of [useArcGISAuth]; the second component is the navigation the
    service started, if it did. *)
Definition login {P} (c : Pkce.Crypto) (pathname : string) (st : Auth)
  : Eff P (Auth * option AuthFlow.Navigation) :=
  fun env w =>
    let st := {| isAuthenticated := isAuthenticated st;
                 authLoading := authLoading st; authError := None |} in
    match AuthFlow.login c pathname env w with
    | (Ok nav, w1) => (Ok (st, Some nav), w1)
    | (Thrown err, w1) =>
        (Ok ({| isAuthenticated := isAuthenticated st;
                authLoading := authLoading st;
                authError := Some (messageOf err) |}, None), w1)
    end.

(** [logout] of [useArcGISAuth] *)
Definition logout {P} (st : Auth) : Eff P Auth :=
  let! _ := modify AuthService.logout in
  ret {| isAuthenticated := false; authLoading := authLoading st;
         authError := None |}.

End Hooks.

(** ** Vocabulary of the properties, and sample data *)

Module Vocabulary.
Import Js Types Effects.

(** [needle] occurs in [hay]. *)
Definition Contains (hay needle : string) : Prop :=
  exists pre post, hay = pre +:+ needle +:+ post.

(** The codes the classifier recognises, after lowering. *)
Definition leadCodes : list string := ["lead"; "pb"; "l"].
Definition copperCodes : list string := ["copper"; "cu"].
Definition galvanizedCodes : list string := ["galv"; "galvanized"].
Definition undeterminedCodes : list string := ["unknown"; "unk"; "u"; ""].
Definition knownCodes : list string :=
  leadCodes ++ copperCodes ++ galvanizedCodes ++ undeterminedCodes.

(** The short codes the specification lists. *)
Definition listedShortCodes : list string := ["pb"; "l"; "cu"; "galv"; "unk"; "u"].

(** [small] is the small letter of the capital [capital]: a to z for A to Z,
    and the small letters 224 to 254 of the Latin-1 supplement for its
    capitals 192 to 222; the signs 215 (multiplication) and 247 (division)
    are not letters. *)
Inductive SmallOf : ascii -> ascii -> Prop :=
| small_of (n : nat) :
    65 <= n <= 90 \/ 192 <= n <= 214 \/ 216 <= n <= 222 ->
    SmallOf (ascii_of_nat n) (ascii_of_nat (n + 32)).

(** Two characters are the same letter when they are equal or one is the
    small letter of the other. *)
Definition SameLetter (a b : ascii) : Prop :=
  a = b \/ SmallOf a b \/ SmallOf b a.

(** Two strings are equal, letter case ignored: they have the same length
    and the same letter at every position. *)
Inductive EqualIgnoringCase : string -> string -> Prop :=
| eic_empty : EqualIgnoringCase "" ""
| eic_letter (a b : ascii) (s t : string) :
    SameLetter a b -> EqualIgnoringCase s t ->
    EqualIgnoringCase (String a s) (String b t).

(** [text] contains [term], letter case ignored: a stretch of [text] equals
    [term] up to the case of its letters. *)
Definition ContainsCI (text term : string) : Prop :=
  exists pre mid post,
    text = pre +:+ mid +:+ post /\ EqualIgnoringCase mid term.

Definition mkLocation (i : Z) (addr : string) : Location :=
  {| id := i; address := addr; customerMaterial := "Copper";
     supplierMaterial := "Copper"; letterSent := false; buildYear := 1990;
     status := "VERIFIED"; lat := zero; lng := zero |}.

Definition sampleLocations : list Location :=
  [mkLocation 1 "12 Oak Street"; mkLocation 2 "7 Deerpath Road";
   mkLocation 3 "450 OAKWOOD Ave"; mkLocation 4 "9 Elm Court";
   mkLocation 5 "33 Burr oak Lane"; mkLocation 6 "220 E. Deerpath";
   mkLocation 7 "18 Maple Way"; mkLocation 8 "5 Sheridan Road";
   mkLocation 9 "71 Oakdale Drive"; mkLocation 10 "2 Green Bay Road";
   mkLocation 11 "640 Illinois Road"; mkLocation 12 "14 Woodland Road"].

(** "CAFE" and "cafe" with an acute accent on the last letter: the capital E
    with acute is the code unit 201, the small one the code unit 233. *)
Definition cafeCapitals : string := "CAF" +:+ String "201"%char "".
Definition cafeSmall : string := "caf" +:+ String "233"%char "".

(** The multiplication sign (215) and the division sign (247): 32 code units
    apart like a capital and its small letter, but no letters. *)
Definition timesSign : string := String "215"%char "".
Definition divisionSign : string := String "247"%char "".

(** Either the customer-side or the supplier-side material is [lit]. *)
Definition eitherMaterialIs (lit : string) (r : Attributes) : Prop :=
  CustomerMaterial r = Some lit \/ SupplierMaterial r = Some lit.

(** The status of the record is one of [lits]. *)
Definition statusAmong (lits : list string) (r : Attributes) : Prop :=
  exists v, Status r = Some v /\ In v lits.

(** A filter selection. *)
Definition selection (m : Material) (c s : bool) (st : option (list string))
  : FilterOptions :=
  {| material := m; showCustomer := c; showSupplier := s; statusFilter := st |}.

(** A record with every optional attribute missing, and no geometry. *)
Definition bareFeature : Feature :=
  {| attributes :=
       {| OBJECTID := 7; Address := None; CustomerMaterial := None;
          SupplierMaterial := None; YearBuilt := None; Status := None;
          LetterSent := VUndefined |};
     geometry := None |}.

Definition mkFeature (i : Z) (cust supp st : string) : Feature :=
  {| attributes :=
       {| OBJECTID := i; Address := Some "1 Main St";
          CustomerMaterial := Some cust; SupplierMaterial := Some supp;
          YearBuilt := Some 1950%Z; Status := Some st; LetterSent := VNum 1 |};
     geometry := None |}.

(** A fixture with 2 lead, 3 unknown, 5 verified and 2 assumed records. *)
Definition statsFixture : list Feature :=
  [mkFeature 1 "Lead" "Copper" "VERIFIED";
   mkFeature 2 "Copper" "Lead" "VERIFIED";
   mkFeature 3 "Unknown" "Copper" "ASSUMED";
   mkFeature 4 "Copper" "Unknown" "ASSUMED";
   mkFeature 5 "Unknown" "Unknown" "UNKNOWN";
   mkFeature 6 "Copper" "Copper" "VERIFIED";
   mkFeature 7 "Copper" "Copper" "VERIFIED";
   mkFeature 8 "Galvanized" "Copper" "VERIFIED"].

(** The credential is valid at instant [t]: the token and the expiry
    instant are both present (the source tests both for truthiness, so an
    empty token string and a zero instant count as absent) and the expiry is
    strictly after [t]. *)
Definition validCredential (t : Z) (w : World) : Prop :=
  exists tok e,
    accessToken w = Some tok /\ tok <> "" /\
    tokenExpiry w = Some (Int e) /\ e <> 0%Z /\ (t < e)%Z.

(** The four query paths of the feature query client. *)
Inductive QueryPath :=
| ByFilter (filters : FilterOptions)
| ById (objectId : Z)
| ByExtent (extent : FeatureService.Extent) (filters : FilterOptions)
| AggregateStats.

(** The world a query path leaves behind. *)
Definition worldAfter (q : QueryPath) (env : Env FeatureService.QueryData)
  (w : World) : World :=
  match q with
  | ByFilter f => snd (FeatureService.queryFeatures f env w)
  | ById i => snd (FeatureService.queryFeatureById i env w)
  | ByExtent e f => snd (FeatureService.queryFeaturesInExtent e f env w)
  | AggregateStats => snd (FeatureService.getFeatureStats env w)
  end.

(** [URLSearchParams.get] *)
Fixpoint paramValue (k : string) (ps : list (string * string)) : option string :=
  match ps with
  | [] => None
  | (k', v) :: rest => if String.eqb k' k then Some v else paramValue k rest
  end.

(** The network answers every request with [o]. *)
Definition replies {P} (env : Env P) (o : FetchOutcome P) : Prop :=
  forall req, network env req = o.

(** The token-exchange request of [handleCallback]. *)
Definition tokenExchange (cfg : Config) (code verifier : string) : Request :=
  {| method := POST;
     url := portalUrl cfg +:+ "/sharing/rest/oauth2/token";
     params :=
       [("client_id", clientId cfg);
        ("grant_type", "authorization_code");
        ("code", code);
        ("redirect_uri", redirectUri cfg);
        ("code_verifier", verifier)] |}.

Definition sampleConfig : Config :=
  {| featureServiceUrl := "https://services.example/FeatureServer/0";
     geocodeServiceUrl := "https://geocode.example/GeocodeServer";
     clientId := "client";
     portalUrl := "https://www.arcgis.com";
     redirectUri := "http://localhost:5173";
     mapCenter := (S754_zero false, S754_zero false) |}.

(** A host whose clock reads [t] and whose network answers [o]. *)
Definition sampleEnv {P} (t : Z) (o : FetchOutcome P) : Env P :=
  {| now := t; network := fun _ => o; arcgisConfig := sampleConfig;
     numberToString := fun _ => "0" |}.

(** A signed-in session whose token expires at instant 2000. *)
Definition signedIn : World :=
  {| accessToken := Some "tok"; refreshToken := Some "ref";
     tokenExpiry := Some (Int 2000); codeVerifier := None;
     sessionStorage := ∅; sent := [] |}.

(** A session waiting for the callback: the verifier is stored. *)
Definition authorizing : World :=
  {| accessToken := None; refreshToken := None; tokenExpiry := None;
     codeVerifier := Some "verifier";
     sessionStorage := {["pkce_verifier" := "verifier"]}; sent := [] |}.

Definition badRequest : Response AuthService.TokenData :=
  {| ok := false; statusText := "Bad Request"; body := None |}.

(** The request a query path sends: its fixed parameters, followed by the
    token parameter when the session hands out a token. *)
Definition requestOf (env : Env FeatureService.QueryData) (w : World)
  (base : list (string * string)) : Request :=
  {| method := GET;
     url := featureServiceUrl (arcgisConfig env) +:+ "/query";
     params :=
       FeatureService.appendToken base (AuthService.getAccessToken (now env) w) |}.

Definition noTokenKey (base : list (string * string)) : Prop :=
  forall v, ~ In ("token", v) base.

(** The failures of a feature query: the request is rejected, the answer
    has a status other than success, or the answer carries an error payload
    of the provider. *)
Inductive QueryFailure : FetchOutcome FeatureService.QueryData -> Prop :=
| TransportError (e : Exn) : QueryFailure (Rejected e)
| FailureStatus (r : Response FeatureService.QueryData) :
    ok r = false -> QueryFailure (Resolved r)
| ErrorPayload (r : Response FeatureService.QueryData)
    (d : FeatureService.QueryData) (e : FeatureService.ErrorInfo) :
    body r = Some d -> FeatureService.error d = Some e ->
    QueryFailure (Resolved r).

(** The answer [o] carries the record list [fs] and no error payload. *)
Definition carriesRecords (o : FetchOutcome FeatureService.QueryData)
  (fs : list Feature) : Prop :=
  exists r, o = Resolved r /\
    body r = Some {| FeatureService.error := None;
                     FeatureService.features := Some fs |}.

#[global] Instance eitherMaterialIs_dec (lit : string) (r : Attributes) :
  Decision (eitherMaterialIs lit r).
Proof. unfold eitherMaterialIs. apply _. Defined.

(** A successful answer carrying the records [fs]. *)
Definition featuresResponse (fs : list Feature)
  : Response FeatureService.QueryData :=
  {| ok := true; statusText := "OK";
     body := Some {| FeatureService.error := None;
                     FeatureService.features := Some fs |} |}.

(** A provider-reported error payload, delivered with status 200. *)
Definition errorResponse : Response FeatureService.QueryData :=
  {| ok := true; statusText := "OK";
     body := Some {| FeatureService.error :=
                       Some {| FeatureService.message := "Invalid token" |};
                     FeatureService.features := None |} |}.

(** An answer with status 503 whose body is the record list [fs]. *)
Definition unavailableResponse (fs : list Feature)
  : Response FeatureService.QueryData :=
  {| ok := false; statusText := "Service Unavailable";
     body := Some {| FeatureService.error := None;
                     FeatureService.features := Some fs |} |}.

(** A host whose dataset answers every query with status 503 and the eight
    records of the fixture. *)
Definition unavailableEnv : Env FeatureService.QueryData :=
  sampleEnv 0 (Resolved (unavailableResponse statsFixture)).

Definition sampleExtent : FeatureService.Extent :=
  {| FeatureService.xmin := S754_zero false; FeatureService.ymin := S754_zero false;
     FeatureService.xmax := S754_zero false; FeatureService.ymax := S754_zero false |}.

(** The request [geocodeAddress] sends for the text [s]. *)
Definition geocodeRequest (env : Env Geocoding.GeocodeData) (s : string)
  (center : option Point) : Request :=
  {| method := GET;
     url := geocodeServiceUrl (arcgisConfig env) +:+ "/findAddressCandidates";
     params :=
       [("SingleLine", s); ("f", "json"); ("outFields", "*");
        ("maxLocations", "10"); ("outSR", "4326")] ++
       [("location",
         match center with
         | Some c =>
             numberToString env (x c) +:+ "," +:+ numberToString env (y c)
         | None =>
             numberToString env (fst (mapCenter (arcgisConfig env))) +:+ "," +:+
             numberToString env (snd (mapCenter (arcgisConfig env)))
         end)] |}.

(** The failures of a forward search: the request is rejected, the status is
    not 2xx, the body does not parse, or the answer carries an error payload
    or no candidate list. *)
Inductive GeocodeFailure : FetchOutcome Geocoding.GeocodeData -> Prop :=
| GeocodeRejected (e : Exn) : GeocodeFailure (Rejected e)
| GeocodeStatus (r : Response Geocoding.GeocodeData) :
    ok r = false -> GeocodeFailure (Resolved r)
| GeocodeUnreadable (r : Response Geocoding.GeocodeData) :
    body r = None -> GeocodeFailure (Resolved r)
| GeocodeErrorPayload (r : Response Geocoding.GeocodeData)
    (d : Geocoding.GeocodeData) (e : FeatureService.ErrorInfo) :
    body r = Some d -> Geocoding.gError d = Some e -> GeocodeFailure (Resolved r)
| GeocodeNoCandidates (r : Response Geocoding.GeocodeData)
    (d : Geocoding.GeocodeData) :
    body r = Some d -> Geocoding.candidates d = None -> GeocodeFailure (Resolved r).

(** What a rejected [fetch] throws. *)
Definition offline : Exn := TypeError "Failed to fetch".

End Vocabulary.

(** ** Vocabulary of the further properties *)

Module Vocabulary2.
Import Js Types Effects.

(** Every character of [s] satisfies [p]. *)
Fixpoint allChars (p : ascii -> bool) (s : string) : bool :=
  match s with
  | EmptyString => true
  | String a r => p a && allChars p r
  end.

Definition isAlphaNum (a : ascii) : bool :=
  let n := nat_of_ascii a in
  ((65 <=? n) && (n <=? 90)) || ((97 <=? n) && (n <=? 122)) ||
  ((48 <=? n) && (n <=? 57)).

(** The unreserved characters of a code verifier: letters, digits and
    [-], [.], [_], [~]. *)
Definition isUnreserved (a : ascii) : bool :=
  isAlphaNum a || Ascii.eqb a "-" || Ascii.eqb a "." || Ascii.eqb a "_" ||
  Ascii.eqb a "~".

(** The characters of the URL-safe base64 alphabet. *)
Definition isUrlSafe (a : ascii) : bool :=
  isAlphaNum a || Ascii.eqb a "-" || Ascii.eqb a "_".

(** The characters of the standard base64 alphabet. *)
Definition isB64 (a : ascii) : bool :=
  isAlphaNum a || Ascii.eqb a "+" || Ascii.eqb a "/".

(** The three rewriting steps of [base64UrlEncode]. *)
Definition urlSafe (s : string) : string :=
  Pkce.removeAll "=" (Pkce.replaceAll "/" "_" (Pkce.replaceAll "+" "-" s)).

(** A generator that delivers the bytes 0, 1, 2, ... and a digest of 32
    bytes that depends on the length of its argument only. *)
Definition sampleCrypto : Pkce.Crypto :=
  {| Pkce.entropy := fun i => ascii_of_nat i;
     Pkce.sha256 := fun v => repeat (ascii_of_nat (String.length v)) 32 |}.

(** The verifier [login] draws from the generator [c]. *)
Definition verifierOf (c : Pkce.Crypto) : string :=
  fst (Pkce.generatePKCE c 0).

(** A successful answer of the token endpoint. *)
Definition tokenResponse (data : AuthService.TokenData)
  : Response AuthService.TokenData :=
  {| ok := true; statusText := "OK"; body := Some data |}.

Definition sampleToken : AuthService.TokenData :=
  {| AuthService.access_token := Some "tok";
     AuthService.refresh_token := Some "ref";
     AuthService.expires_in := Some 7200%Z |}.

(** A token answer without a lifetime. *)
Definition tokenWithoutLifetime : AuthService.TokenData :=
  {| AuthService.access_token := Some "tok";
     AuthService.refresh_token := Some "ref";
     AuthService.expires_in := None |}.

(** A host without a client identifier. *)
Definition unconfiguredEnv {P} (o : FetchOutcome P) : Env P :=
  {| now := 0; network := fun _ => o;
     arcgisConfig :=
       {| featureServiceUrl := ""; geocodeServiceUrl := ""; clientId := "";
          portalUrl := "https://www.arcgis.com"; redirectUri := "";
          mapCenter := (S754_zero false, S754_zero false) |};
     numberToString := fun _ => "0" |}.

(** The badge classes of [getMaterialColor]. *)
Definition amber : string := "text-amber-700 bg-amber-50 border-amber-200".
Definition emerald : string := "text-emerald-700 bg-emerald-50 border-emerald-200".
Definition slate : string := "text-slate-700 bg-slate-50 border-slate-200".
Definition gray : string := "text-gray-600 bg-gray-50 border-gray-200".

(** Both material attributes of the record are missing. *)
Definition materialsMissing (f : Feature) : Prop :=
  CustomerMaterial (attributes f) = None /\
  SupplierMaterial (attributes f) = None.

(** A location with the given materials. *)
Definition withMaterials (cust supp : string) : Location :=
  {| id := 1; address := "1 Main St"; customerMaterial := cust;
     supplierMaterial := supp; letterSent := false; buildYear := 1950;
     status := "VERIFIED"; lat := zero; lng := zero |}.

(** The request [getSuggestions] sends for the text [s]. *)
Definition suggestRequest (env : Env Suggest.SuggestData) (s : string)
  (center : option Point) : Request :=
  {| method := GET;
     url := geocodeServiceUrl (arcgisConfig env) +:+ "/suggest";
     params :=
       [("text", s); ("f", "json"); ("maxSuggestions", "8")] ++
       [("location",
         match center with
         | Some c =>
             numberToString env (x c) +:+ "," +:+ numberToString env (y c)
         | None =>
             numberToString env (fst (mapCenter (arcgisConfig env))) +:+ "," +:+
             numberToString env (snd (mapCenter (arcgisConfig env)))
         end)] |}.

(** The request [findAddressFromMagicKey] sends. *)
Definition magicKeyRequest (env : Env Geocoding.GeocodeData) (key : string)
  : Request :=
  {| method := GET;
     url := geocodeServiceUrl (arcgisConfig env) +:+ "/findAddressCandidates";
     params :=
       [("magicKey", key); ("f", "json"); ("outSR", "4326"); ("outFields", "*")] |}.


(** The answers to a suggestion request that carry no list of suggestions:
    a rejection, an unreadable body, an error payload, a missing list. *)
Inductive SuggestFailure : FetchOutcome Suggest.SuggestData -> Prop :=
| SuggestRejected (e : Exn) : SuggestFailure (Rejected e)
| SuggestUnreadable (r : Response Suggest.SuggestData) :
    body r = None -> SuggestFailure (Resolved r)
| SuggestErrorPayload (r : Response Suggest.SuggestData)
    (d : Suggest.SuggestData) (e : FeatureService.ErrorInfo) :
    body r = Some d -> Suggest.sError d = Some e -> SuggestFailure (Resolved r)
| SuggestNoList (r : Response Suggest.SuggestData) (d : Suggest.SuggestData) :
    body r = Some d -> Suggest.suggestions d = None -> SuggestFailure (Resolved r).

Definition sampleCandidate (a : string) : Geocoding.Candidate :=
  {| Geocoding.cAddress := a;
     Geocoding.cLocation := {| x := zero; y := zero |};
     Geocoding.cScore := zero;
     Geocoding.cAttributes := ∅ |}.

(** A successful answer with the candidates [cs]. *)
Definition candidatesResponse (cs : list Geocoding.Candidate)
  : Response Geocoding.GeocodeData :=
  {| ok := true; statusText := "OK";
     body := Some {| Geocoding.gError := None; Geocoding.candidates := Some cs |} |}.


(** An environment in which only the feature service is configured. *)
Definition minimalEnv : ArcgisConfig.ImportMetaEnv :=
  {| ArcgisConfig.VITE_ARCGIS_FEATURE_SERVICE_URL :=
       Some "https://services.example/FeatureServer/0";
     ArcgisConfig.VITE_ARCGIS_CLIENT_ID := None;
     ArcgisConfig.VITE_ARCGIS_PORTAL_URL := None;
     ArcgisConfig.VITE_ARCGIS_REDIRECT_URI := None;
     ArcgisConfig.VITE_ARCGIS_GEOCODE_SERVICE_URL := None |}.

Definition redirectError : string :=
  "VITE_ARCGIS_REDIRECT_URI is required when using OAuth".

Definition featureServiceError : string :=
  "VITE_ARCGIS_FEATURE_SERVICE_URL is required".

(** A feature-layer state showing earlier data. *)
Definition showing (ls : list Location) (s : FeatureService.Stats)
  : Hooks.FeatureLayer :=
  {| Hooks.locations := ls; Hooks.stats := s; Hooks.loading := false;
     Hooks.error := None |}.

End Vocabulary2.

(** * Properties *)

#[local] Arguments String.append !s1 s2 : simpl nomatch.

Module Tactics.
Import Js Types Effects FeatureService.

(** Unfolds one run of a computation of the effect monad. *)
Ltac run :=
  unfold queryFeatures, queryFeatureById, queryFeaturesInExtent, getFeatureStats,
    currentToken, queryRequest, featuresOf, sessionGetItem, sessionRemoveItem,
    fetch, json, tryCatch, bind, ret, throw, reads, modify;
  cbn.

(** Case analysis on what the network answered. *)
Ltac case_outcome :=
  repeat match goal with
    | |- context [match network ?env ?req with _ => _ end] =>
        destruct (network env req) eqn:?; cbn
    | |- context [if negb (ok ?r) then _ else _] => destruct (ok r) eqn:?; cbn
    | |- context [match body ?r with _ => _ end] => destruct (body r) eqn:?; cbn
    | |- context [match error ?d with _ => _ end] => destruct (error d) eqn:?; cbn
    | |- context [match features ?d with _ => _ end] =>
        destruct (features d) as [[|? ?]|] eqn:?; cbn
    end.

(** Closes [In (k, v) l -> False] for a list [l] of pairs with other keys. *)
Ltac no_such_key H :=
  cbn in H;
  repeat (destruct H as [H | H]; [discriminate H|]);
  exact H.

End Tactics.

(** ** Strings *)

Module JsFacts.
Import Js Vocabulary.

Lemma append_assoc (a b c : string) : (a +:+ b) +:+ c = a +:+ (b +:+ c).
Proof. induction a as [|ch a IH]; simpl; [reflexivity | now rewrite IH]. Qed.

Lemma prefix_spec (p s : string) :
  String.prefix p s = true <-> exists post, s = p +:+ post.
Proof.
  revert p. induction s as [|d s IH]; intros [|c p]; simpl.
  - split; [intros _; now exists "" | reflexivity].
  - split; [discriminate | intros [post H]; discriminate].
  - split; [intros _; now exists (String d s) | reflexivity].
  - destruct (Ascii.ascii_dec c d) as [->|Hne].
    + rewrite IH. split; intros [post H]; exists post.
      * now rewrite H.
      * now inversion H.
    + split; [discriminate | intros [post H]; inversion H; congruence].
Qed.

Lemma includes_spec (hay needle : string) :
  includes hay needle = true <-> Contains hay needle.
Proof.
  induction hay as [|c hay IH]; cbn [includes].
  - rewrite orb_false_r, prefix_spec. split.
    + intros [post H]. now exists "", post.
    + intros [pre [post H]]. destruct pre; [now exists post | discriminate].
  - rewrite orb_true_iff, prefix_spec, IH. split.
    + intros [[post H] | [pre [post H]]].
      * now exists "", post.
      * exists (String c pre), post. simpl. now rewrite H.
    + intros [pre [post H]]. destruct pre as [|d pre]; simpl in H.
      * left. now exists post.
      * right. inversion H. now exists pre, post.
Qed.

Lemma includes_empty (hay : string) : includes hay "" = true.
Proof. destruct hay; reflexivity. Qed.

Lemma toLowerChar_idem (c : ascii) : toLowerChar (toLowerChar c) = toLowerChar c.
Proof.
  destruct c as [[] [] [] [] [] [] [] []]; reflexivity.
Qed.

Lemma toLowerCase_idem (s : string) : toLowerCase (toLowerCase s) = toLowerCase s.
Proof.
  induction s as [|c s IH]; simpl; [reflexivity|].
  now rewrite toLowerChar_idem, IH.
Qed.

Lemma isUpperCase_spec (c : ascii) :
  isUpperCase c = true <->
  (65 <= nat_of_ascii c <= 90 \/ 192 <= nat_of_ascii c <= 214 \/
   216 <= nat_of_ascii c <= 222).
Proof.
  unfold isUpperCase. cbv zeta.
  rewrite orb_true_iff, !andb_true_iff, negb_true_iff, !Nat.leb_le, Nat.eqb_neq.
  lia.
Qed.

Lemma toLowerChar_capital (n : nat) :
  65 <= n <= 90 \/ 192 <= n <= 214 \/ 216 <= n <= 222 ->
  toLowerChar (ascii_of_nat n) = ascii_of_nat (n + 32) /\
  toLowerChar (ascii_of_nat (n + 32)) = ascii_of_nat (n + 32).
Proof.
  intros Hn. unfold toLowerChar. split.
  - destruct (isUpperCase (ascii_of_nat n)) eqn:E.
    + now rewrite nat_ascii_embedding by lia.
    + assert (X : isUpperCase (ascii_of_nat n) = true).
      { apply isUpperCase_spec. rewrite nat_ascii_embedding by lia. exact Hn. }
      congruence.
  - destruct (isUpperCase (ascii_of_nat (n + 32))) eqn:E; [|reflexivity].
    apply isUpperCase_spec in E. rewrite nat_ascii_embedding in E by lia. lia.
Qed.

(** Lowering identifies exactly the characters that are the same letter. *)
Lemma toLowerChar_same_letter (a b : ascii) :
  toLowerChar a = toLowerChar b <-> SameLetter a b.
Proof.
  split.
  - unfold toLowerChar. intros H.
    pose proof (nat_ascii_bounded a) as Ba. pose proof (nat_ascii_bounded b) as Bb.
    destruct (isUpperCase a) eqn:Ea, (isUpperCase b) eqn:Eb.
    + left. apply isUpperCase_spec in Ea, Eb.
      apply (f_equal nat_of_ascii) in H.
      rewrite !nat_ascii_embedding in H by lia.
      rewrite <- (ascii_nat_embedding a), <- (ascii_nat_embedding b).
      f_equal. lia.
    + right. left. apply isUpperCase_spec in Ea.
      rewrite <- H, <- (ascii_nat_embedding a) at 1. now constructor.
    + right. right. apply isUpperCase_spec in Eb.
      rewrite H, <- (ascii_nat_embedding b) at 1. now constructor.
    + now left.
  - intros [-> | [H | H]]; [reflexivity | |]; destruct H as [n Hn];
      destruct (toLowerChar_capital n Hn) as [-> ->]; reflexivity.
Qed.

Lemma toLowerCase_equal_ignoring_case (s t : string) :
  toLowerCase s = toLowerCase t <-> EqualIgnoringCase s t.
Proof.
  revert t. induction s as [|a s IH]; intros [|b t]; simpl.
  - split; [constructor | reflexivity].
  - split; [discriminate | intros H; inversion H].
  - split; [discriminate | intros H; inversion H].
  - split.
    + intros H. inversion H as [[Hc Hs]]. constructor.
      * now apply toLowerChar_same_letter.
      * now apply IH.
    + intros H. inversion H as [|? ? ? ? Hc Hs]; subst.
      apply toLowerChar_same_letter in Hc. apply IH in Hs.
      now rewrite Hc, Hs.
Qed.

Lemma toLowerCase_append (s t : string) :
  toLowerCase (s +:+ t) = toLowerCase s +:+ toLowerCase t.
Proof. induction s as [|a s IH]; simpl; [reflexivity | now rewrite IH]. Qed.

(** Lowering works character by character, so a split of the lowered text
    is the lowering of a split of the text. *)
Lemma toLowerCase_split (s a b : string) :
  toLowerCase s = a +:+ b ->
  exists s1 s2, s = s1 +:+ s2 /\ toLowerCase s1 = a /\ toLowerCase s2 = b.
Proof.
  revert s. induction a as [|c a IH]; intros s H.
  - exists "", s. now repeat split.
  - destruct s as [|d s]; [discriminate|]. simpl in H.
    inversion H as [[Hc Hs]].
    destruct (IH s Hs) as [s1 [s2 [-> [H1 H2]]]].
    exists (String d s1), s2. simpl. rewrite H1.
    split; [reflexivity | split; [reflexivity | exact H2]].
Qed.

(** What the filter computes with [toLowerCase] and [includes] is
    containment up to letter case. *)
Lemma includes_lowered (text term : string) :
  includes (toLowerCase text) (toLowerCase term) = true <-> ContainsCI text term.
Proof.
  rewrite includes_spec. split.
  - intros [pre [post H]].
    destruct (toLowerCase_split _ _ _ H) as [s1 [s23 [-> [H1 H23]]]].
    destruct (toLowerCase_split _ _ _ H23) as [s2 [s3 [-> [H2 H3]]]].
    exists s1, s2, s3. split; [reflexivity|].
    now apply toLowerCase_equal_ignoring_case.
  - intros [pre [mid [post [-> H]]]].
    apply toLowerCase_equal_ignoring_case in H.
    exists (toLowerCase pre), (toLowerCase post).
    now rewrite !toLowerCase_append, H.
Qed.

End JsFacts.

(** ** The material classifier and the address filter *)

Module DashboardsFacts.
Import Js Types Dashboards Vocabulary JsFacts.

Lemma arrIncludes_In (l : list string) (v : string) :
  arrIncludes l v = true <-> In v l.
Proof.
  unfold arrIncludes. rewrite existsb_exists. split.
  - intros [u [Hin Heq]]. apply String.eqb_eq in Heq. now subst.
  - intros Hin. exists v. split; [assumption | apply String.eqb_refl].
Qed.

Lemma arrIncludes_not_In (l : list string) (v : string) :
  arrIncludes l v = false <-> ~ In v l.
Proof.
  rewrite <- arrIncludes_In. destruct (arrIncludes l v); split; congruence.
Qed.

Lemma label_lead (c : string) :
  In (toLowerCase c) leadCodes -> MATERIAL_LABEL (Some c) = "Lead".
Proof.
  intros H. unfold MATERIAL_LABEL. cbv zeta.
  apply arrIncludes_In in H. unfold leadCodes in H. now rewrite H.
Qed.

Lemma label_copper (c : string) :
  In (toLowerCase c) copperCodes -> MATERIAL_LABEL (Some c) = "Copper".
Proof.
  intros H. unfold MATERIAL_LABEL. cbv zeta.
  destruct H as [H | [H | []]]; rewrite <- H; reflexivity.
Qed.

Lemma label_galvanized (c : string) :
  In (toLowerCase c) galvanizedCodes -> MATERIAL_LABEL (Some c) = "Galvanized Steel".
Proof.
  intros H. unfold MATERIAL_LABEL. cbv zeta.
  destruct H as [H | [H | []]]; rewrite <- H; reflexivity.
Qed.

Lemma label_undetermined (c : string) :
  In (toLowerCase c) undeterminedCodes -> MATERIAL_LABEL (Some c) = "Not determined".
Proof.
  intros H. unfold MATERIAL_LABEL. cbv zeta.
  destruct H as [H | [H | [H | [H | []]]]]; rewrite <- H; reflexivity.
Qed.

Lemma label_passthrough (c : string) :
  ~ In (toLowerCase c) knownCodes -> MATERIAL_LABEL (Some c) = c.
Proof.
  intros H. unfold MATERIAL_LABEL. cbv zeta.
  assert (H1 : ~ In (toLowerCase c) leadCodes)
    by (intros X; apply H; unfold knownCodes; rewrite !in_app_iff; tauto).
  assert (H2 : ~ In (toLowerCase c) copperCodes)
    by (intros X; apply H; unfold knownCodes; rewrite !in_app_iff; tauto).
  assert (H3 : ~ In (toLowerCase c) galvanizedCodes)
    by (intros X; apply H; unfold knownCodes; rewrite !in_app_iff; tauto).
  assert (H4 : ~ In (toLowerCase c) undeterminedCodes)
    by (intros X; apply H; unfold knownCodes; rewrite !in_app_iff; tauto).
  apply arrIncludes_not_In in H1, H2, H3, H4.
  unfold leadCodes, copperCodes, galvanizedCodes, undeterminedCodes in *.
  now rewrite H1, H2, H3, H4.
Qed.

Lemma label_of_lowered (c : string) :
  In (toLowerCase c) knownCodes ->
  MATERIAL_LABEL (Some c) = MATERIAL_LABEL (Some (toLowerCase c)).
Proof.
  intros H. unfold MATERIAL_LABEL. cbv zeta. rewrite toLowerCase_idem.
  unfold knownCodes in H. rewrite !in_app_iff in H.
  destruct H as [H | [H | [H | H]]].
  - apply arrIncludes_In in H. unfold leadCodes in H. now rewrite H.
  - destruct H as [H | [H | []]]; rewrite <- H; reflexivity.
  - destruct H as [H | [H | []]]; rewrite <- H; reflexivity.
  - destruct H as [H | [H | [H | [H | []]]]]; rewrite <- H; reflexivity.
Qed.

Lemma matchesSearch_spec (term : string) (loc : Location) :
  matchesSearch term loc = true <-> ContainsCI (address loc) term.
Proof.
  rewrite <- includes_lowered. unfold matchesSearch.
  destruct (String.eqb term "") eqn:E.
  - apply String.eqb_eq in E. subst term. simpl.
    now rewrite includes_empty.
  - simpl.
    destruct (includes (toLowerCase (address loc)) (toLowerCase term));
      simpl; split; congruence.
Qed.

Lemma filter_sublist {A} (f : A -> bool) (l : list A) :
  sublist (List.filter f l) l.
Proof.
  induction l as [|a l IH]; simpl.
  - constructor.
  - destruct (f a); now constructor.
Qed.

(** C4, as stated, fails: the classifier also recognises the full words
    "lead", "copper", "galvanized" and "unknown", so a non-empty string that
    is none of the listed short codes is not always returned unchanged:
    "Unknown" is labelled "Not determined". *)
Lemma material_label_listed_codes_incomplete :
  ~ (forall c : string,
       c <> "" -> ~ In (toLowerCase c) listedShortCodes ->
       MATERIAL_LABEL (Some c) = c).
Proof.
  intros H. specialize (H "Unknown").
  assert (E : MATERIAL_LABEL (Some "Unknown") = "Not determined") by reflexivity.
  rewrite E in H. enough ("Not determined" = "Unknown") by discriminate.
  apply H; [discriminate|].
  cbn. intros X. repeat (destruct X as [X | X]; [discriminate X|]). exact X.
Qed.

(** C4 (amended): the material classifier is a total function over strings
    and absent values.  Matching ignores letter case.  The recognised codes
    are "lead"/"pb"/"l" (Lead), "copper"/"cu" (Copper), "galv"/"galvanized"
    (Galvanized Steel) and "unknown"/"unk"/"u"/empty (Not determined); an
    absent value is Not determined; every string whose lowered form is not a
    recognised code is returned unchanged. *)
Theorem material_label_classification :
  forall c : string,
    MATERIAL_LABEL None = "Not determined" /\
    (In (toLowerCase c) leadCodes -> MATERIAL_LABEL (Some c) = "Lead") /\
    (In (toLowerCase c) copperCodes -> MATERIAL_LABEL (Some c) = "Copper") /\
    (In (toLowerCase c) galvanizedCodes ->
       MATERIAL_LABEL (Some c) = "Galvanized Steel") /\
    (In (toLowerCase c) undeterminedCodes ->
       MATERIAL_LABEL (Some c) = "Not determined") /\
    (~ In (toLowerCase c) knownCodes -> MATERIAL_LABEL (Some c) = c) /\
    (In (toLowerCase c) knownCodes ->
       forall c' : string, toLowerCase c' = toLowerCase c ->
       MATERIAL_LABEL (Some c') = MATERIAL_LABEL (Some c)).
Proof.
  intros c. repeat split.
  - apply label_lead.
  - apply label_copper.
  - apply label_galvanized.
  - apply label_undetermined.
  - apply label_passthrough.
  - intros Hk c' Hc'. rewrite (label_of_lowered c Hk).
    rewrite <- Hc'. apply label_of_lowered. now rewrite Hc'.
Qed.

(** The classification at the codes the specification names, in mixed case,
    and at a string that is no code. *)
Lemma material_label_classification_witness :
  MATERIAL_LABEL (Some "PB") = "Lead" /\
  MATERIAL_LABEL (Some "Cu") = "Copper" /\
  MATERIAL_LABEL (Some "GALV") = "Galvanized Steel" /\
  MATERIAL_LABEL (Some "Unk") = "Not determined" /\
  MATERIAL_LABEL (Some "Ductile Iron") = "Ductile Iron" /\
  MATERIAL_LABEL (Some "L") = MATERIAL_LABEL (Some "l").
Proof.
  pose proof (material_label_classification "PB") as (_ & H1 & _).
  pose proof (material_label_classification "Cu") as (_ & _ & H2 & _).
  pose proof (material_label_classification "GALV") as (_ & _ & _ & H3 & _).
  pose proof (material_label_classification "Unk") as (_ & _ & _ & _ & H4 & _).
  pose proof (material_label_classification "Ductile Iron")
    as (_ & _ & _ & _ & _ & H5 & _).
  pose proof (material_label_classification "l") as (_ & _ & _ & _ & _ & _ & H6).
  split; [apply H1; vm_compute; tauto|].
  split; [apply H2; vm_compute; tauto|].
  split; [apply H3; vm_compute; tauto|].
  split; [apply H4; vm_compute; tauto|].
  split.
  - apply H5. vm_compute.
    intros X. repeat (destruct X as [X | X]; [discriminate X|]). exact X.
  - apply H6; [vm_compute; tauto | reflexivity].
Defined.

(** C8: the client-side filter keeps exactly the records whose address
    contains the search term, letter case ignored: a stretch of the address
    is the term up to the case of its letters.  What it returns is a
    sub-list of its input, never longer than it; with an empty search term
    it returns its input unchanged. *)
Theorem filteredLocations_refines :
  forall (locations : list Location) (searchTerm : string),
    (forall loc,
       In loc (filteredLocations locations searchTerm) <->
       In loc locations /\ ContainsCI (address loc) searchTerm) /\
    sublist (filteredLocations locations searchTerm) locations /\
    length (filteredLocations locations searchTerm) <= length locations /\
    filteredLocations locations "" = locations.
Proof.
  intros locations searchTerm. unfold filteredLocations.
  split; [|split; [|split]].
  - intros loc. rewrite filter_In, matchesSearch_spec. reflexivity.
  - apply filter_sublist.
  - apply sublist_length, filter_sublist.
  - induction locations as [|a l IH]; [reflexivity|].
    cbn [List.filter]. change (matchesSearch "" a) with true.
    cbv iota. f_equal. exact IH.
Qed.

(** The filter at the search term "Oak" on twelve sample records: four are
    kept, among them "450 OAKWOOD Ave", whose stretch "OAK" is the term up
    to letter case. *)
Lemma filteredLocations_refines_witness :
  map id (filteredLocations sampleLocations "Oak") = [1%Z; 3%Z; 5%Z; 9%Z] /\
  In (mkLocation 3 "450 OAKWOOD Ave") (filteredLocations sampleLocations "Oak") /\
  length (filteredLocations sampleLocations "Oak") <= length sampleLocations.
Proof.
  pose proof (filteredLocations_refines sampleLocations "Oak") as (Hin & _ & Hlen & _).
  split; [reflexivity|]. split; [|exact Hlen].
  apply Hin. split; [cbn; tauto|].
  exists "450 ", "OAK", "WOOD Ave". split; [reflexivity|].
  constructor; [now left|].
  constructor; [right; left; apply (small_of 65); lia|].
  constructor; [right; left; apply (small_of 75); lia|].
  constructor.
Defined.

(** Letter case is ignored beyond ASCII too: with the term "cafe" (acute
    accent, small letters) the address in capitals is kept.  The
    multiplication sign is not the capital of the division sign. *)
Example filteredLocations_accented_capitals :
  map id (filteredLocations
            [mkLocation 1 cafeCapitals; mkLocation 2 cafeSmall] cafeSmall)
    = [1%Z; 2%Z] /\
  map id (filteredLocations
            [mkLocation 1 cafeSmall; mkLocation 2 "cafe"] cafeCapitals)
    = [1%Z] /\
  map id (filteredLocations
            [mkLocation 1 timesSign; mkLocation 2 divisionSign] divisionSign)
    = [2%Z].
Proof. repeat split; reflexivity. Qed.

End DashboardsFacts.

(** ** The record transformation and the clause builder *)

Module FeatureServiceFacts.
Import Js Types FeatureService QueryDialect Vocabulary JsFacts.

Lemma orStr_missing (d : string) : orStr None d = d.
Proof. reflexivity. Qed.

Lemma orStr_present (v d : string) : v <> "" -> orStr (Some v) d = v.
Proof.
  intros H. unfold orStr. destruct (String.eqb v "") eqn:E; [|reflexivity].
  apply String.eqb_eq in E. contradiction.
Qed.

Lemma isOneOrTrue_spec (v : Val) :
  isOneOrTrue v = true <-> v = VNum 1 \/ v = VBool true.
Proof.
  destruct v as [| |b|z|str]; simpl.
  - split; [discriminate | intros [H|H]; discriminate].
  - split; [discriminate | intros [H|H]; discriminate].
  - split; [intros ->; now right | intros [H|H]; [discriminate | now inversion H]].
  - rewrite Z.eqb_eq. split.
    + intros ->. now left.
    + intros [H|H]; [now inversion H | discriminate].
  - split; [discriminate | intros [H|H]; discriminate].
Qed.

Lemma strEq_spec (o : option string) (lit : string) :
  strEq o lit = true <-> o = Some lit.
Proof.
  destruct o as [v|]; simpl.
  - rewrite String.eqb_eq. split; [now intros -> | now intros [= ->]].
  - split; discriminate.
Qed.

Lemma append_nil_r (a : string) : a +:+ "" = a.
Proof. induction a as [|c a IH]; simpl; [reflexivity | now rewrite IH]. Qed.

Lemma Contains_refl (a : string) : Contains a a.
Proof. exists "", "". simpl. now rewrite append_nil_r. Qed.

Lemma Contains_app_r (a b v : string) : Contains a v -> Contains (a +:+ b) v.
Proof.
  intros [pre [post ->]]. exists pre, (post +:+ b).
  now rewrite !append_assoc.
Qed.

Lemma Contains_app_l (a b v : string) : Contains b v -> Contains (a +:+ b) v.
Proof.
  intros [pre [post ->]]. exists (a +:+ pre), post.
  now rewrite !append_assoc.
Qed.

Lemma join_Contains (sep : string) (l : list string) (v : string) :
  In v l -> Contains (join sep l) v.
Proof.
  unfold join. induction l as [|a l IH]; [intros []|].
  intros [-> | Hin].
  - destruct l as [|b l]; simpl.
    + apply Contains_refl.
    + apply Contains_app_r, Contains_refl.
  - destruct l as [|b l]; [destruct Hin|].
    change (String.concat sep (a :: b :: l))
      with (a +:+ sep +:+ String.concat sep (b :: l)).
    apply Contains_app_l, Contains_app_l, IH, Hin.
Qed.

(** The emitted text is the concrete syntax of the predicate the
    specification describes. *)
Lemma buildWhereClause_render (f : FilterOptions) :
  buildWhereClause f = renderWhere (specWhere f).
Proof.
  destruct f as [m c s [[|s0 st]|]]; destruct m; reflexivity.
Qed.

Lemma holds_eitherSide (lit : string) (r : Attributes) :
  holds (eitherSide lit) r = true <-> eitherMaterialIs lit r.
Proof.
  unfold eitherMaterialIs. simpl. now rewrite orb_true_iff, !strEq_spec.
Qed.

Lemma holds_Member (lits : list string) (r : Attributes) :
  holds (Member FStatus lits) r = true <-> statusAmong lits r.
Proof.
  unfold statusAmong. simpl. rewrite existsb_exists. split.
  - intros [v [Hin H]]. apply strEq_spec in H. now exists v.
  - intros [v [H Hin]]. exists v. split; [assumption | now apply strEq_spec].
Qed.

(** C10: the feature-to-location transformation is a total function that
    fills missing fields with fixed defaults: a missing address becomes
    "Unknown Address", missing materials become "Unknown", the notification
    flag is true exactly when the raw value is the number 1 or the boolean
    true, a missing build year becomes 0, a missing status becomes "UNKNOWN"
    and missing geometry gives latitude 0 and longitude 0.  Attributes that
    are present and non-empty are carried over. *)
Theorem featureToLocation_defaults :
  forall feature : Feature,
    id (featureToLocation feature) = OBJECTID (attributes feature) /\
    (Address (attributes feature) = None ->
       address (featureToLocation feature) = "Unknown Address") /\
    (CustomerMaterial (attributes feature) = None ->
       customerMaterial (featureToLocation feature) = "Unknown") /\
    (SupplierMaterial (attributes feature) = None ->
       supplierMaterial (featureToLocation feature) = "Unknown") /\
    (letterSent (featureToLocation feature) = true <->
       LetterSent (attributes feature) = VNum 1 \/
       LetterSent (attributes feature) = VBool true) /\
    (YearBuilt (attributes feature) = None ->
       buildYear (featureToLocation feature) = 0%Z) /\
    (Status (attributes feature) = None ->
       status (featureToLocation feature) = "UNKNOWN") /\
    (geometry feature = None ->
       lat (featureToLocation feature) = zero /\
       lng (featureToLocation feature) = zero) /\
    (forall a, Address (attributes feature) = Some a -> a <> "" ->
       address (featureToLocation feature) = a) /\
    (forall m, CustomerMaterial (attributes feature) = Some m -> m <> "" ->
       customerMaterial (featureToLocation feature) = m) /\
    (forall m, SupplierMaterial (attributes feature) = Some m -> m <> "" ->
       supplierMaterial (featureToLocation feature) = m) /\
    (forall st, Status (attributes feature) = Some st -> st <> "" ->
       status (featureToLocation feature) = st).
Proof.
  intros [attrs geo]. unfold featureToLocation. simpl.
  split; [reflexivity|].
  split; [now intros ->|].
  split; [now intros ->|].
  split; [now intros ->|].
  split; [apply isOneOrTrue_spec|].
  split; [now intros ->|].
  split; [now intros ->|].
  split; [now intros ->|].
  split; [intros a -> Ha; now apply orStr_present|].
  split; [intros m -> Hm; now apply orStr_present|].
  split; [intros m -> Hm; now apply orStr_present|].
  intros st -> Hst. now apply orStr_present.
Qed.

(** The transformation at a record with every optional field missing. *)
Lemma featureToLocation_defaults_witness :
  address (featureToLocation bareFeature) = "Unknown Address" /\
  customerMaterial (featureToLocation bareFeature) = "Unknown" /\
  buildYear (featureToLocation bareFeature) = 0%Z /\
  status (featureToLocation bareFeature) = "UNKNOWN" /\
  lat (featureToLocation bareFeature) = zero /\
  lng (featureToLocation bareFeature) = zero.
Proof.
  pose proof (featureToLocation_defaults bareFeature)
    as (_ & Ha & Hc & _ & _ & Hy & Hs & Hg & _).
  split; [apply Ha; reflexivity|].
  split; [apply Hc; reflexivity|].
  split; [apply Hy; reflexivity|].
  split; [apply Hs; reflexivity|].
  apply Hg. reflexivity.
Defined.

(** C5: with no condition selected the clause builder returns "1=1", the
    constant truth; with "lead" it returns a predicate that holds exactly of
    the records whose customer-side or supplier-side material is the lead
    value; a material condition and a status condition are joined by AND,
    and the status condition is an IN clause over the literal status list.
    In every case the text returned is the concrete syntax of the predicate
    the specification describes. *)
Theorem buildWhereClause_meaning :
  forall (c s : bool) (r : Attributes) (s0 : string) (st : list string),
    buildWhereClause (selection all c s None) = "1=1" /\
    buildWhereClause (selection all c s (Some [])) = "1=1" /\
    holdsWhere (specWhere (selection all c s None)) r = true /\
    buildWhereClause (selection lead c s None)
      = "(CustomerMaterial = 'Lead' OR SupplierMaterial = 'Lead')" /\
    (holdsWhere (specWhere (selection lead c s None)) r = true <->
       eitherMaterialIs "Lead" r) /\
    buildWhereClause (selection lead c s (Some (s0 :: st)))
      = "(CustomerMaterial = 'Lead' OR SupplierMaterial = 'Lead')"
        +:+ " AND "
        +:+ "Status IN (" +:+ join "," (map quote (s0 :: st)) +:+ ")" /\
    (holdsWhere (specWhere (selection lead c s (Some (s0 :: st)))) r = true <->
       eitherMaterialIs "Lead" r /\ statusAmong (s0 :: st) r) /\
    buildWhereClause (selection unknown c s (Some (s0 :: st)))
      = "(CustomerMaterial = 'Unknown' OR SupplierMaterial = 'Unknown')"
        +:+ " AND "
        +:+ "Status IN (" +:+ join "," (map quote (s0 :: st)) +:+ ")" /\
    (holdsWhere (specWhere (selection unknown c s (Some (s0 :: st)))) r = true <->
       eitherMaterialIs "Unknown" r /\ statusAmong (s0 :: st) r) /\
    buildWhereClause (selection all c s (Some (s0 :: st)))
      = "Status IN (" +:+ join "," (map quote (s0 :: st)) +:+ ")" /\
    (forall f : FilterOptions, buildWhereClause f = renderWhere (specWhere f)).
Proof.
  intros c s r s0 st.
  assert (Hboth : forall lit,
    holdsWhere [eitherSide lit; Member FStatus (s0 :: st)] r = true <->
    eitherMaterialIs lit r /\ statusAmong (s0 :: st) r).
  { intros lit. unfold holdsWhere. cbn [forallb].
    rewrite andb_true_r, andb_true_iff, holds_eitherSide, holds_Member.
    reflexivity. }
  split; [reflexivity|].
  split; [reflexivity|].
  split; [reflexivity|].
  split; [reflexivity|].
  split.
  { unfold holdsWhere, specWhere, selection. cbn [material statusFilter app forallb].
    rewrite andb_true_r. apply holds_eitherSide. }
  split; [reflexivity|].
  split; [apply Hboth|].
  split; [reflexivity|].
  split; [apply Hboth|].
  split; [reflexivity|].
  apply buildWhereClause_render.
Qed.

(** The builder on the lead selection with a two-element status list. *)
Lemma buildWhereClause_meaning_witness :
  buildWhereClause (selection lead true true (Some ["VERIFIED"; "ASSUMED"]))
  = "(CustomerMaterial = 'Lead' OR SupplierMaterial = 'Lead') AND Status IN ('VERIFIED','ASSUMED')".
Proof.
  pose proof (buildWhereClause_meaning true true
                (attributes bareFeature) "VERIFIED" ["ASSUMED"])
    as (_ & _ & _ & _ & _ & H & _).
  exact H.
Defined.

(** C3, as stated, fails: the builder does not check the status list, so a
    caller-supplied string outside the closed enumeration is interpolated
    into the predicate. *)
Lemma free_text_status_is_interpolated :
  ~ (forall (f : FilterOptions) (v : string),
       In v (statusValues f) ->
       Contains (buildWhereClause f) (quote v) ->
       In v statusEnumeration).
Proof.
  intros H.
  specialize (H (selection all true true (Some ["X') OR ('1'='1"]))
                "X') OR ('1'='1").
  assert (Hin : In "X') OR ('1'='1" statusEnumeration).
  { apply H.
    - now left.
    - now exists "Status IN (", ")". }
  cbn in Hin. repeat (destruct Hin as [Hin | Hin]; [discriminate Hin|]).
  exact Hin.
Qed.

(** C3 (amended): the builder interpolates every element of the
    caller-supplied status list verbatim between single quotes, and checks
    none of them: the literals of the emitted membership condition are
    exactly the caller's status values, each of them occurs quoted in the
    emitted text, and so they are members of the closed status enumeration
    whenever the caller has constrained the list to it. *)
Theorem buildWhereClause_status_literals :
  forall f : FilterOptions,
    buildWhereClause f = renderWhere (specWhere f) /\
    memberLiterals (specWhere f) = statusValues f /\
    (forall v, In v (statusValues f) ->
       Contains (buildWhereClause f) (quote v)) /\
    (Forall (fun v => In v statusEnumeration) (statusValues f) ->
       Forall (fun v => In v statusEnumeration) (memberLiterals (specWhere f))).
Proof.
  intros f.
  assert (Hlits : memberLiterals (specWhere f) = statusValues f).
  { destruct f as [m c s [[|s0 st]|]]; destruct m; cbn;
      rewrite ?app_nil_r; reflexivity. }
  split; [apply buildWhereClause_render|].
  split; [exact Hlits|].
  split; [|now rewrite Hlits].
  intros v Hin.
  destruct f as [m c s [[|s0 st]|]]; cbn in Hin; try contradiction.
  assert (Hst : Contains
            ("Status IN (" +:+ join "," (map quote (s0 :: st)) +:+ ")") (quote v)).
  { apply Contains_app_l, Contains_app_r, join_Contains, in_map, Hin. }
  destruct m.
  - exact Hst.
  - change (Contains
      ("(CustomerMaterial = 'Lead' OR SupplierMaterial = 'Lead')" +:+ " AND " +:+
       ("Status IN (" +:+ join "," (map quote (s0 :: st)) +:+ ")")) (quote v)).
    apply Contains_app_l, Contains_app_l, Hst.
  - change (Contains
      ("(CustomerMaterial = 'Unknown' OR SupplierMaterial = 'Unknown')" +:+ " AND " +:+
       ("Status IN (" +:+ join "," (map quote (s0 :: st)) +:+ ")")) (quote v)).
    apply Contains_app_l, Contains_app_l, Hst.
Qed.

(** The builder on a status list constrained to the enumeration. *)
Lemma buildWhereClause_status_literals_witness :
  Contains
    (buildWhereClause (selection all true true (Some ["VERIFIED"; "UNKNOWN"])))
    "'UNKNOWN'" /\
  Forall (fun v => In v statusEnumeration)
    (memberLiterals
       (specWhere (selection all true true (Some ["VERIFIED"; "UNKNOWN"])))).
Proof.
  pose proof (buildWhereClause_status_literals
                (selection all true true (Some ["VERIFIED"; "UNKNOWN"])))
    as (_ & _ & Hc & Hf).
  split.
  - apply (Hc "UNKNOWN"). cbn. tauto.
  - apply Hf. cbn. repeat constructor; cbn; tauto.
Defined.

End FeatureServiceFacts.

(** ** The authorization session *)

Module AuthServiceFacts.
Import Js Types Effects AuthService Vocabulary.
Local Open Scope Z_scope.

Lemma truthyStr_spec (o : option string) :
  truthyStr o = true <-> exists v, o = Some v /\ v <> "".
Proof.
  destruct o as [v|]; simpl.
  - destruct (String.eqb v "") eqn:E; simpl.
    + apply String.eqb_eq in E. split; [discriminate|].
      intros [u [[= <-] Hu]]. contradiction.
    + apply String.eqb_neq in E. split; [intros _; now exists v | reflexivity].
  - split; [discriminate | intros [v [H _]]; discriminate].
Qed.

Lemma isAuthenticated_spec (t : Z) (w : World) :
  isAuthenticated t w = true <-> validCredential t w.
Proof.
  unfold isAuthenticated, validCredential. split.
  - destruct (truthyStr (accessToken w)) eqn:Ht; simpl; [|discriminate].
    apply truthyStr_spec in Ht. destruct Ht as [tok [Htok Hne]].
    destruct (tokenExpiry w) as [[|e]|]; simpl; try discriminate.
    destruct (Z.eqb e 0) eqn:E0; simpl; [discriminate|].
    intros Hlt. apply Z.ltb_lt in Hlt. apply Z.eqb_neq in E0.
    now exists tok, e.
  - intros [tok [e [Htok [Hne [He [He0 Hlt]]]]]].
    assert (Ht : truthyStr (accessToken w) = true)
      by (apply truthyStr_spec; now exists tok).
    rewrite Ht, He. simpl.
    apply Z.eqb_neq in He0. rewrite He0. simpl. now apply Z.ltb_lt.
Qed.

Lemma isAuthenticated_initial (t : Z) (store : gmap string string) :
  isAuthenticated t (initial store) = false.
Proof. reflexivity. Qed.

Lemma isAuthenticated_logout (t : Z) (w : World) :
  isAuthenticated t (logout w) = false.
Proof. reflexivity. Qed.

Lemma isAuthenticated_expired (t : Z) (w : World) (e : Z) :
  tokenExpiry w = Some (Int e) -> e <= t -> isAuthenticated t w = false.
Proof.
  intros He Hle. destruct (isAuthenticated t w) eqn:E; [|reflexivity].
  apply isAuthenticated_spec in E.
  destruct E as [tok [e' [_ [_ [He' [_ Hlt]]]]]].
  rewrite He in He'. inversion He'. lia.
Qed.

Lemma getAccessToken_Some (t : Z) (w : World) (tk : string) :
  getAccessToken t w = Some tk ->
  accessToken w = Some tk /\ isAuthenticated t w = true.
Proof.
  unfold getAccessToken. destruct (isAuthenticated t w); [|discriminate].
  now intros ->.
Qed.

End AuthServiceFacts.

(** ** The feature query client *)

Module FeatureQueryFacts.
Import Js Types Effects AuthService FeatureService Vocabulary Tactics.
Import AuthServiceFacts.

Lemma worldAfter_logs (q : QueryPath) (env : Env QueryData) (w : World) :
  exists base, noTokenKey base /\
    worldAfter q env w = logRequest (requestOf env w base) w.
Proof.
  destruct q as [f | i | e f | ]; cbn [worldAfter]; eexists; split.
  2: { run. case_outcome; reflexivity. }
  1: { intros v Hin. no_such_key Hin. }
  2: { run. case_outcome; reflexivity. }
  1: { intros v Hin. no_such_key Hin. }
  2: { run. case_outcome; reflexivity. }
  1: { intros v Hin. no_such_key Hin. }
  2: { run. case_outcome; reflexivity. }
  1: { intros v Hin. no_such_key Hin. }
Qed.

Lemma appendToken_In (base : list (string * string)) (tok : option string)
  (tk : string) :
  noTokenKey base -> In ("token", tk) (appendToken base tok) -> tok = Some tk.
Proof.
  intros Hno. unfold appendToken. destruct tok as [v|].
  - destruct (truthyStr (Some v)).
    + rewrite in_app_iff. intros [H | [H | []]].
      * now apply Hno in H.
      * now inversion H.
    + intros H. now apply Hno in H.
  - intros H. now apply Hno in H.
Qed.

Lemma paramValue_appendToken (k : string) (base : list (string * string))
  (tok : option string) (v : string) :
  paramValue k base = Some v -> paramValue k (appendToken base tok) = Some v.
Proof.
  intros H. unfold appendToken.
  destruct tok as [tk|]; [|exact H].
  destruct (truthyStr (Some tk)); [|exact H].
  induction base as [|[k' v'] base IH]; [discriminate|].
  simpl in *. destruct (String.eqb k' k); [exact H | now apply IH].
Qed.

Lemma filter_bool_prop {A} (b : A -> bool) (P : A -> Prop)
  `{forall a, Decision (P a)} (l : list A) :
  (forall a, b a = true <-> P a) -> List.filter b l = filter P l.
Proof.
  intros Hb. induction l as [|a l IH]; [reflexivity|].
  simpl. rewrite filter_cons, IH.
  destruct (decide (P a)) as [Hp | Hp], (b a) eqn:E; try reflexivity.
  - apply Hb in Hp. congruence.
  - apply Hb in E. contradiction.
Qed.

Lemma isLead_spec (f : Feature) :
  isLead f = true <-> eitherMaterialIs "Lead" (attributes f).
Proof.
  unfold isLead, eitherMaterialIs.
  now rewrite orb_true_iff, !FeatureServiceFacts.strEq_spec.
Qed.

Lemma isUnknown_spec (f : Feature) :
  isUnknown f = true <-> eitherMaterialIs "Unknown" (attributes f).
Proof.
  unfold isUnknown, eitherMaterialIs.
  now rewrite orb_true_iff, !FeatureServiceFacts.strEq_spec.
Qed.

(** C1: [isAuthenticated] is true exactly when the token and the expiry
    instant are both present (a non-empty token string and an instant other
    than 0 and NaN: the values the source's tests take as present) and the
    expiry is strictly in the future; it is false right after construction,
    after [logout], and when the expiry is not in the future although a
    token is stored.  [getAccessToken] returns
    the stored token when authenticated and nothing otherwise, and every
    query path sends exactly one request, which carries a token only when
    that token is the stored one and the credential is valid at that
    instant. *)
Theorem credential_validity :
  forall (t : Z) (w : World),
    (isAuthenticated t w = true <-> validCredential t w) /\
    (forall store, isAuthenticated t (initial store) = false) /\
    isAuthenticated t (logout w) = false /\
    (forall e, tokenExpiry w = Some (Int e) -> (e <= t)%Z ->
       isAuthenticated t w = false) /\
    (isAuthenticated t w = true -> getAccessToken t w = accessToken w) /\
    (isAuthenticated t w = false -> getAccessToken t w = None) /\
    (forall (q : QueryPath) (env : Env QueryData),
       now env = t ->
       exists req,
         sent (worldAfter q env w) = sent w ++ [req] /\
         forall tk, In ("token", tk) (params req) ->
           accessToken w = Some tk /\ validCredential t w).
Proof.
  intros t w.
  split; [apply isAuthenticated_spec|].
  split; [apply isAuthenticated_initial|].
  split; [apply isAuthenticated_logout|].
  split; [apply isAuthenticated_expired|].
  split; [unfold getAccessToken; now intros ->|].
  split; [unfold getAccessToken; now intros ->|].
  intros q env Hnow.
  destruct (worldAfter_logs q env w) as [base [Hno Hw]].
  exists (requestOf env w base). rewrite Hw. split; [reflexivity|].
  intros tk Hin. cbn [requestOf params] in Hin.
  apply (appendToken_In base _ tk Hno) in Hin.
  apply getAccessToken_Some in Hin. destruct Hin as [Htok Hauth].
  rewrite Hnow in Hauth. split; [exact Htok|].
  now apply isAuthenticated_spec.
Qed.

(** A signed-in session before and at the expiry instant. *)
Lemma credential_validity_witness :
  isAuthenticated 1999 signedIn = true /\
  getAccessToken 1999 signedIn = Some "tok" /\
  isAuthenticated 2000 signedIn = false /\
  getAccessToken 2000 signedIn = None.
Proof.
  pose proof (credential_validity 1999 signedIn) as (Hiff & _ & _ & _ & Hget & _).
  pose proof (credential_validity 2000 signedIn) as (_ & _ & _ & Hexp & _ & Hnone & _).
  assert (Hv : isAuthenticated 1999 signedIn = true).
  { apply Hiff. exists "tok", 2000%Z.
    split; [reflexivity|]. split; [discriminate|]. split; [reflexivity|].
    split; [discriminate | reflexivity]. }
  assert (Hx : isAuthenticated 2000 signedIn = false).
  { apply (Hexp 2000%Z); [reflexivity | apply Z.le_refl]. }
  split; [exact Hv|]. split; [now rewrite (Hget Hv)|].
  split; [exact Hx | exact (Hnone Hx)].
Defined.

(** The request of an expired session carries no token; before the expiry
    it carries the stored one. *)
Example expired_token_not_attached :
  map (fun r => paramValue "token" (params r))
    (sent (worldAfter (ByFilter defaultFilters)
             (sampleEnv 2000 (Resolved (featuresResponse []))) signedIn)) = [None] /\
  map (fun r => paramValue "token" (params r))
    (sent (worldAfter (ByFilter defaultFilters)
             (sampleEnv 1999 (Resolved (featuresResponse []))) signedIn))
    = [Some "tok"].
Proof. split; reflexivity. Qed.

(** Query-by-filter also reports a status other than success as an error. *)
Lemma queryFeatures_http_failure (env : Env QueryData) (w : World)
  (filters : FilterOptions) (r : Response QueryData) :
  replies env (Resolved r) -> ok r = false ->
  fst (queryFeatures filters env w)
    = Thrown (Error ("Feature service query failed: " +:+ statusText r)).
Proof. intros Hrep Hok. run. rewrite Hrep. cbn. now rewrite Hok. Qed.

(** The other operations do not look at the status of the answer. *)
Lemma queryFeaturesInExtent_ignores_status (env : Env QueryData) (w : World)
  (extent : Extent) (filters : FilterOptions) (r : Response QueryData)
  (fs : list Feature) :
  replies env (Resolved r) ->
  body r = Some {| error := None; features := Some fs |} ->
  fst (queryFeaturesInExtent extent filters env w)
    = Ok (map featureToLocation fs).
Proof. intros Hrep Hbody. run. rewrite Hrep. cbn. now rewrite Hbody. Qed.

Lemma getFeatureStats_ignores_status (env : Env QueryData) (w : World)
  (r : Response QueryData) (fs : list Feature) :
  replies env (Resolved r) ->
  body r = Some {| error := None; features := Some fs |} ->
  fst (getFeatureStats env w) = Ok (countStats fs).
Proof. intros Hrep Hbody. run. rewrite Hrep. cbn. now rewrite Hbody. Qed.

Lemma queryFeatureById_ignores_status (env : Env QueryData) (w : World)
  (objectId : Z) (r : Response QueryData) (fs : list Feature) :
  replies env (Resolved r) ->
  body r = Some {| error := None; features := Some fs |} ->
  fst (queryFeatureById objectId env w) = Ok (head (map featureToLocation fs)).
Proof.
  intros Hrep Hbody. run. rewrite Hrep. cbn. rewrite Hbody. cbn.
  now destruct fs.
Qed.

(** What the three operations without a status test do with an answer that
    carries no record list: a rejected request, a body that does not parse,
    an error payload, or a body without records. *)
Lemma unreadable_answer_asymmetry (env : Env QueryData) (w : World)
  (o : FetchOutcome QueryData) (filters : FilterOptions) (extent : Extent)
  (objectId : Z) :
  replies env o ->
  (forall fs, ~ carriesRecords o fs) ->
  (exists e, fst (queryFeaturesInExtent extent filters env w) = Thrown e /\
             forall e0, o = Rejected e0 -> e = e0) /\
  fst (getFeatureStats env w) = Ok zeroStats /\
  fst (queryFeatureById objectId env w) = Ok None.
Proof.
  intros Hrep Hno.
  destruct o as [e | r].
  { split; [|split].
    - exists e. run. rewrite Hrep. cbn. split; [reflexivity | now intros e0 [= ->]].
    - run. now rewrite Hrep.
    - run. now rewrite Hrep. }
  destruct (body r) as [[err fso]|] eqn:Hbody.
  2: { split; [|split]; run; rewrite Hrep; cbn; rewrite Hbody; cbn;
         [eexists; split; [reflexivity | discriminate] | reflexivity | reflexivity]. }
  destruct err as [e|].
  { split; [|split]; run; rewrite Hrep; cbn; rewrite Hbody; cbn;
      [eexists; split; [reflexivity | discriminate] | reflexivity | reflexivity]. }
  destruct fso as [fs|].
  { exfalso. apply (Hno fs). now exists r. }
  split; [|split]; run; rewrite Hrep; cbn; rewrite Hbody; cbn;
    [eexists; split; [reflexivity | discriminate] | reflexivity | reflexivity].
Qed.

(** Query-by-filter throws on every failure. *)
Lemma queryFeatures_reports_failure (env : Env QueryData) (w : World)
  (o : FetchOutcome QueryData) (filters : FilterOptions) :
  replies env o -> QueryFailure o ->
  exists e, fst (queryFeatures filters env w) = Thrown e /\
            forall e0, o = Rejected e0 -> e = e0.
Proof.
  intros Hrep Hfail. destruct Hfail as [e | r Hok | r d e Hbody Herr].
  - exists e. run. rewrite Hrep. cbn. split; [reflexivity | now intros e0 [= ->]].
  - rewrite (queryFeatures_http_failure env w filters r Hrep Hok).
    eexists. split; [reflexivity | discriminate].
  - run. rewrite Hrep. cbn. destruct (ok r); cbn.
    + rewrite Hbody. cbn. rewrite Herr. cbn.
      eexists. split; [reflexivity | discriminate].
    + eexists. split; [reflexivity | discriminate].
Qed.

(** C6: of the four operations only query-by-filter tests the status of the
    answer.  On every failure (a rejected request, a status other than
    success, an error payload) query-by-filter throws, a rejection being
    rethrown as it is.  The other three behave as the claim says as long as
    the answer carries no record list: query-by-extent throws, the
    aggregate-stats operation returns the all-zero stats object and
    query-by-identifier returns nothing.  But a failure whose answer carries
    a record list, which can only be an answer with a status other than
    success, is not noticed by them: query-by-extent returns the records,
    aggregate-stats the counts over them, and query-by-identifier the first
    of them. *)
Theorem query_failure_status_unchecked :
  forall (env : Env QueryData) (w : World) (o : FetchOutcome QueryData)
         (filters : FilterOptions) (extent : Extent) (objectId : Z),
    replies env o ->
    QueryFailure o ->
    (exists e, fst (queryFeatures filters env w) = Thrown e /\
               forall e0, o = Rejected e0 -> e = e0) /\
    ((forall fs, ~ carriesRecords o fs) ->
       (exists e, fst (queryFeaturesInExtent extent filters env w) = Thrown e /\
                  forall e0, o = Rejected e0 -> e = e0) /\
       fst (getFeatureStats env w)
         = Ok {| total := 0; leadCount := 0; unknownCount := 0;
                 verified := 0; assumed := 0 |} /\
       fst (queryFeatureById objectId env w) = Ok None) /\
    (forall fs, carriesRecords o fs ->
       (exists r, o = Resolved r /\ ok r = false) /\
       fst (queryFeaturesInExtent extent filters env w)
         = Ok (map featureToLocation fs) /\
       fst (getFeatureStats env w) = Ok (countStats fs) /\
       fst (queryFeatureById objectId env w)
         = Ok (head (map featureToLocation fs))).
Proof.
  intros env w o filters extent objectId Hrep Hfail.
  split; [now apply queryFeatures_reports_failure|].
  split; [now apply unreadable_answer_asymmetry|].
  intros fs [r [-> Hbody]].
  split.
  { exists r. split; [reflexivity|].
    inversion Hfail as [| r' Hok | r' d e Hb He]; subst; [exact Hok|].
    rewrite Hbody in Hb. inversion Hb; subst d. discriminate He. }
  split; [now apply (queryFeaturesInExtent_ignores_status env w extent filters r)|].
  split; [now apply (getFeatureStats_ignores_status env w r)|].
  now apply (queryFeatureById_ignores_status env w objectId r).
Qed.

(** The four operations against an answer with status 503 that carries the
    eight records of the fixture: query-by-filter throws; query-by-extent
    returns eight locations, aggregate-stats the counts 8/2/3/5/2 and
    query-by-identifier the record 1. *)
Lemma query_failure_status_unchecked_witness :
  fst (queryFeatures defaultFilters unavailableEnv signedIn)
    = Thrown (Error "Feature service query failed: Service Unavailable") /\
  (exists ls,
     fst (queryFeaturesInExtent sampleExtent defaultFilters unavailableEnv signedIn)
       = Ok ls /\ length ls = 8) /\
  fst (getFeatureStats unavailableEnv signedIn)
    = Ok {| total := 8; leadCount := 2; unknownCount := 3;
            verified := 5; assumed := 2 |} /\
  fst (queryFeatureById 1 unavailableEnv signedIn)
    = Ok (Some (featureToLocation (mkFeature 1 "Lead" "Copper" "VERIFIED"))).
Proof.
  pose proof (query_failure_status_unchecked
                unavailableEnv signedIn (Resolved (unavailableResponse statsFixture))
                defaultFilters sampleExtent 1) as H.
  destruct H as ([e [He _]] & _ & Hrec).
  - intros req. reflexivity.
  - now apply FailureStatus.
  - destruct (Hrec statsFixture) as (_ & Hx & Hs & Hi).
    { now exists (unavailableResponse statsFixture). }
    split; [reflexivity|].
    split; [eexists; split; [exact Hx | reflexivity]|].
    split; [rewrite Hs; reflexivity | rewrite Hi; reflexivity].
Defined.

(** The same operations against a provider that reports an error with a
    success status: the asymmetry of the claim. *)
Example error_payload_asymmetry :
  (exists e,
     fst (queryFeatures defaultFilters
            (sampleEnv 0 (Resolved errorResponse)) signedIn) = Thrown e) /\
  (exists e,
     fst (queryFeaturesInExtent sampleExtent defaultFilters
            (sampleEnv 0 (Resolved errorResponse)) signedIn) = Thrown e) /\
  fst (getFeatureStats (sampleEnv 0 (Resolved errorResponse)) signedIn)
    = Ok zeroStats /\
  fst (queryFeatureById 7 (sampleEnv 0 (Resolved errorResponse)) signedIn)
    = Ok None.
Proof.
  split; [eexists; reflexivity|]. split; [eexists; reflexivity|].
  split; reflexivity.
Qed.

(** C7: the aggregate-stats operation asks for every record ([1=1]) with
    the three attributes it needs and counts over the records it receives:
    the total is their number, lead and unknown count the records one of
    whose material fields is "Lead", respectively "Unknown", and verified
    and assumed count the records with exactly that status. *)
Theorem getFeatureStats_counts :
  forall (env : Env QueryData) (w : World) (resp : Response QueryData)
         (fs : list Feature),
    replies env (Resolved resp) ->
    body resp = Some {| error := None; features := Some fs |} ->
    fst (getFeatureStats env w)
      = Ok {| total := length fs;
              leadCount :=
                length (filter (fun f => eitherMaterialIs "Lead" (attributes f)) fs);
              unknownCount :=
                length (filter (fun f => eitherMaterialIs "Unknown" (attributes f)) fs);
              verified :=
                length (filter (fun f => Status (attributes f) = Some "VERIFIED") fs);
              assumed :=
                length (filter (fun f => Status (attributes f) = Some "ASSUMED") fs) |} /\
    exists req,
      sent (snd (getFeatureStats env w)) = sent w ++ [req] /\
      paramValue "where" (params req) = Some "1=1" /\
      paramValue "outFields" (params req)
        = Some "CustomerMaterial,SupplierMaterial,Status".
Proof.
  intros env w resp fs Hrep Hbody. split.
  - run. rewrite Hrep. cbn. rewrite Hbody. cbn. unfold countStats.
    rewrite (filter_bool_prop isLead _ fs isLead_spec).
    rewrite (filter_bool_prop isUnknown _ fs isUnknown_spec).
    rewrite (filter_bool_prop isVerified
               (fun f => Status (attributes f) = Some "VERIFIED") fs)
      by (intros a; apply FeatureServiceFacts.strEq_spec).
    rewrite (filter_bool_prop isAssumed
               (fun f => Status (attributes f) = Some "ASSUMED") fs)
      by (intros a; apply FeatureServiceFacts.strEq_spec).
    reflexivity.
  - destruct (worldAfter_logs AggregateStats env w) as [base [_ Hw]].
    cbn [worldAfter] in Hw.
    eexists. split; [run; rewrite Hrep; cbn; rewrite Hbody; reflexivity|].
    split; apply paramValue_appendToken; reflexivity.
Qed.

(** The counts on a fixture with 2 lead, 3 unknown, 5 verified and 2
    assumed records. *)
Lemma getFeatureStats_counts_witness :
  fst (getFeatureStats
         (sampleEnv 0 (Resolved (featuresResponse statsFixture))) (initial ∅))
  = Ok {| total := 8; leadCount := 2; unknownCount := 3;
          verified := 5; assumed := 2 |}.
Proof.
  pose proof (getFeatureStats_counts
                (sampleEnv 0 (Resolved (featuresResponse statsFixture)))
                (initial ∅) (featuresResponse statsFixture) statsFixture) as H.
  destruct H as [H _].
  - intros req. reflexivity.
  - reflexivity.
  - rewrite H. reflexivity.
Defined.

End FeatureQueryFacts.

(** ** The authorization handshake *)

Module HandshakeFacts.
Import Js Types Effects AuthService Vocabulary Tactics AuthServiceFacts.

Lemma truthyStr_Some (v : string) : v <> "" -> truthyStr (Some v) = true.
Proof. intros H. apply truthyStr_spec. now exists v. Qed.

(** What [handleCallback] does once the verifier has been found. *)
Lemma handleCallback_run (env : Env TokenData) (w : World)
  (code verifier : string) :
  sessionStorage w !! "pkce_verifier" = Some verifier -> verifier <> "" ->
  handleCallback code env w =
    let req := tokenExchange (arcgisConfig env) code verifier in
    let w1 := logRequest req w in
    match network env req with
    | Rejected e => (Thrown e, w1)
    | Resolved r =>
        if ok r then
          match body r with
          | Some data =>
              (Ok tt,
               setSessionStorage (delete "pkce_verifier" (sessionStorage w))
                 (setTokenExpiry (Some (expiryFrom (now env) (expires_in data)))
                    (setRefreshToken (refresh_token data)
                       (setAccessToken (access_token data) w1))))
          | None => (Thrown (SyntaxError "Unexpected token in JSON"), w1)
          end
        else
          (Thrown (Error "Failed to exchange authorization code for token"), w1)
    end.
Proof.
  intros Hv Hne. unfold handleCallback. run.
  rewrite Hv, (truthyStr_Some verifier Hne). cbn.
  change {| method := POST; url := tokenUrl (arcgisConfig env);
            params := [("client_id", clientId (arcgisConfig env));
                       ("grant_type", "authorization_code"); ("code", code);
                       ("redirect_uri", redirectUri (arcgisConfig env));
                       ("code_verifier", verifier)] |}
    with (tokenExchange (arcgisConfig env) code verifier).
  destruct (network env (tokenExchange (arcgisConfig env) code verifier))
    as [e | r]; [reflexivity|].
  destruct (ok r); cbn; [|reflexivity].
  destruct (body r); reflexivity.
Qed.

(** C2, at the failing exchange: when the token endpoint answers with a
    non-2xx status, [handleCallback] throws and leaves the access token, the
    refresh token and the expiry as they were; the stored handshake verifier
    is still in [sessionStorage] afterwards. *)
Theorem handleCallback_failure_keeps_verifier :
  forall (env : Env TokenData) (w : World) (code verifier : string)
         (resp : Response TokenData),
    sessionStorage w !! "pkce_verifier" = Some verifier ->
    verifier <> "" ->
    network env (tokenExchange (arcgisConfig env) code verifier) = Resolved resp ->
    ok resp = false ->
    fst (handleCallback code env w)
      = Thrown (Error "Failed to exchange authorization code for token") /\
    accessToken (snd (handleCallback code env w)) = accessToken w /\
    refreshToken (snd (handleCallback code env w)) = refreshToken w /\
    tokenExpiry (snd (handleCallback code env w)) = tokenExpiry w /\
    sessionStorage (snd (handleCallback code env w)) !! "pkce_verifier"
      = Some verifier.
Proof.
  intros env w code verifier resp Hv Hne Hnet Hok.
  rewrite (handleCallback_run env w code verifier Hv Hne). cbv zeta.
  rewrite Hnet, Hok. cbn. repeat split; try reflexivity. exact Hv.
Qed.

(** The failing exchange on a session that waits for its callback. *)
Lemma handleCallback_failure_keeps_verifier_witness :
  fst (handleCallback "code" (sampleEnv 1000 (Resolved badRequest)) authorizing)
    = Thrown (Error "Failed to exchange authorization code for token") /\
  sessionStorage
    (snd (handleCallback "code" (sampleEnv 1000 (Resolved badRequest)) authorizing))
    !! "pkce_verifier" = Some "verifier".
Proof.
  pose proof (handleCallback_failure_keeps_verifier
                (sampleEnv 1000 (Resolved badRequest)) authorizing
                "code" "verifier" badRequest) as H.
  destruct H as (H1 & _ & _ & _ & H5).
  - apply lookup_singleton_eq.
  - discriminate.
  - reflexivity.
  - reflexivity.
  - split; [exact H1 | exact H5].
Defined.

(** On success the verifier is removed and the credential is populated. *)
Lemma handleCallback_success_clears_verifier (env : Env TokenData) (w : World)
  (code verifier : string) (resp : Response TokenData) (data : TokenData) :
  sessionStorage w !! "pkce_verifier" = Some verifier ->
  verifier <> "" ->
  network env (tokenExchange (arcgisConfig env) code verifier) = Resolved resp ->
  ok resp = true ->
  body resp = Some data ->
  fst (handleCallback code env w) = Ok tt /\
  accessToken (snd (handleCallback code env w)) = access_token data /\
  refreshToken (snd (handleCallback code env w)) = refresh_token data /\
  tokenExpiry (snd (handleCallback code env w))
    = Some (expiryFrom (now env) (expires_in data)) /\
  sessionStorage (snd (handleCallback code env w)) !! "pkce_verifier" = None.
Proof.
  intros Hv Hne Hnet Hok Hbody.
  rewrite (handleCallback_run env w code verifier Hv Hne). cbv zeta.
  rewrite Hnet, Hok, Hbody. cbn. repeat split; try reflexivity.
  apply lookup_delete_eq.
Qed.

(** A rejected request leaves the verifier in place as well. *)
Lemma handleCallback_rejected_keeps_verifier (env : Env TokenData) (w : World)
  (code verifier : string) (e : Exn) :
  sessionStorage w !! "pkce_verifier" = Some verifier ->
  verifier <> "" ->
  network env (tokenExchange (arcgisConfig env) code verifier) = Rejected e ->
  fst (handleCallback code env w) = Thrown e /\
  sessionStorage (snd (handleCallback code env w)) !! "pkce_verifier"
    = Some verifier.
Proof.
  intros Hv Hne Hnet.
  rewrite (handleCallback_run env w code verifier Hv Hne). cbv zeta.
  rewrite Hnet. cbn. split; [reflexivity | exact Hv].
Qed.

(** Without a stored verifier nothing is sent and nothing changes. *)
Lemma handleCallback_without_verifier (env : Env TokenData) (w : World)
  (code : string) :
  sessionStorage w !! "pkce_verifier" = None ->
  handleCallback code env w = (Thrown (Error "PKCE verifier not found"), w).
Proof. intros Hv. unfold handleCallback. run. now rewrite Hv. Qed.

(** The sibling failure path: a rejected refresh signs the session out, which
    removes the stored verifier. *)
Lemma refreshAccessToken_failure_clears_verifier (env : Env TokenData)
  (w : World) (rt : string) (resp : Response TokenData) :
  refreshToken w = Some rt -> rt <> "" ->
  (forall req, network env req = Resolved resp) ->
  ok resp = false ->
  fst (refreshAccessToken env w)
    = Thrown (Error "Refresh token expired, please log in again") /\
  accessToken (snd (refreshAccessToken env w)) = None /\
  sessionStorage (snd (refreshAccessToken env w)) !! "pkce_verifier" = None.
Proof.
  intros Hrt Hne Hnet Hok. unfold refreshAccessToken. run.
  rewrite Hrt, (truthyStr_Some rt Hne). cbn. rewrite Hnet, Hok. cbn.
  repeat split; try reflexivity.
  rewrite lookup_delete_ne by discriminate. apply lookup_delete_eq.
Qed.

Lemma World_eq (w1 w2 : World) :
  accessToken w1 = accessToken w2 ->
  refreshToken w1 = refreshToken w2 ->
  tokenExpiry w1 = tokenExpiry w2 ->
  codeVerifier w1 = codeVerifier w2 ->
  sessionStorage w1 = sessionStorage w2 ->
  sent w1 = sent w2 ->
  w1 = w2.
Proof.
  destruct w1, w2. simpl. intros. subst. reflexivity.
Qed.

(** [logout] is idempotent. *)
Lemma logout_idempotent (w : World) : logout (logout w) = logout w.
Proof.
  apply World_eq; try reflexivity.
  change (delete "auth_redirect"
            (delete "pkce_verifier"
               (delete "auth_redirect"
                  (delete "pkce_verifier" (sessionStorage w))))
          = delete "auth_redirect" (delete "pkce_verifier" (sessionStorage w))).
  apply map_eq. intros k.
  rewrite !lookup_delete. repeat case_decide; reflexivity.
Qed.

End HandshakeFacts.

(** ** The address resolver client *)

Module GeocodingFacts.
Import Js Types Effects AuthService Geocoding Vocabulary Tactics AuthServiceFacts.

Lemma tooShort_true (text : option string) (n : nat) :
  String.length (default "" text) < S n -> tooShort text (S n) = true.
Proof.
  intros H. unfold tooShort. apply orb_true_iff. right.
  now apply Nat.ltb_lt.
Qed.

Lemma tooShort_false (text : option string) (n : nat) :
  S n <= String.length (default "" text) ->
  tooShort text (S n) = false /\ exists s, text = Some s.
Proof.
  intros H. unfold tooShort. destruct text as [s|].
  - split; [|now exists s].
    apply orb_false_iff. split.
    + destruct s; [cbn in H; lia | reflexivity].
    + apply Nat.ltb_ge. exact H.
  - cbn in H. lia.
Qed.

(** What [geocodeAddress] does once the text is long enough. *)
Lemma geocodeAddress_run (env : Env GeocodeData) (w : World) (s : string)
  (center : option Point) :
  3 <= String.length s ->
  geocodeAddress (Some s) center env w =
    let req := geocodeRequest env s center in
    (match network env req with
     | Rejected _ => Ok []
     | Resolved r =>
         if ok r then
           match body r with
           | Some d =>
               match gError d, candidates d with
               | None, Some cs => Ok (map toResult cs)
               | _, _ => Ok []
               end
           | None => Ok []
           end
         else Ok []
     end, logRequest req w).
Proof.
  intros Hlen. unfold geocodeAddress.
  destruct (tooShort_false (Some s) 2 Hlen) as [-> _].
  unfold geocodeRequest. destruct center as [c|]; run;
    match goal with
    | |- context [network env ?req] => destruct (network env req) as [e | r]
    end; cbn; try reflexivity;
    destruct (ok r); cbn; try reflexivity;
    destruct (body r) as [d|]; cbn; try reflexivity;
    destruct (gError d); cbn; try reflexivity;
    destruct (candidates d); reflexivity.
Qed.

(** C9: forward search on a text shorter than 3 characters, empty or
    absent returns the empty list and sends nothing; on a text of 3 or more
    characters it sends one request, which asks for 10 candidates at most;
    it never throws, and when the request is rejected, answered with a
    non-2xx status, an unreadable body, an error payload or no candidate
    list, it returns the empty list. *)
Theorem geocodeAddress_best_effort :
  forall (env : Env GeocodeData) (w : World) (text : option string)
         (center : option Point),
    (String.length (default "" text) < 3 ->
       geocodeAddress text center env w = (Ok [], w)) /\
    (3 <= String.length (default "" text) ->
       exists req,
         sent (snd (geocodeAddress text center env w)) = sent w ++ [req] /\
         paramValue "maxLocations" (params req) = Some "10" /\
         paramValue "SingleLine" (params req) = text) /\
    (exists results, fst (geocodeAddress text center env w) = Ok results) /\
    (forall o, replies env o -> GeocodeFailure o ->
       fst (geocodeAddress text center env w) = Ok []).
Proof.
  intros env w text center.
  assert (Hshort : String.length (default "" text) < 3 ->
                   geocodeAddress text center env w = (Ok [], w)).
  { intros H. unfold geocodeAddress. now rewrite (tooShort_true text 2 H). }
  split; [exact Hshort|].
  split; [|split].
  - intros Hlen. destruct (tooShort_false text 2 Hlen) as [_ [s ->]].
    rewrite (geocodeAddress_run env w s center Hlen). cbv zeta.
    exists (geocodeRequest env s center). split; [reflexivity|].
    unfold geocodeRequest. destruct center; split; reflexivity.
  - destruct (Nat.lt_ge_cases (String.length (default "" text)) 3) as [H | H].
    + rewrite (Hshort H). now exists [].
    + destruct (tooShort_false text 2 H) as [_ [s ->]].
      rewrite (geocodeAddress_run env w s center H). cbv zeta. cbn [fst].
      destruct (network env _) as [e | r]; [now eexists|].
      destruct (ok r); [|now eexists].
      destruct (body r) as [d|]; [|now eexists].
      destruct (gError d), (candidates d); now eexists.
  - intros o Hrep Hfail.
    destruct (Nat.lt_ge_cases (String.length (default "" text)) 3) as [H | H].
    + now rewrite (Hshort H).
    + destruct (tooShort_false text 2 H) as [_ [s ->]].
      rewrite (geocodeAddress_run env w s center H). cbv zeta. cbn [fst].
      rewrite Hrep.
      destruct Hfail as [e | r Hok | r Hb | r d e Hb He | r d Hb Hc];
        try reflexivity.
      * now rewrite Hok.
      * rewrite Hb. now destruct (ok r).
      * rewrite Hb, He. now destruct (ok r).
      * rewrite Hb, Hc. destruct (ok r); [|reflexivity]. now destruct (gError d).
Qed.

(** Forward search on a two-letter text, on a street name, and against a
    network that rejects the request. *)
Lemma geocodeAddress_best_effort_witness :
  geocodeAddress (Some "Oa") None (sampleEnv 0 (Rejected offline)) (initial ∅)
    = (Ok [], initial ∅) /\
  (exists req,
     sent (snd (geocodeAddress (Some "Oak") None
                  (sampleEnv 0 (Rejected offline)) (initial ∅))) = [req] /\
     paramValue "maxLocations" (params req) = Some "10") /\
  fst (geocodeAddress (Some "Oak") None
         (sampleEnv 0 (Rejected offline)) (initial ∅)) = Ok [].
Proof.
  pose proof (geocodeAddress_best_effort
                (sampleEnv 0 (Rejected offline)) (initial ∅) (Some "Oa") None)
    as (Hshort & _).
  pose proof (geocodeAddress_best_effort
                (sampleEnv 0 (Rejected offline)) (initial ∅) (Some "Oak") None)
    as (_ & Hlong & _ & Hfail).
  split; [apply Hshort; cbn; lia|].
  split.
  - destruct Hlong as [req [Hs [Hm _]]]; [cbn; lia|].
    exists req. split; [exact Hs | exact Hm].
  - apply (Hfail (Rejected offline)); [intros req; reflexivity | constructor].
Defined.

End GeocodingFacts.

(** ** The PKCE helpers *)

Module PkceFacts.
Import Js Pkce Vocabulary Vocabulary2 JsFacts.

Lemma string_ind3 (P : string -> Prop) :
  P EmptyString ->
  (forall a, P (String a EmptyString)) ->
  (forall a b, P (String a (String b EmptyString))) ->
  (forall a b c r, P r -> P (String a (String b (String c r)))) ->
  forall s, P s.
Proof.
  intros H0 H1 H2 H3 s.
  enough (H : P s /\ (forall a, P (String a s)) /\
              (forall a b, P (String a (String b s)))) by apply H.
  induction s as [|c s [IH0 [IH1 IH2]]].
  - split; [exact H0 | split; [exact H1 | exact H2]].
  - split; [apply IH1 | split; [intros a; apply IH2 |]].
    intros a b. apply H3, IH0.
Qed.

Lemma length_append (a b : string) :
  String.length (a +:+ b) = String.length a + String.length b.
Proof. induction a as [|c a IH]; simpl; [reflexivity | now rewrite IH]. Qed.

Lemma allChars_append (p : ascii -> bool) (a b : string) :
  allChars p (a +:+ b) = allChars p a && allChars p b.
Proof.
  induction a as [|c a IH]; simpl; [reflexivity|].
  now rewrite IH, andb_assoc.
Qed.

Lemma join_empty_cons (a : string) (l : list string) :
  join "" (a :: l) = a +:+ join "" l.
Proof.
  unfold join. destruct l as [|b l]; simpl.
  - now rewrite FeatureServiceFacts.append_nil_r.
  - reflexivity.
Qed.

Lemma get_charset (k : nat) :
  k < 66 -> exists ch, String.get k charset = Some ch /\ isUnreserved ch = true.
Proof.
  intros H.
  do 66 (destruct k as [|k]; [eexists; split; reflexivity|]).
  lia.
Qed.

Lemma pick_spec (v : ascii) :
  exists ch, pick v = String ch EmptyString /\ isUnreserved ch = true.
Proof.
  unfold pick.
  destruct (get_charset (nat_of_ascii v mod String.length charset))
    as [ch [Hget Hch]].
  - apply Nat.mod_upper_bound. discriminate.
  - rewrite Hget. now exists ch.
Qed.

Lemma get_b64chars (k : nat) :
  k < 64 ->
  exists ch, String.get k b64chars = Some ch /\
             (isAlphaNum ch || Ascii.eqb ch "+" || Ascii.eqb ch "/") = true.
Proof.
  intros H.
  do 64 (destruct k as [|k]; [eexists; split; reflexivity|]).
  lia.
Qed.

Lemma b64_spec (i : N) : isB64 (b64 i) = true.
Proof.
  unfold b64, isB64.
  destruct (get_b64chars (N.to_nat (i mod 64))) as [ch [Hget Hch]].
  - assert (i mod 64 < 64)%N by (apply N.mod_lt; discriminate). lia.
  - now rewrite Hget.
Qed.

Lemma urlSafe_cons (a : ascii) (r : string) :
  isB64 a = true ->
  exists a', urlSafe (String a r) = String a' (urlSafe r) /\
             isUrlSafe a' = true.
Proof.
  unfold urlSafe.
  destruct a as [[] [] [] [] [] [] [] []]; try discriminate;
    intros _; eexists; split; reflexivity.
Qed.

Lemma binaryString_spec (bytes : list ascii) :
  binaryString bytes = string_of_list_ascii bytes.
Proof.
  unfold binaryString.
  enough (H : forall acc,
            fold_left (fun binary b => binary +:+ String b EmptyString) bytes acc
            = acc +:+ string_of_list_ascii bytes) by apply (H EmptyString).
  induction bytes as [|b bytes IH]; intros acc; simpl.
  - now rewrite FeatureServiceFacts.append_nil_r.
  - rewrite IH, append_assoc. reflexivity.
Qed.

Lemma length_string_of_list (l : list ascii) :
  String.length (string_of_list_ascii l) = length l.
Proof. induction l as [|a l IH]; simpl; [reflexivity | now rewrite IH]. Qed.

(** The rewriting of [btoa]'s output is unpadded and URL-safe. *)
Lemma urlSafe_btoa (s : string) :
  allChars isUrlSafe (urlSafe (btoa s)) = true /\
  4 * String.length s <= 3 * String.length (urlSafe (btoa s)) /\
  3 * String.length (urlSafe (btoa s)) < 4 * String.length s + 3.
Proof.
  induction s as [| a | a b | a b c r IH] using string_ind3.
  - repeat split; simpl; lia.
  - cbn [btoa]. cbv zeta.
    destruct (urlSafe_cons (b64 (N_of_ascii a * 65536 / 262144))
                (String (b64 (N_of_ascii a * 65536 / 4096)) "==") (b64_spec _))
      as [x1 [-> H1]].
    destruct (urlSafe_cons (b64 (N_of_ascii a * 65536 / 4096)) "==" (b64_spec _))
      as [x2 [-> H2]].
    change (urlSafe "==") with EmptyString.
    cbn [allChars String.length]. rewrite H1, H2. repeat split; simpl; lia.
  - cbn [btoa]. cbv zeta.
    set (n := (N_of_ascii a * 65536 + N_of_ascii b * 256)%N).
    destruct (urlSafe_cons (b64 (n / 262144))
                (String (b64 (n / 4096)) (String (b64 (n / 64)) "="))
                (b64_spec _)) as [x1 [-> H1]].
    destruct (urlSafe_cons (b64 (n / 4096)) (String (b64 (n / 64)) "=")
                (b64_spec _)) as [x2 [-> H2]].
    destruct (urlSafe_cons (b64 (n / 64)) "=" (b64_spec _)) as [x3 [-> H3]].
    change (urlSafe "=") with EmptyString.
    cbn [allChars String.length]. rewrite H1, H2, H3.
    repeat split; simpl; lia.
  - destruct IH as [IHc [IHlo IHhi]].
    cbn [btoa]. cbv zeta.
    set (n := (N_of_ascii a * 65536 + N_of_ascii b * 256 + N_of_ascii c)%N).
    destruct (urlSafe_cons (b64 (n / 262144))
                (String (b64 (n / 4096))
                   (String (b64 (n / 64)) (String (b64 n) (btoa r))))
                (b64_spec _)) as [x1 [-> H1]].
    destruct (urlSafe_cons (b64 (n / 4096))
                (String (b64 (n / 64)) (String (b64 n) (btoa r)))
                (b64_spec _)) as [x2 [-> H2]].
    destruct (urlSafe_cons (b64 (n / 64)) (String (b64 n) (btoa r))
                (b64_spec _)) as [x3 [-> H3]].
    destruct (urlSafe_cons (b64 n) (btoa r) (b64_spec _)) as [x4 [-> H4]].
    cbn [allChars String.length]. rewrite H1, H2, H3, H4, IHc.
    repeat split; simpl; lia.
Qed.

(** [btoa] and the encoder on the usual test vectors. *)
Example base64_vectors :
  btoa "Man" = "TWFu" /\ btoa "Ma" = "TWE=" /\ btoa "M" = "TQ==" /\
  base64UrlEncode ["251"%char; "255"%char] = "-_8".
Proof. repeat split; reflexivity. Qed.

Lemma generateRandomString_spec (values : list ascii) :
  String.length (generateRandomString values) = length values /\
  allChars isUnreserved (generateRandomString values) = true.
Proof.
  unfold generateRandomString.
  induction values as [|v values [IHl IHc]]; [split; reflexivity|].
  cbn [map]. rewrite join_empty_cons, length_append, allChars_append.
  destruct (pick_spec v) as [ch [-> Hch]].
  cbn [String.length allChars]. rewrite IHl, IHc, Hch. split; reflexivity.
Qed.

Lemma verifierOf_length (c : Crypto) : String.length (verifierOf c) = 128.
Proof.
  unfold verifierOf, generatePKCE. cbn [fst].
  destruct (generateRandomString_spec (getRandomValues c 0 128)) as [-> _].
  unfold getRandomValues. now rewrite length_map, length_seq.
Qed.

Lemma verifierOf_nonempty (c : Crypto) : verifierOf c <> "".
Proof.
  intros H. pose proof (verifierOf_length c) as Hl. rewrite H in Hl.
  discriminate Hl.
Qed.

(** X1: [generateRandomString] returns one character per random byte, each
    of them an unreserved character (a letter, a digit, or one of - . _ ~);
    the verifier of [generatePKCE] therefore has exactly 128 such
    characters. *)
Theorem generateRandomString_unreserved :
  forall (values : list ascii) (c : Crypto) (used : nat),
    String.length (generateRandomString values) = length values /\
    allChars isUnreserved (generateRandomString values) = true /\
    String.length (fst (generatePKCE c used)) = 128 /\
    allChars isUnreserved (fst (generatePKCE c used)) = true.
Proof.
  intros values c used.
  destruct (generateRandomString_spec values) as [Hl Hc].
  split; [exact Hl | split; [exact Hc |]].
  unfold generatePKCE. cbn [fst].
  destruct (generateRandomString_spec (getRandomValues c used 128)) as [Hl' Hc'].
  split; [|exact Hc'].
  rewrite Hl'. unfold getRandomValues. now rewrite length_map, length_seq.
Qed.

(** X2: [base64UrlEncode] returns unpadded URL-safe base64: every character
    of its value is a letter, a digit, [-] or [_] (so none is [+], [/] or
    [=]), and a buffer of n bytes gives the least number of characters that
    is at least 4n/3.  The code challenge of a 32-byte digest, as SHA-256
    gives, therefore has exactly 43 such characters. *)
Theorem base64UrlEncode_unpadded_urlsafe :
  forall (buffer : list ascii) (c : Crypto) (verifier : string),
    allChars isUrlSafe (base64UrlEncode buffer) = true /\
    4 * length buffer <= 3 * String.length (base64UrlEncode buffer) /\
    3 * String.length (base64UrlEncode buffer) < 4 * length buffer + 3 /\
    allChars isUrlSafe (generateCodeChallenge c verifier) = true /\
    (length (sha256 c verifier) = 32 ->
       String.length (generateCodeChallenge c verifier) = 43).
Proof.
  assert (H : forall b : list ascii,
    allChars isUrlSafe (base64UrlEncode b) = true /\
    4 * length b <= 3 * String.length (base64UrlEncode b) /\
    3 * String.length (base64UrlEncode b) < 4 * length b + 3).
  { intros b. pose proof (urlSafe_btoa (binaryString b)) as H.
    rewrite binaryString_spec, length_string_of_list in H.
    unfold base64UrlEncode. rewrite binaryString_spec. exact H. }
  intros buffer c verifier.
  destruct (H buffer) as (H1 & H2 & H3).
  destruct (H (sha256 c verifier)) as (K1 & K2 & K3).
  unfold generateCodeChallenge.
  split; [exact H1|]. split; [exact H2|]. split; [exact H3|].
  split; [exact K1|]. intros H32. rewrite H32 in K2, K3. lia.
Qed.

(** The challenge of a sample verifier. *)
Lemma base64UrlEncode_unpadded_urlsafe_witness :
  String.length (generateCodeChallenge sampleCrypto "verifier") = 43.
Proof.
  apply (base64UrlEncode_unpadded_urlsafe [] sampleCrypto "verifier").
  reflexivity.
Defined.

End PkceFacts.

(** ** The redirect round trip *)

Module AuthFlowFacts.
Import Js Types Effects AuthService Pkce AuthFlow Vocabulary Vocabulary2 Tactics.
Import PkceFacts.
Import AuthServiceFacts HandshakeFacts.
Local Open Scope Z_scope.

(** Reads a field off a world built with the setters. *)
Ltac fields :=
  cbn [accessToken refreshToken tokenExpiry codeVerifier sessionStorage sent
       setAccessToken setRefreshToken setTokenExpiry setCodeVerifier
       setSessionStorage logRequest fst snd].

Lemma orStr_nonempty (o : option string) (d : string) :
  d <> "" -> orStr o d <> "".
Proof.
  intros Hd. unfold orStr. destruct o as [v|]; [|exact Hd].
  destruct (String.eqb v "") eqn:E; [exact Hd|].
  now apply String.eqb_neq in E.
Qed.

Lemma truthyStr_empty : truthyStr (Some "") = false.
Proof. reflexivity. Qed.

(** What [login] does when a client identifier is configured. *)
Lemma login_run {P} (env : Env P) (w : World) (c : Crypto) (pathname : string) :
  clientId (arcgisConfig env) <> "" ->
  login c pathname env w =
    (Ok {| target := portalUrl (arcgisConfig env) +:+ "/sharing/rest/oauth2/authorize";
           query :=
             [("client_id", clientId (arcgisConfig env));
              ("response_type", "code");
              ("redirect_uri", redirectUri (arcgisConfig env));
              ("code_challenge", generateCodeChallenge c (verifierOf c));
              ("code_challenge_method", "S256");
              ("state", generateRandomString (getRandomValues c 128 32))] |},
     setSessionStorage
       (<["auth_redirect" := pathname]>
          (<["pkce_verifier" := verifierOf c]> (sessionStorage w)))
       (setCodeVerifier (Some (verifierOf c)) w)).
Proof.
  intros Hid. unfold login, sessionSetItem, bind, reads, modify, ret, throw.
  rewrite (truthyStr_Some _ Hid). cbv beta iota.
  unfold verifierOf, generatePKCE. cbv zeta. cbv beta iota.
  reflexivity.
Qed.

(** X4: without a client identifier [login] throws "OAuth client ID not
    configured" before it draws a verifier: nothing is stored, nothing is
    sent and the session is unchanged. *)
Theorem login_requires_client_id :
  forall (P : Type) (env : Env P) (w : World) (c : Crypto) (pathname : string),
    clientId (arcgisConfig env) = "" ->
    login c pathname env w = (Thrown (Error "OAuth client ID not configured"), w).
Proof.
  intros P env w c pathname Hid.
  unfold login, bind, reads, throw. now rewrite Hid.
Qed.

Lemma login_requires_client_id_witness :
  login (P := TokenData) sampleCrypto "/map"
    (unconfiguredEnv (Rejected offline)) (initial ∅)
  = (Thrown (Error "OAuth client ID not configured"), initial ∅).
Proof.
  apply (login_requires_client_id TokenData). reflexivity.
Defined.

(** X5: with a client identifier configured, [login] keeps the verifier in
    the session object and in [sessionStorage], remembers the current path,
    and sends the user agent to the authorization endpoint with the S256
    challenge of that verifier and without the verifier itself.  It sends no
    request and leaves the credential and every other stored key alone. *)
Theorem login_stores_handshake :
  forall (P : Type) (env : Env P) (w : World) (c : Crypto) (pathname : string),
    clientId (arcgisConfig env) <> "" ->
    exists nav,
      fst (login c pathname env w) = Ok nav /\
      target nav
        = portalUrl (arcgisConfig env) +:+ "/sharing/rest/oauth2/authorize" /\
      paramValue "code_challenge" (query nav)
        = Some (generateCodeChallenge c (verifierOf c)) /\
      paramValue "code_challenge_method" (query nav) = Some "S256" /\
      paramValue "response_type" (query nav) = Some "code" /\
      paramValue "code_verifier" (query nav) = None /\
      codeVerifier (snd (login c pathname env w)) = Some (verifierOf c) /\
      sessionStorage (snd (login c pathname env w)) !! "pkce_verifier"
        = Some (verifierOf c) /\
      sessionStorage (snd (login c pathname env w)) !! "auth_redirect"
        = Some pathname /\
      (forall k, k <> "pkce_verifier" -> k <> "auth_redirect" ->
         sessionStorage (snd (login c pathname env w)) !! k
         = sessionStorage w !! k) /\
      accessToken (snd (login c pathname env w)) = accessToken w /\
      refreshToken (snd (login c pathname env w)) = refreshToken w /\
      tokenExpiry (snd (login c pathname env w)) = tokenExpiry w /\
      sent (snd (login c pathname env w)) = sent w.
Proof.
  intros P env w c pathname Hid.
  rewrite (login_run env w c pathname Hid). fields.
  eexists. split; [reflexivity|].
  split; [reflexivity|]. split; [reflexivity|]. split; [reflexivity|].
  split; [reflexivity|]. split; [reflexivity|]. split; [reflexivity|].
  split; [rewrite lookup_insert_ne by discriminate; apply lookup_insert_eq|].
  split; [apply lookup_insert_eq|].
  split; [intros k Hk1 Hk2; now rewrite !lookup_insert_ne by congruence|].
  repeat split; reflexivity.
Qed.

Lemma login_stores_handshake_witness :
  sessionStorage
    (snd (login (P := TokenData) sampleCrypto "/map"
            (sampleEnv 0 (Rejected offline)) (initial ∅)))
    !! "auth_redirect" = Some "/map".
Proof.
  destruct (login_stores_handshake TokenData
              (sampleEnv 0 (Rejected offline)) (initial ∅) sampleCrypto "/map")
    as [nav H].
  - discriminate.
  - apply H.
Defined.

(** X6: the verifier sent in the token exchange is the one whose challenge
    [login] put in the authorization address: after [login],
    [handleCallback] sends exactly one request, the token exchange with
    that verifier. *)
Theorem login_verifier_reaches_exchange :
  forall (env env' : Env TokenData) (w : World) (c : Crypto)
         (pathname code : string),
    clientId (arcgisConfig env) <> "" ->
    (exists nav,
       fst (login c pathname env w) = Ok nav /\
       paramValue "code_challenge" (query nav)
         = Some (generateCodeChallenge c (verifierOf c))) /\
    sent (snd (handleCallback code env' (snd (login c pathname env w))))
      = sent w ++ [tokenExchange (arcgisConfig env') code (verifierOf c)].
Proof.
  intros env env' w c pathname code Hid.
  rewrite (login_run env w c pathname Hid). fields.
  split; [eexists; split; reflexivity|].
  rewrite (handleCallback_run env' _ code (verifierOf c)).
  - cbv zeta.
    destruct (network env' (tokenExchange (arcgisConfig env') code (verifierOf c)))
      as [e | r]; [reflexivity|].
    destruct (ok r); [|reflexivity].
    destruct (body r); reflexivity.
  - fields. rewrite lookup_insert_ne by discriminate. apply lookup_insert_eq.
  - apply verifierOf_nonempty.
Qed.

Lemma login_verifier_reaches_exchange_witness :
  map (fun r => paramValue "code_verifier" (params r))
    (sent (snd (handleCallback "code" (sampleEnv 0 (Resolved badRequest))
                  (snd (login sampleCrypto "/map"
                          (sampleEnv 0 (Resolved badRequest)) (initial ∅))))))
  = [Some (verifierOf sampleCrypto)].
Proof.
  destruct (login_verifier_reaches_exchange
              (sampleEnv 0 (Resolved badRequest)) (sampleEnv 0 (Resolved badRequest))
              (initial ∅) sampleCrypto "/map" "code") as [_ H].
  - discriminate.
  - rewrite H. reflexivity.
Defined.

(** The session after a successful exchange. *)
Lemma handleCallback_success_world (env : Env TokenData) (w : World)
  (code verifier : string) (data : TokenData) :
  sessionStorage w !! "pkce_verifier" = Some verifier ->
  verifier <> "" ->
  network env (tokenExchange (arcgisConfig env) code verifier)
    = Resolved (tokenResponse data) ->
  handleCallback code env w =
    (Ok tt,
     setSessionStorage (delete "pkce_verifier" (sessionStorage w))
       (setTokenExpiry (Some (expiryFrom (now env) (expires_in data)))
          (setRefreshToken (refresh_token data)
             (setAccessToken (access_token data)
                (logRequest (tokenExchange (arcgisConfig env) code verifier) w))))).
Proof.
  intros Hv Hne Hnet.
  rewrite (handleCallback_run env w code verifier Hv Hne). cbv zeta.
  now rewrite Hnet.
Qed.

(** X7: after a successful exchange that delivers a non-empty token and a
    lifetime, the session is authenticated at exactly the instants before
    the exchange instant plus the lifetime (in milliseconds), and hands out
    the delivered token at those instants. *)
Theorem handleCallback_session_lifetime :
  forall (env : Env TokenData) (w : World) (code verifier : string)
         (data : TokenData) (tok : string) (secs : Z),
    sessionStorage w !! "pkce_verifier" = Some verifier ->
    verifier <> "" ->
    network env (tokenExchange (arcgisConfig env) code verifier)
      = Resolved (tokenResponse data) ->
    access_token data = Some tok ->
    tok <> "" ->
    expires_in data = Some secs ->
    now env + secs * 1000 <> 0 ->
    forall t : Z,
      (isAuthenticated t (snd (handleCallback code env w)) = true <->
         t < now env + secs * 1000) /\
      (t < now env + secs * 1000 ->
         getAccessToken t (snd (handleCallback code env w)) = Some tok).
Proof.
  intros env w code verifier data tok secs Hv Hne Hnet Htok Htne Hsecs Hnz t.
  rewrite (handleCallback_success_world env w code verifier data Hv Hne Hnet).
  fields.
  assert (Hiff : isAuthenticated t
             (setSessionStorage (delete "pkce_verifier" (sessionStorage w))
                (setTokenExpiry (Some (expiryFrom (now env) (expires_in data)))
                   (setRefreshToken (refresh_token data)
                      (setAccessToken (access_token data)
                         (logRequest
                            (tokenExchange (arcgisConfig env) code verifier) w)))))
             = true <-> t < now env + secs * 1000).
  { rewrite isAuthenticated_spec. unfold validCredential. fields.
    rewrite Htok, Hsecs. cbn [expiryFrom]. split.
    - intros [tok' [e [_ [_ [[= <-] [_ Hlt]]]]]]. exact Hlt.
    - intros Hlt. exists tok, (now env + secs * 1000).
      repeat split; try assumption; reflexivity. }
  split; [exact Hiff|].
  intros Hlt. unfold getAccessToken.
  apply Hiff in Hlt. rewrite Hlt. fields. exact Htok.
Qed.

Lemma handleCallback_session_lifetime_witness :
  isAuthenticated 7200999
    (snd (handleCallback "code" (sampleEnv 1000 (Resolved (tokenResponse sampleToken)))
            authorizing)) = true /\
  isAuthenticated 7201000
    (snd (handleCallback "code" (sampleEnv 1000 (Resolved (tokenResponse sampleToken)))
            authorizing)) = false.
Proof.
  assert (H : forall t,
    isAuthenticated t
      (snd (handleCallback "code"
              (sampleEnv 1000 (Resolved (tokenResponse sampleToken))) authorizing))
      = true <-> t < 7201000).
  { intros t.
    apply (handleCallback_session_lifetime
             (sampleEnv 1000 (Resolved (tokenResponse sampleToken))) authorizing
             "code" "verifier" sampleToken "tok" 7200).
    - apply lookup_singleton_eq.
    - discriminate.
    - reflexivity.
    - reflexivity.
    - discriminate.
    - reflexivity.
    - discriminate. }
  split.
  - apply H. reflexivity.
  - destruct (isAuthenticated 7201000 _) eqn:E; [|reflexivity].
    apply H in E. discriminate E.
Defined.

(** X8: a token answer without a lifetime or without a token is accepted
    (the call returns and the verifier is removed), but the session it
    leaves is authenticated at no instant. *)
Theorem handleCallback_incomplete_answer :
  forall (env : Env TokenData) (w : World) (code verifier : string)
         (data : TokenData),
    sessionStorage w !! "pkce_verifier" = Some verifier ->
    verifier <> "" ->
    network env (tokenExchange (arcgisConfig env) code verifier)
      = Resolved (tokenResponse data) ->
    expires_in data = None \/ access_token data = None ->
    fst (handleCallback code env w) = Ok tt /\
    accessToken (snd (handleCallback code env w)) = access_token data /\
    sessionStorage (snd (handleCallback code env w)) !! "pkce_verifier" = None /\
    forall t : Z,
      isAuthenticated t (snd (handleCallback code env w)) = false /\
      getAccessToken t (snd (handleCallback code env w)) = None.
Proof.
  intros env w code verifier data Hv Hne Hnet Hmissing.
  rewrite (handleCallback_success_world env w code verifier data Hv Hne Hnet).
  fields.
  split; [reflexivity|]. split; [reflexivity|].
  split; [apply lookup_delete_eq|].
  intros t.
  assert (Hf : isAuthenticated t
             (setSessionStorage (delete "pkce_verifier" (sessionStorage w))
                (setTokenExpiry (Some (expiryFrom (now env) (expires_in data)))
                   (setRefreshToken (refresh_token data)
                      (setAccessToken (access_token data)
                         (logRequest
                            (tokenExchange (arcgisConfig env) code verifier) w)))))
             = false).
  { unfold isAuthenticated. fields.
    destruct Hmissing as [-> | ->].
    - cbn [expiryFrom truthyExpiry]. now rewrite orb_true_r.
    - reflexivity. }
  split; [exact Hf|]. unfold getAccessToken. now rewrite Hf.
Qed.

Lemma handleCallback_incomplete_answer_witness :
  accessToken
    (snd (handleCallback "code"
            (sampleEnv 1000 (Resolved (tokenResponse tokenWithoutLifetime)))
            authorizing)) = Some "tok" /\
  isAuthenticated 1000
    (snd (handleCallback "code"
            (sampleEnv 1000 (Resolved (tokenResponse tokenWithoutLifetime)))
            authorizing)) = false.
Proof.
  destruct (handleCallback_incomplete_answer
              (sampleEnv 1000 (Resolved (tokenResponse tokenWithoutLifetime)))
              authorizing "code" "verifier" tokenWithoutLifetime)
    as (_ & Ha & _ & Ht).
  - apply lookup_singleton_eq.
  - discriminate.
  - reflexivity.
  - now left.
  - split; [exact Ha | apply Ht].
Defined.

(** X9: when no verifier is stored, or the stored one is empty,
    [handleCallback] throws "PKCE verifier not found" and does nothing
    else: no request is sent and the session is unchanged. *)
Theorem handleCallback_needs_verifier :
  forall (env : Env TokenData) (w : World) (code : string),
    sessionStorage w !! "pkce_verifier" = None \/
    sessionStorage w !! "pkce_verifier" = Some "" ->
    handleCallback code env w = (Thrown (Error "PKCE verifier not found"), w).
Proof.
  intros env w code H. unfold handleCallback, sessionGetItem, bind, reads, throw.
  destruct H as [-> | ->]; reflexivity.
Qed.

Lemma handleCallback_needs_verifier_witness :
  handleCallback "code" (sampleEnv 0 (Resolved (tokenResponse sampleToken))) signedIn
  = (Thrown (Error "PKCE verifier not found"), signedIn).
Proof.
  apply handleCallback_needs_verifier. left. apply lookup_empty.
Defined.

(** What [refreshAccessToken] does when a refresh token is held. *)
Lemma refreshAccessToken_run (env : Env TokenData) (w : World) (rt : string) :
  refreshToken w = Some rt -> rt <> "" ->
  refreshAccessToken env w =
    let req :=
      {| method := POST; url := tokenUrl (arcgisConfig env);
         params := [("client_id", clientId (arcgisConfig env));
                    ("grant_type", "refresh_token");
                    ("refresh_token", rt)] |} in
    let w1 := logRequest req w in
    match network env req with
    | Rejected e => (Thrown e, w1)
    | Resolved r =>
        if ok r then
          match body r with
          | Some data =>
              (Ok tt,
               setTokenExpiry (Some (expiryFrom (now env) (expires_in data)))
                 (setAccessToken (access_token data) w1))
          | None => (Thrown (SyntaxError "Unexpected token in JSON"), w1)
          end
        else
          (Thrown (Error "Refresh token expired, please log in again"),
           logout w1)
    end.
Proof.
  intros Hrt Hne. unfold refreshAccessToken, bind, reads, modify, throw, fetch, json, ret.
  rewrite Hrt, (truthyStr_Some rt Hne). cbv beta iota zeta.
  cbn [default negb].
  destruct (network env _) as [e | r]; [reflexivity|].
  destruct (ok r); cbn [negb]; [|reflexivity].
  destruct (body r); reflexivity.
Qed.

Lemma refresh_without_token (env : Env TokenData) (w : World) :
  refreshToken w = None ->
  refreshAccessToken env w = (Thrown (Error "No refresh token available"), w).
Proof.
  intros H. unfold refreshAccessToken, bind, reads, throw. now rewrite H.
Qed.

(** X10: without a refresh token (none, or an empty one)
    [refreshAccessToken] throws "No refresh token available" and does
    nothing else: no request is sent and the session is unchanged. *)
Theorem refreshAccessToken_needs_token :
  forall (env : Env TokenData) (w : World),
    refreshToken w = None \/ refreshToken w = Some "" ->
    refreshAccessToken env w
    = (Thrown (Error "No refresh token available"), w).
Proof.
  intros env w [H | H].
  - now apply refresh_without_token.
  - unfold refreshAccessToken, bind, reads, throw. now rewrite H.
Qed.

Lemma refreshAccessToken_needs_token_witness :
  refreshAccessToken (sampleEnv 0 (Resolved (tokenResponse sampleToken))) authorizing
  = (Thrown (Error "No refresh token available"), authorizing).
Proof.
  apply refreshAccessToken_needs_token. now left.
Defined.

(** X11: a successful refresh replaces the access token and the expiry and
    nothing else: the refresh token, the verifier and [sessionStorage] stay
    as they were, and the one request sent is the refresh grant carrying
    the held refresh token. *)
Theorem refreshAccessToken_updates_token_only :
  forall (env : Env TokenData) (w : World) (rt : string) (data : TokenData),
    refreshToken w = Some rt ->
    rt <> "" ->
    replies env (Resolved (tokenResponse data)) ->
    fst (refreshAccessToken env w) = Ok tt /\
    accessToken (snd (refreshAccessToken env w)) = access_token data /\
    tokenExpiry (snd (refreshAccessToken env w))
      = Some (expiryFrom (now env) (expires_in data)) /\
    refreshToken (snd (refreshAccessToken env w)) = Some rt /\
    codeVerifier (snd (refreshAccessToken env w)) = codeVerifier w /\
    sessionStorage (snd (refreshAccessToken env w)) = sessionStorage w /\
    exists req,
      sent (snd (refreshAccessToken env w)) = sent w ++ [req] /\
      method req = POST /\
      paramValue "grant_type" (params req) = Some "refresh_token" /\
      paramValue "refresh_token" (params req) = Some rt.
Proof.
  intros env w rt data Hrt Hne Hrep.
  assert (Hw : refreshAccessToken env w =
    (Ok tt,
     setTokenExpiry (Some (expiryFrom (now env) (expires_in data)))
       (setAccessToken (access_token data)
          (logRequest
             {| method := POST; url := tokenUrl (arcgisConfig env);
                params := [("client_id", clientId (arcgisConfig env));
                           ("grant_type", "refresh_token");
                           ("refresh_token", rt)] |} w)))).
  { rewrite (refreshAccessToken_run env w rt Hrt Hne). cbv zeta.
    now rewrite Hrep. }
  rewrite Hw. fields.
  split; [reflexivity|]. split; [reflexivity|]. split; [reflexivity|].
  split; [exact Hrt|]. split; [reflexivity|]. split; [reflexivity|].
  eexists. repeat split; reflexivity.
Qed.

Lemma refreshAccessToken_updates_token_only_witness :
  accessToken
    (snd (refreshAccessToken
            (sampleEnv 5000 (Resolved (tokenResponse sampleToken))) signedIn))
    = Some "tok" /\
  tokenExpiry
    (snd (refreshAccessToken
            (sampleEnv 5000 (Resolved (tokenResponse sampleToken))) signedIn))
    = Some (Int 7205000) /\
  refreshToken
    (snd (refreshAccessToken
            (sampleEnv 5000 (Resolved (tokenResponse sampleToken))) signedIn))
    = Some "ref".
Proof.
  destruct (refreshAccessToken_updates_token_only
              (sampleEnv 5000 (Resolved (tokenResponse sampleToken)))
              signedIn "ref" sampleToken) as (_ & Ha & He & Hr & _).
  - reflexivity.
  - discriminate.
  - intros req. reflexivity.
  - split; [exact Ha | split; [exact He | exact Hr]].
Defined.

(** X12: a refresh the provider rejects with a non-2xx status signs the
    session out for good: every credential field and both stored
    handshake keys are cleared, the session is authenticated at no instant,
    and a further refresh throws without sending anything. *)
Theorem refreshAccessToken_rejection_signs_out :
  forall (env : Env TokenData) (w : World) (rt : string)
         (resp : Response TokenData),
    refreshToken w = Some rt ->
    rt <> "" ->
    replies env (Resolved resp) ->
    ok resp = false ->
    fst (refreshAccessToken env w)
      = Thrown (Error "Refresh token expired, please log in again") /\
    accessToken (snd (refreshAccessToken env w)) = None /\
    refreshToken (snd (refreshAccessToken env w)) = None /\
    tokenExpiry (snd (refreshAccessToken env w)) = None /\
    codeVerifier (snd (refreshAccessToken env w)) = None /\
    sessionStorage (snd (refreshAccessToken env w)) !! "pkce_verifier" = None /\
    sessionStorage (snd (refreshAccessToken env w)) !! "auth_redirect" = None /\
    (forall t, isAuthenticated t (snd (refreshAccessToken env w)) = false) /\
    (forall env', refreshAccessToken env' (snd (refreshAccessToken env w))
       = (Thrown (Error "No refresh token available"),
          snd (refreshAccessToken env w))).
Proof.
  intros env w rt resp Hrt Hne Hrep Hok.
  assert (Hw : refreshAccessToken env w =
    (Thrown (Error "Refresh token expired, please log in again"),
     logout
       (logRequest
          {| method := POST; url := tokenUrl (arcgisConfig env);
             params := [("client_id", clientId (arcgisConfig env));
                        ("grant_type", "refresh_token");
                        ("refresh_token", rt)] |} w))).
  { rewrite (refreshAccessToken_run env w rt Hrt Hne). cbv zeta.
    now rewrite Hrep, Hok. }
  rewrite Hw. cbn [fst snd].
  split; [reflexivity|]. split; [reflexivity|]. split; [reflexivity|].
  split; [reflexivity|]. split; [reflexivity|].
  split.
  { change (delete "auth_redirect" (delete "pkce_verifier" (sessionStorage w))
              !! "pkce_verifier" = None).
    rewrite lookup_delete_ne by discriminate. apply lookup_delete_eq. }
  split.
  { change (delete "auth_redirect" (delete "pkce_verifier" (sessionStorage w))
              !! "auth_redirect" = None).
    apply lookup_delete_eq. }
  split; [intros t; apply isAuthenticated_logout|].
  intros env'. now apply refresh_without_token.
Qed.

Lemma refreshAccessToken_rejection_signs_out_witness :
  fst (refreshAccessToken (sampleEnv 5000 (Resolved badRequest)) signedIn)
    = Thrown (Error "Refresh token expired, please log in again") /\
  accessToken (snd (refreshAccessToken (sampleEnv 5000 (Resolved badRequest)) signedIn))
    = None.
Proof.
  destruct (refreshAccessToken_rejection_signs_out
              (sampleEnv 5000 (Resolved badRequest)) signedIn "ref" badRequest)
    as (H1 & H2 & _).
  - reflexivity.
  - discriminate.
  - intros req. reflexivity.
  - reflexivity.
  - split; [exact H1 | exact H2].
Defined.

(** X13: [logout] clears the four session fields and removes the two stored
    handshake keys; it keeps every other stored key and the request log,
    sends nothing, and doing it twice is the same as doing it once. *)
Theorem logout_clears_session :
  forall w : World,
    accessToken (logout w) = None /\
    refreshToken (logout w) = None /\
    tokenExpiry (logout w) = None /\
    codeVerifier (logout w) = None /\
    sessionStorage (logout w) !! "pkce_verifier" = None /\
    sessionStorage (logout w) !! "auth_redirect" = None /\
    (forall k, k <> "pkce_verifier" -> k <> "auth_redirect" ->
       sessionStorage (logout w) !! k = sessionStorage w !! k) /\
    sent (logout w) = sent w /\
    (forall t, getAccessToken t (logout w) = None) /\
    logout (logout w) = logout w.
Proof.
  intros w.
  assert (Hs : sessionStorage (logout w)
               = delete "auth_redirect" (delete "pkce_verifier" (sessionStorage w)))
    by reflexivity.
  split; [reflexivity|]. split; [reflexivity|]. split; [reflexivity|].
  split; [reflexivity|].
  split; [rewrite Hs, lookup_delete_ne by discriminate; apply lookup_delete_eq|].
  split; [rewrite Hs; apply lookup_delete_eq|].
  split; [intros k H1 H2; rewrite Hs; now rewrite !lookup_delete_ne by congruence|].
  split; [reflexivity|].
  split; [intros t; reflexivity|].
  apply logout_idempotent.
Qed.

(** X14: [checkForCallback] returns false exactly when the address carries
    no code (none, or an empty one), and then it does nothing: no request,
    no change of the session or of [sessionStorage], no rewriting of the
    address.  When it returns true it has rewritten the address to a
    non-empty path and removed the stored return path. *)
Theorem checkForCallback_result :
  forall (env : Env TokenData) (w w' : World) (code : option string)
         (processed : bool) (path : option string),
    checkForCallback code env w = (Ok (processed, path), w') ->
    (processed = false <-> code = None \/ code = Some "") /\
    (processed = false -> w' = w /\ path = None) /\
    (processed = true ->
       (exists p, path = Some p /\ p <> "") /\
       sessionStorage w' !! "auth_redirect" = None).
Proof.
  intros env w w' code processed path. unfold checkForCallback.
  destruct (truthyStr code) eqn:Ht.
  - apply truthyStr_spec in Ht. destruct Ht as [v [-> Hv]].
    unfold bind at 1. change (default "" (Some v)) with v.
    destruct (handleCallback v env w) as [[[] | e] w1]; [|discriminate].
    unfold bind, sessionGetItem, sessionRemoveItem, reads, modify, ret.
    intros [= <- <- <-]. fields.
    split; [split; [discriminate | intros [H | [= H]]; [discriminate | contradiction]]|].
    split; [discriminate|]. intros _. split.
    + eexists. split; [reflexivity|].
      apply orStr_nonempty. discriminate.
    + apply lookup_delete_eq.
  - intros [= <- <- <-].
    split; [split; [intros _ | reflexivity]|].
    + destruct code as [v|]; [right | now left].
      cbn in Ht. destruct (String.eqb v "") eqn:E; [|discriminate].
      apply String.eqb_eq in E. now subst.
    + split; [intros _; split; reflexivity | discriminate].
Qed.

Lemma checkForCallback_result_witness :
  checkForCallback None (sampleEnv 0 (Resolved badRequest)) authorizing
    = (Ok (false, None), authorizing) /\
  (false = false <-> @None string = None \/ @None string = Some "").
Proof.
  assert (H : checkForCallback None (sampleEnv 0 (Resolved badRequest)) authorizing
              = (Ok (false, None), authorizing)) by reflexivity.
  split; [exact H|].
  apply (checkForCallback_result _ _ _ _ _ _ H).
Defined.

(** X15: the redirect round trip restores the path [login] was called on:
    after [login] on a page with path [pathname], a callback whose token
    exchange succeeds returns true, rewrites the address to [pathname],
    removes both handshake keys from [sessionStorage] and holds the
    delivered token. *)
Theorem login_callback_round_trip :
  forall (env env' : Env TokenData) (w : World) (c : Crypto)
         (pathname code : string) (data : TokenData),
    clientId (arcgisConfig env) <> "" ->
    pathname <> "" ->
    code <> "" ->
    network env' (tokenExchange (arcgisConfig env') code (verifierOf c))
      = Resolved (tokenResponse data) ->
    fst (checkForCallback (Some code) env' (snd (login c pathname env w)))
      = Ok (true, Some pathname) /\
    sessionStorage
      (snd (checkForCallback (Some code) env' (snd (login c pathname env w))))
      !! "pkce_verifier" = None /\
    sessionStorage
      (snd (checkForCallback (Some code) env' (snd (login c pathname env w))))
      !! "auth_redirect" = None /\
    accessToken
      (snd (checkForCallback (Some code) env' (snd (login c pathname env w))))
      = access_token data.
Proof.
  intros env env' w c pathname code data Hid Hpath Hcode Hnet.
  assert (Hcb : checkForCallback (Some code) env' (snd (login c pathname env w))
    = (Ok (true, Some pathname),
       setSessionStorage
         (delete "auth_redirect"
            (delete "pkce_verifier"
               (<["auth_redirect" := pathname]>
                  (<["pkce_verifier" := verifierOf c]> (sessionStorage w)))))
         (setTokenExpiry (Some (expiryFrom (now env') (expires_in data)))
            (setRefreshToken (refresh_token data)
               (setAccessToken (access_token data)
                  (logRequest
                     (tokenExchange (arcgisConfig env') code (verifierOf c))
                     (setCodeVerifier (Some (verifierOf c)) w))))))).
  { rewrite (login_run env w c pathname Hid). cbn [snd].
    unfold checkForCallback. rewrite (truthyStr_Some code Hcode).
    unfold bind at 1. change (default "" (Some code)) with code.
    rewrite (handleCallback_success_world env' _ code (verifierOf c) data);
      [| fields; rewrite lookup_insert_ne by discriminate; apply lookup_insert_eq
       | apply verifierOf_nonempty
       | exact Hnet].
    unfold bind, sessionGetItem, sessionRemoveItem, reads, modify, ret. fields.
    rewrite lookup_delete_ne by discriminate. rewrite lookup_insert_eq.
    rewrite (FeatureServiceFacts.orStr_present pathname "/" Hpath).
    reflexivity. }
  rewrite Hcb. fields.
  split; [reflexivity|].
  split; [rewrite lookup_delete_ne by discriminate; apply lookup_delete_eq|].
  split; [apply lookup_delete_eq | reflexivity].
Qed.

Lemma login_callback_round_trip_witness :
  fst (checkForCallback (Some "code")
         (sampleEnv 1000 (Resolved (tokenResponse sampleToken)))
         (snd (login sampleCrypto "/map"
                 (sampleEnv 0 (Resolved (tokenResponse sampleToken)))
                 (initial ∅))))
  = Ok (true, Some "/map").
Proof.
  apply (login_callback_round_trip
           (sampleEnv 0 (Resolved (tokenResponse sampleToken)))
           (sampleEnv 1000 (Resolved (tokenResponse sampleToken)))
           (initial ∅) sampleCrypto "/map" "code" sampleToken).
  - discriminate.
  - discriminate.
  - discriminate.
  - reflexivity.
Defined.

(** X16: a callback whose token exchange is answered with a non-2xx status
    throws instead of returning; it does not rewrite the address, and the
    stored return path and verifier are still in [sessionStorage]. *)
Theorem checkForCallback_failure_keeps_return_path :
  forall (env : Env TokenData) (w : World) (code verifier : string)
         (stored : option string) (resp : Response TokenData),
    code <> "" ->
    sessionStorage w !! "pkce_verifier" = Some verifier ->
    verifier <> "" ->
    sessionStorage w !! "auth_redirect" = stored ->
    network env (tokenExchange (arcgisConfig env) code verifier) = Resolved resp ->
    ok resp = false ->
    fst (checkForCallback (Some code) env w)
      = Thrown (Error "Failed to exchange authorization code for token") /\
    sessionStorage (snd (checkForCallback (Some code) env w)) !! "auth_redirect"
      = stored /\
    sessionStorage (snd (checkForCallback (Some code) env w)) !! "pkce_verifier"
      = Some verifier.
Proof.
  intros env w code verifier stored resp Hcode Hv Hne Hst Hnet Hok.
  assert (Hcb : checkForCallback (Some code) env w
    = (Thrown (Error "Failed to exchange authorization code for token"),
       logRequest (tokenExchange (arcgisConfig env) code verifier) w)).
  { unfold checkForCallback. rewrite (truthyStr_Some code Hcode).
    unfold bind at 1. change (default "" (Some code)) with code.
    rewrite (handleCallback_run env w code verifier Hv Hne). cbv zeta.
    now rewrite Hnet, Hok. }
  rewrite Hcb. fields. split; [reflexivity | split; assumption].
Qed.

Lemma checkForCallback_failure_keeps_return_path_witness :
  fst (checkForCallback (Some "code") (sampleEnv 0 (Resolved badRequest)) authorizing)
  = Thrown (Error "Failed to exchange authorization code for token").
Proof.
  apply (checkForCallback_failure_keeps_return_path
           (sampleEnv 0 (Resolved badRequest)) authorizing "code" "verifier"
           None badRequest).
  - discriminate.
  - apply lookup_singleton_eq.
  - discriminate.
  - apply lookup_singleton_ne. discriminate.
  - reflexivity.
  - reflexivity.
Defined.

End AuthFlowFacts.

(** ** Records, counts and labels together *)

Module DataFacts.
Import Js Types Effects Dashboards FeatureService QueryDialect DetailPanel.
Import Vocabulary Vocabulary2 Tactics JsFacts DashboardsFacts FeatureServiceFacts.
Import FeatureQueryFacts.

Lemma filter_length_le {A} (p : A -> bool) (l : list A) :
  length (List.filter p l) <= length l.
Proof.
  induction l as [|a l IH]; simpl; [lia|]. destruct (p a); simpl; lia.
Qed.

Lemma verified_assumed_le (fs : list Feature) :
  length (List.filter isVerified fs) + length (List.filter isAssumed fs)
  <= length fs.
Proof.
  induction fs as [|f fs IH]; simpl; [lia|].
  unfold isVerified at 1, isAssumed at 1.
  destruct (Status (attributes f)) as [st|]; simpl; [|lia].
  destruct (String.eqb st "VERIFIED") eqn:Ev.
  - apply String.eqb_eq in Ev. subst st. simpl. lia.
  - destruct (String.eqb st "ASSUMED"); simpl; lia.
Qed.

(** What the aggregate-stats operation returns, in every case. *)
Lemma getFeatureStats_result (env : Env QueryData) (w : World) :
  fst (getFeatureStats env w) = Ok zeroStats \/
  exists fs, fst (getFeatureStats env w) = Ok (countStats fs).
Proof.
  run.
  destruct (network env _) as [e | r]; cbn; [now left|].
  destruct (body r) as [d|]; cbn; [|now left].
  destruct (error d); cbn; [now left|].
  destruct (features d) as [fs|]; cbn; [right; now exists fs | now left].
Qed.

(** X17: the aggregate-stats operation never throws, and the counts it
    returns are coherent: lead and unknown are at most the total, and
    verified plus assumed is at most the total. *)
Theorem getFeatureStats_coherent :
  forall (env : Env QueryData) (w : World),
    exists s,
      fst (getFeatureStats env w) = Ok s /\
      leadCount s <= total s /\
      unknownCount s <= total s /\
      verified s + assumed s <= total s.
Proof.
  intros env w.
  destruct (getFeatureStats_result env w) as [-> | [fs ->]].
  - exists zeroStats. cbn. repeat split; lia.
  - exists (countStats fs). unfold countStats. cbn [total leadCount unknownCount verified assumed].
    split; [reflexivity|].
    split; [apply filter_length_le|].
    split; [apply filter_length_le | apply verified_assumed_le].
Qed.

Lemma filter_ext_bool {A} (p q : A -> bool) (l : list A) :
  (forall a, p a = q a) -> List.filter p l = List.filter q l.
Proof.
  intros H. induction l as [|a l IH]; simpl; [reflexivity|].
  now rewrite H, IH.
Qed.

Lemma filter_all {A} (p : A -> bool) (l : list A) :
  (forall a, p a = true) -> List.filter p l = l.
Proof.
  intros H. induction l as [|a l IH]; simpl; [reflexivity|].
  now rewrite H, IH.
Qed.

Lemma satisfies_either (lit : string) (f : Feature) :
  WhereText.satisfies
    (WhereText.Or (WhereText.Compare FCustomerMaterial lit)
                  (WhereText.Compare FSupplierMaterial lit)) (attributes f)
  = strEq (CustomerMaterial (attributes f)) lit ||
    strEq (SupplierMaterial (attributes f)) lit.
Proof.
  cbn [WhereText.satisfies fieldOf].
  assert (H : forall o : option string, bool_decide (o = Some lit) = strEq o lit).
  { intros o. destruct (strEq o lit) eqn:E.
    - apply strEq_spec in E. now apply bool_decide_eq_true.
    - apply bool_decide_eq_false. intros X. apply strEq_spec in X. congruence. }
  now rewrite !H.
Qed.

(** X18: the stats agree with the filter clauses.  Read as a predicate, the
    text [buildWhereClause] emits for the "lead" selection selects, among
    the records the stats operation received, as many records as the stats
    count as lead; likewise for "unknown"; and the text of the "all"
    selection selects every record, the total. *)
Theorem stats_agree_with_filter_clauses :
  forall (env : Env QueryData) (w : World) (resp : Response QueryData)
         (fs : list Feature) (c s : bool),
    replies env (Resolved resp) ->
    body resp = Some {| error := None; features := Some fs |} ->
    exists st leads unknowns,
      fst (getFeatureStats env w) = Ok st /\
      WhereText.selectWhere (buildWhereClause (selection lead c s None)) fs
        = Some leads /\
      leadCount st = length leads /\
      WhereText.selectWhere (buildWhereClause (selection unknown c s None)) fs
        = Some unknowns /\
      unknownCount st = length unknowns /\
      WhereText.selectWhere (buildWhereClause (selection all c s None)) fs
        = Some fs /\
      total st = length fs.
Proof.
  intros env w resp fs c s Hrep Hbody.
  exists (countStats fs), (List.filter isLead fs), (List.filter isUnknown fs).
  split; [run; rewrite Hrep; cbn; now rewrite Hbody|].
  assert (Hl : WhereText.parseWhere (buildWhereClause (selection lead c s None))
               = Some (WhereText.Or (WhereText.Compare FCustomerMaterial "Lead")
                                    (WhereText.Compare FSupplierMaterial "Lead")))
    by reflexivity.
  assert (Hu : WhereText.parseWhere (buildWhereClause (selection unknown c s None))
               = Some (WhereText.Or (WhereText.Compare FCustomerMaterial "Unknown")
                                    (WhereText.Compare FSupplierMaterial "Unknown")))
    by reflexivity.
  assert (Ha : WhereText.parseWhere (buildWhereClause (selection all c s None))
               = Some (WhereText.Const true))
    by reflexivity.
  unfold WhereText.selectWhere. rewrite Hl, Hu, Ha.
  split; [f_equal; apply filter_ext_bool; intros f; apply satisfies_either|].
  split; [reflexivity|].
  split; [f_equal; apply filter_ext_bool; intros f; apply satisfies_either|].
  split; [reflexivity|].
  split; [f_equal; apply filter_all; reflexivity | reflexivity].
Qed.

(** On the fixture: the "lead" text selects the records 1 and 2, the
    "unknown" text the records 3, 4 and 5, and the counts are 2, 3 and 8. *)
Lemma stats_agree_with_filter_clauses_witness :
  exists st leads unknowns,
    fst (getFeatureStats (sampleEnv 0 (Resolved (featuresResponse statsFixture)))
           (AuthService.initial ∅)) = Ok st /\
    WhereText.selectWhere (buildWhereClause (selection lead true true None))
      statsFixture = Some leads /\
    WhereText.selectWhere (buildWhereClause (selection unknown true true None))
      statsFixture = Some unknowns /\
    map (fun f => OBJECTID (attributes f)) leads = [1%Z; 2%Z] /\
    map (fun f => OBJECTID (attributes f)) unknowns = [3%Z; 4%Z; 5%Z] /\
    leadCount st = 2 /\ unknownCount st = 3 /\ total st = 8.
Proof.
  destruct (stats_agree_with_filter_clauses
              (sampleEnv 0 (Resolved (featuresResponse statsFixture)))
              (AuthService.initial ∅) (featuresResponse statsFixture)
              statsFixture true true)
    as [st [leads [unknowns (Hst & Hl & Hlc & Hu & Huc & _ & Ht)]]].
  - intros req. reflexivity.
  - reflexivity.
  - exists st, leads, unknowns.
    split; [exact Hst|]. split; [exact Hl|]. split; [exact Hu|].
    rewrite Hlc, Huc, Ht.
    vm_compute in Hl. vm_compute in Hu.
    injection Hl as <-. injection Hu as <-.
    repeat split; reflexivity.
Defined.

(** The texts of two selections with a status list, read on the fixture: a
    list within the enumeration narrows the lead records to the verified
    ones; a list holding free text with quotes changes the predicate, which
    then selects every record. *)
Example status_texts_on_fixture :
  option_map (map (fun f => OBJECTID (attributes f)))
    (WhereText.selectWhere
       (buildWhereClause (selection lead true true (Some ["VERIFIED"; "UNKNOWN"])))
       statsFixture) = Some [1%Z; 2%Z] /\
  WhereText.selectWhere
    (buildWhereClause (selection all true true (Some ["X') OR ('1'='1"])))
    statsFixture = Some statsFixture.
Proof. split; reflexivity. Qed.

(** X19: no location produced by [featureToLocation] has an empty address,
    an empty material or an empty status, whatever the raw record holds. *)
Theorem featureToLocation_fields_nonempty :
  forall feature : Feature,
    address (featureToLocation feature) <> "" /\
    customerMaterial (featureToLocation feature) <> "" /\
    supplierMaterial (featureToLocation feature) <> "" /\
    status (featureToLocation feature) <> "".
Proof.
  intros feature. unfold featureToLocation. cbn.
  repeat split; apply AuthFlowFacts.orStr_nonempty; discriminate.
Qed.

(** X20: a record whose two material attributes are missing is shown as
    "Not determined" on both sides, but it is not counted as unknown by the
    stats and the predicate of the "unknown" selection does not hold of
    it. *)
Theorem missing_materials_not_counted :
  forall (fs : list Feature) (c s : bool),
    Forall materialsMissing fs ->
    unknownCount (countStats fs) = 0 /\
    leadCount (countStats fs) = 0 /\
    Forall (fun f =>
              MATERIAL_LABEL (Some (customerMaterial (featureToLocation f)))
                = "Not determined" /\
              MATERIAL_LABEL (Some (supplierMaterial (featureToLocation f)))
                = "Not determined" /\
              holdsWhere (specWhere (selection unknown c s None)) (attributes f)
                = false) fs.
Proof.
  intros fs c s H. unfold countStats. cbn [unknownCount leadCount].
  induction H as [|f fs [Hc Hs] Hfs [IHu [IHl IHf]]].
  - repeat split; constructor.
  - split; [|split].
    + cbn [List.filter]. unfold isUnknown at 1. rewrite Hc, Hs. exact IHu.
    + cbn [List.filter]. unfold isLead at 1. rewrite Hc, Hs. exact IHl.
    + constructor; [|exact IHf].
      unfold featureToLocation, holdsWhere, specWhere, selection. cbn.
      rewrite Hc, Hs. repeat split; reflexivity.
Qed.

Lemma missing_materials_not_counted_witness :
  unknownCount (countStats [bareFeature]) = 0 /\
  MATERIAL_LABEL (Some (customerMaterial (featureToLocation bareFeature)))
    = "Not determined".
Proof.
  destruct (missing_materials_not_counted [bareFeature] true true)
    as (Hu & _ & Hf).
  - constructor; [split; reflexivity | constructor].
  - split; [exact Hu|]. inversion Hf as [|? ? [Hl _] _]. exact Hl.
Defined.

(** X21: the badge colour and the label of a material agree on lead and
    copper: the badge is amber exactly when the label is "Lead" and emerald
    exactly when it is "Copper".  The badge is slate exactly when the label
    is "Galvanized Steel" and the material is not that very string: the
    full name "Galvanized Steel" is no code, so it is returned as its own
    label but gets the neutral gray badge. *)
Theorem getMaterialColor_agrees_with_label :
  forall c : string,
    (getMaterialColor c = amber <-> MATERIAL_LABEL (Some c) = "Lead") /\
    (getMaterialColor c = emerald <-> MATERIAL_LABEL (Some c) = "Copper") /\
    (getMaterialColor c = slate <->
       MATERIAL_LABEL (Some c) = "Galvanized Steel" /\
       c <> "Galvanized Steel") /\
    getMaterialColor "Galvanized Steel" = gray /\
    MATERIAL_LABEL (Some "Galvanized Steel") = "Galvanized Steel".
Proof.
  intros c.
  split; [|split; [|split; [|split; reflexivity]]];
    unfold getMaterialColor, MATERIAL_LABEL, amber, emerald, slate, gray;
    cbv zeta;
    destruct (arrIncludes ["lead"; "pb"; "l"] (toLowerCase c)) eqn:E1;
    try (split; intros H; first [reflexivity | discriminate H | now destruct H]);
    destruct (arrIncludes ["copper"; "cu"] (toLowerCase c)) eqn:E2;
    try (split; intros H; first [reflexivity | discriminate H | now destruct H]);
    destruct (arrIncludes ["galv"; "galvanized"] (toLowerCase c)) eqn:E3;
    try (split; intros H; first [reflexivity | discriminate H | now destruct H]);
    destruct (arrIncludes ["unknown"; "unk"; "u"; ""] (toLowerCase c));
    try (split; intros H; first [reflexivity | discriminate H | now destruct H]).
  - split; [discriminate|]. intros ->. vm_compute in E1. discriminate E1.
  - split; [discriminate|]. intros ->. vm_compute in E2. discriminate E2.
  - split; [intros _; split; [reflexivity|] | reflexivity].
    intros ->. vm_compute in E3. discriminate E3.
  - split; [intros _; split; [reflexivity|] | reflexivity].
    intros ->. vm_compute in E3. discriminate E3.
Qed.

(** X22: the "Lead Service Line Detected" banner is shown only for a
    location one of whose materials is labelled "Lead"; it is shown for the
    word "lead" in any letter case, and not for the codes "pb" and "l",
    although these are labelled "Lead" too. *)
Theorem leadBanner_only_for_lead_word :
  forall selected : Location,
    (leadBanner selected = true <->
       toLowerCase (customerMaterial selected) = "lead" \/
       toLowerCase (supplierMaterial selected) = "lead") /\
    (leadBanner selected = true ->
       MATERIAL_LABEL (Some (customerMaterial selected)) = "Lead" \/
       MATERIAL_LABEL (Some (supplierMaterial selected)) = "Lead") /\
    (In (toLowerCase (customerMaterial selected)) ["pb"; "l"] ->
     In (toLowerCase (supplierMaterial selected)) ["pb"; "l"] ->
       leadBanner selected = false /\
       MATERIAL_LABEL (Some (customerMaterial selected)) = "Lead" /\
       MATERIAL_LABEL (Some (supplierMaterial selected)) = "Lead").
Proof.
  intros selected. unfold leadBanner.
  assert (Hiff : String.eqb (toLowerCase (customerMaterial selected)) "lead"
                 || String.eqb (toLowerCase (supplierMaterial selected)) "lead"
                 = true <->
                 toLowerCase (customerMaterial selected) = "lead" \/
                 toLowerCase (supplierMaterial selected) = "lead")
    by now rewrite orb_true_iff, !String.eqb_eq.
  split; [exact Hiff|]. split.
  - intros H. apply Hiff in H. destruct H as [H | H]; [left | right];
      apply label_lead; rewrite H; now left.
  - intros Hc Hs. split; [|split].
    + destruct Hc as [Hc | [Hc | []]], Hs as [Hs | [Hs | []]];
        rewrite <- Hc, <- Hs; reflexivity.
    + apply label_lead. destruct Hc as [Hc | [Hc | []]]; rewrite <- Hc;
        cbn; tauto.
    + apply label_lead. destruct Hs as [Hs | [Hs | []]]; rewrite <- Hs;
        cbn; tauto.
Qed.

Lemma leadBanner_only_for_lead_word_witness :
  leadBanner (withMaterials "PB" "L") = false /\
  MATERIAL_LABEL (Some (customerMaterial (withMaterials "PB" "L"))) = "Lead".
Proof.
  destruct (leadBanner_only_for_lead_word (withMaterials "PB" "L"))
    as (_ & _ & H).
  destruct H as (Hb & Hl & _).
  - vm_compute. tauto.
  - vm_compute. tauto.
  - split; [exact Hb | exact Hl].
Defined.

(** X23: a query path never touches the session: whatever the network
    answers, each of the four operations leaves the credential, the
    verifier and [sessionStorage] as they were and sends exactly one GET
    request, to the query endpoint of the feature service, asking for
    JSON. *)
Theorem query_paths_read_only :
  forall (q : QueryPath) (env : Env QueryData) (w : World),
    accessToken (worldAfter q env w) = accessToken w /\
    refreshToken (worldAfter q env w) = refreshToken w /\
    tokenExpiry (worldAfter q env w) = tokenExpiry w /\
    codeVerifier (worldAfter q env w) = codeVerifier w /\
    sessionStorage (worldAfter q env w) = sessionStorage w /\
    exists req,
      sent (worldAfter q env w) = sent w ++ [req] /\
      method req = GET /\
      url req = featureServiceUrl (arcgisConfig env) +:+ "/query" /\
      paramValue "f" (params req) = Some "json".
Proof.
  intros q env w.
  assert (H : exists base,
            paramValue "f" base = Some "json" /\
            worldAfter q env w = logRequest (requestOf env w base) w).
  { destruct q as [f | i | e f | ]; cbn [worldAfter]; eexists; split.
    2: { run. case_outcome; reflexivity. }
    1: reflexivity.
    2: { run. case_outcome; reflexivity. }
    1: reflexivity.
    2: { run. case_outcome; reflexivity. }
    1: reflexivity.
    2: { run. case_outcome; reflexivity. }
    1: reflexivity. }
  destruct H as [base [Hf ->]].
  repeat split; try reflexivity.
  exists (requestOf env w base). repeat split; try reflexivity.
  cbn [requestOf params]. now apply paramValue_appendToken.
Qed.

End DataFacts.

(** ** Suggestions, candidate lookup and reverse geocoding *)

Module ResolverFacts.
Import Js Types Effects Geocoding Suggest ReverseGeocoding.
Import Vocabulary Vocabulary2 Tactics GeocodingFacts.

(** What [getSuggestions] does once the text is long enough. *)
Lemma getSuggestions_run (env : Env SuggestData) (w : World) (s : string)
  (center : option Point) :
  2 <= String.length s ->
  getSuggestions (Some s) center env w =
    let req := suggestRequest env s center in
    (match network env req with
     | Rejected _ => Ok []
     | Resolved r =>
         match body r with
         | Some d =>
             match sError d with
             | Some _ => Ok []
             | None => Ok (default [] (suggestions d))
             end
         | None => Ok []
         end
     end, logRequest req w).
Proof.
  intros Hlen. unfold getSuggestions.
  destruct (tooShort_false (Some s) 1 Hlen) as [-> _].
  unfold suggestRequest. destruct center as [c|]; run;
    match goal with
    | |- context [network env ?req] => destruct (network env req) as [e | r]
    end; cbn; try reflexivity;
    destruct (body r) as [d|]; cbn; try reflexivity;
    destruct (sError d); reflexivity.
Qed.

(** X24: suggestions are best effort: on a text shorter than 2 characters,
    empty or absent, [getSuggestions] returns the empty list and sends
    nothing; otherwise it sends one request to the suggest endpoint, asking
    for 8 suggestions at most; it never throws, and it returns the empty
    list when the request is rejected or the answer is unreadable, carries
    an error payload or carries no list. *)
Theorem getSuggestions_best_effort :
  forall (env : Env SuggestData) (w : World) (text : option string)
         (center : option Point),
    (String.length (default "" text) < 2 ->
       getSuggestions text center env w = (Ok [], w)) /\
    (2 <= String.length (default "" text) ->
       exists req,
         sent (snd (getSuggestions text center env w)) = sent w ++ [req] /\
         url req = geocodeServiceUrl (arcgisConfig env) +:+ "/suggest" /\
         paramValue "maxSuggestions" (params req) = Some "8" /\
         paramValue "text" (params req) = text) /\
    (exists found, fst (getSuggestions text center env w) = Ok found) /\
    (forall o, replies env o -> SuggestFailure o ->
       fst (getSuggestions text center env w) = Ok []).
Proof.
  intros env w text center.
  assert (Hshort : String.length (default "" text) < 2 ->
                   getSuggestions text center env w = (Ok [], w)).
  { intros H. unfold getSuggestions. now rewrite (tooShort_true text 1 H). }
  split; [exact Hshort|].
  split; [|split].
  - intros Hlen. destruct (tooShort_false text 1 Hlen) as [_ [s ->]].
    rewrite (getSuggestions_run env w s center Hlen). cbv zeta.
    exists (suggestRequest env s center). split; [reflexivity|].
    split; [reflexivity|].
    unfold suggestRequest. destruct center; split; reflexivity.
  - destruct (Nat.lt_ge_cases (String.length (default "" text)) 2) as [H | H].
    + rewrite (Hshort H). now exists [].
    + destruct (tooShort_false text 1 H) as [_ [s ->]].
      rewrite (getSuggestions_run env w s center H). cbv zeta. cbn [fst].
      destruct (network env _) as [e | r]; [now eexists|].
      destruct (body r) as [d|]; [|now eexists].
      destruct (sError d); now eexists.
  - intros o Hrep Hfail.
    destruct (Nat.lt_ge_cases (String.length (default "" text)) 2) as [H | H].
    + now rewrite (Hshort H).
    + destruct (tooShort_false text 1 H) as [_ [s ->]].
      rewrite (getSuggestions_run env w s center H). cbv zeta. cbn [fst].
      rewrite Hrep.
      destruct Hfail as [e | r Hb | r d e Hb He | r d Hb Hs]; try reflexivity.
      * now rewrite Hb.
      * now rewrite Hb, He.
      * rewrite Hb, Hs. now destruct (sError d).
Qed.

Lemma getSuggestions_best_effort_witness :
  getSuggestions (Some "O") None (sampleEnv 0 (Rejected offline))
    (AuthService.initial ∅) = (Ok [], AuthService.initial ∅) /\
  fst (getSuggestions (Some "Oa") None (sampleEnv 0 (Rejected offline))
         (AuthService.initial ∅)) = Ok [].
Proof.
  pose proof (getSuggestions_best_effort (sampleEnv 0 (Rejected offline))
                (AuthService.initial ∅) (Some "O") None) as (Hshort & _).
  pose proof (getSuggestions_best_effort (sampleEnv 0 (Rejected offline))
                (AuthService.initial ∅) (Some "Oa") None) as (_ & _ & _ & Hfail).
  split; [apply Hshort; cbn; lia|].
  apply (Hfail (Rejected offline)); [intros req; reflexivity | constructor].
Defined.

(** What [findAddressFromMagicKey] does. *)
Lemma findAddressFromMagicKey_run (env : Env GeocodeData) (w : World)
  (key : string) :
  findAddressFromMagicKey key env w =
    (match network env (magicKeyRequest env key) with
     | Rejected _ => Ok None
     | Resolved r =>
         match body r with
         | Some d =>
             match gError d, candidates d with
             | None, Some (c :: _) => Ok (Some (toResult c))
             | _, _ => Ok None
             end
         | None => Ok None
         end
     end, logRequest (magicKeyRequest env key) w).
Proof.
  unfold findAddressFromMagicKey, magicKeyRequest. run.
  destruct (network env _) as [e | r]; cbn; [reflexivity|].
  destruct (body r) as [d|]; cbn; [|reflexivity].
  destruct (gError d); cbn; [reflexivity|].
  destruct (candidates d) as [[|c cs]|]; reflexivity.
Qed.

(** X25: [findAddressFromMagicKey] never throws and always sends exactly
    one request, which carries the key (it has no guard on the key).  It
    returns the first candidate of a readable answer without error payload,
    and nothing in every other case. *)
Theorem findAddressFromMagicKey_first_candidate :
  forall (env : Env GeocodeData) (w : World) (key : string),
    (exists req,
       sent (snd (findAddressFromMagicKey key env w)) = sent w ++ [req] /\
       paramValue "magicKey" (params req) = Some key) /\
    (exists found, fst (findAddressFromMagicKey key env w) = Ok found) /\
    (forall found,
       fst (findAddressFromMagicKey key env w) = Ok (Some found) <->
       exists r d c cs,
         network env (magicKeyRequest env key) = Resolved r /\
         body r = Some d /\ gError d = None /\
         candidates d = Some (c :: cs) /\ found = toResult c).
Proof.
  intros env w key. rewrite (findAddressFromMagicKey_run env w key).
  cbn [fst snd]. split; [|split].
  - exists (magicKeyRequest env key). split; reflexivity.
  - destruct (network env _) as [e | r]; [now eexists|].
    destruct (body r) as [d|]; [|now eexists].
    destruct (gError d), (candidates d) as [[|c cs]|]; now eexists.
  - intros found. split.
    + destruct (network env _) as [e | r]; [discriminate|].
      destruct (body r) as [d|] eqn:Hb; [|discriminate].
      destruct (gError d) eqn:He; [destruct (candidates d); discriminate|].
      destruct (candidates d) as [[|c cs]|] eqn:Hc; try discriminate.
      intros [= <-]. now exists r, d, c, cs.
    + intros (r & d & c & cs & -> & Hb & He & Hc & ->).
      now rewrite Hb, He, Hc.
Qed.


End ResolverFacts.

(** ** The configuration *)

Module ConfigFacts.
Import Js Effects ArcgisConfig Vocabulary Vocabulary2.
Import AuthServiceFacts HandshakeFacts.

Lemma truthy_nonempty (v : string) : truthyStr (Some v) = true <-> v <> "".
Proof.
  rewrite truthyStr_spec. split.
  - intros [u [[= <-] H]]. exact H.
  - intros H. now exists v.
Qed.

Lemma truthy_empty (v : string) : truthyStr (Some v) = false <-> v = "".
Proof.
  split.
  - intros H. destruct (String.eqb v "") eqn:E; [now apply String.eqb_eq|].
    unfold truthyStr in H. rewrite E in H. discriminate H.
  - now intros ->.
Qed.

(** X27: [validateConfig] accepts a configuration exactly when the feature
    service URL is set and, if a client identifier is set, the redirect
    address is set too; [valid] is true exactly when no error is listed.
    For the configuration read from the environment on a page whose origin
    is not empty, the redirect address, the portal URL and the geocode URL
    are never empty, so the redirect error is never reported and the
    configuration is valid exactly when the feature service variable holds
    a non-empty value. *)
Theorem validateConfig_accepts :
  forall (c : Config) (env : ImportMetaEnv) (origin : string),
    (valid (validateConfig c) = true <->
       featureServiceUrl c <> "" /\
       (clientId c <> "" -> redirectUri c <> "")) /\
    (valid (validateConfig c) = true <-> errors (validateConfig c) = []) /\
    (In featureServiceError (errors (validateConfig c)) <->
       featureServiceUrl c = "") /\
    (In redirectError (errors (validateConfig c)) <->
       clientId c <> "" /\ redirectUri c = "") /\
    (origin <> "" ->
       redirectUri (arcgisConfig env origin) <> "" /\
       portalUrl (arcgisConfig env origin) <> "" /\
       geocodeServiceUrl (arcgisConfig env origin) <> "" /\
       ~ In redirectError (errors (validateConfig (arcgisConfig env origin))) /\
       (valid (validateConfig (arcgisConfig env origin)) = true <->
          exists u, VITE_ARCGIS_FEATURE_SERVICE_URL env = Some u /\ u <> "")).
Proof.
  intros c env origin.
  assert (Hchar : forall k : Config,
    (valid (validateConfig k) = true <->
       featureServiceUrl k <> "" /\ (clientId k <> "" -> redirectUri k <> "")) /\
    (valid (validateConfig k) = true <-> errors (validateConfig k) = []) /\
    (In featureServiceError (errors (validateConfig k)) <->
       featureServiceUrl k = "") /\
    (In redirectError (errors (validateConfig k)) <->
       clientId k <> "" /\ redirectUri k = "")).
  { intros k. unfold validateConfig, featureServiceError, redirectError.
    cbv zeta.
    destruct (truthyStr (Some (featureServiceUrl k))) eqn:Ef;
      destruct (truthyStr (Some (clientId k))) eqn:Ec;
      destruct (truthyStr (Some (redirectUri k))) eqn:Er;
      cbn [negb andb app length Nat.eqb valid errors];
      repeat match goal with
        | H : truthyStr (Some _) = true |- _ => apply truthy_nonempty in H
        | H : truthyStr (Some _) = false |- _ => apply truthy_empty in H
        end;
      (split; [|split; [|split]]); split; intros H;
      try discriminate; try reflexivity; try tauto;
      try (cbn in H; intuition (try discriminate; try congruence));
      try (cbn; intuition (try discriminate; try congruence)). }
  destruct (Hchar c) as (H1 & H2 & H3 & H4).
  split; [exact H1|]. split; [exact H2|]. split; [exact H3|]. split; [exact H4|].
  intros Horigin.
  assert (Hr : redirectUri (arcgisConfig env origin) <> "")
    by (apply AuthFlowFacts.orStr_nonempty; exact Horigin).
  split; [exact Hr|].
  split; [apply AuthFlowFacts.orStr_nonempty; discriminate|].
  split; [apply AuthFlowFacts.orStr_nonempty; discriminate|].
  destruct (Hchar (arcgisConfig env origin)) as (K1 & _ & _ & K4).
  split; [intros Hin; apply K4 in Hin; destruct Hin as [_ Hin]; contradiction|].
  rewrite K1. cbn [arcgisConfig featureServiceUrl]. split.
  - intros [Hf _]. unfold orStr in Hf.
    destruct (VITE_ARCGIS_FEATURE_SERVICE_URL env) as [u|]; [|contradiction].
    exists u. split; [reflexivity|].
    destruct (String.eqb u "") eqn:E; [contradiction|].
    now apply String.eqb_neq.
  - intros [u [-> Hu]]. split; [|intros _; exact Hr].
    now rewrite (FeatureServiceFacts.orStr_present u "" Hu).
Qed.

Lemma validateConfig_accepts_witness :
  valid (validateConfig (arcgisConfig minimalEnv "http://localhost:5173")) = true /\
  redirectUri (arcgisConfig minimalEnv "http://localhost:5173")
    = "http://localhost:5173".
Proof.
  destruct (validateConfig_accepts
              (arcgisConfig minimalEnv "http://localhost:5173")
              minimalEnv "http://localhost:5173") as (_ & _ & _ & _ & H).
  destruct H as (_ & _ & _ & _ & Hv); [discriminate|].
  split; [|reflexivity].
  apply Hv. eexists. split; [reflexivity | discriminate].
Defined.

End ConfigFacts.

(** ** The data-fetching hooks *)

Module HooksFacts.
Import Js Types Effects FeatureService Geocoding Hooks.
Import Vocabulary Vocabulary2 Tactics FeatureQueryFacts GeocodingFacts DataFacts.




(** X29: with the "all" selection and a dataset that answers both requests
    with the same records, the total of the stats shown after [fetchData]
    is the number of locations shown. *)
Theorem fetchData_total_matches_locations :
  forall (st : FeatureLayer) (env : Env QueryData) (w : World)
         (fs : list Feature) (c s : bool) (statuses : option (list string)),
    replies env (Resolved (featuresResponse fs)) ->
    statuses = None \/ statuses = Some [] ->
    exists st',
      fst (fetchData (selection all c s statuses) st env w) = Ok st' /\
      locations st' = map featureToLocation fs /\
      total (stats st') = length (locations st') /\
      error st' = None.
Proof.
  intros st env w fs c s statuses Hrep Hst. unfold fetchData.
  assert (Hq : fst (queryFeatures (selection all c s statuses) env w)
               = Ok (map featureToLocation fs))
    by (run; rewrite Hrep; reflexivity).
  destruct (queryFeatures (selection all c s statuses) env w)
    as [locationsData w1].
  cbn [fst] in Hq. subst locationsData.
  assert (Hg : fst (getFeatureStats env w1) = Ok (countStats fs))
    by (run; rewrite Hrep; reflexivity).
  destruct (getFeatureStats env w1) as [statsData w2].
  cbn [fst] in Hg. subst statsData.
  eexists. split; [reflexivity|]. cbn [locations stats error countStats total].
  split; [reflexivity|]. split; [now rewrite length_map | reflexivity].
Qed.

Lemma fetchData_total_matches_locations_witness :
  exists st',
    fst (fetchData defaultFilters featureLayerInit
           (sampleEnv 0 (Resolved (featuresResponse statsFixture)))
           (AuthService.initial ∅)) = Ok st' /\
    total (stats st') = 8 /\ length (locations st') = 8.
Proof.
  destruct (fetchData_total_matches_locations featureLayerInit
              (sampleEnv 0 (Resolved (featuresResponse statsFixture)))
              (AuthService.initial ∅) statsFixture true true None)
    as [st' (H1 & H2 & H3 & _)].
  - intros req. reflexivity.
  - now left.
  - exists st'. split; [exact H1|].
    rewrite H3, H2. split; reflexivity.
Defined.

Lemma geocodeAddress_never_throws (env : Env GeocodeData) (w : World)
  (text : option string) (center : option Point) :
  tooShort text 3 = false ->
  exists found req,
    geocodeAddress text center env w = (Ok found, logRequest req w).
Proof.
  intros Ht. destruct text as [s|]; [|discriminate Ht].
  assert (Hlen : 3 <= String.length s).
  { unfold tooShort in Ht. apply orb_false_iff in Ht. destruct Ht as [_ Ht].
    apply Nat.ltb_ge in Ht. exact Ht. }
  rewrite (geocodeAddress_run env w s center Hlen). cbv zeta.
  destruct (network env _) as [e | r]; [now eexists; eexists|].
  destruct (ok r); [|now eexists; eexists].
  destruct (body r) as [d|]; [|now eexists; eexists].
  destruct (gError d), (candidates d); now eexists; eexists.
Qed.

(** X30: the geocoder hook never reports an error: [search] never throws
    and leaves [searchError] empty whenever it was empty before.  On a text
    shorter than 3 characters it clears the results and sends nothing; on a
    longer text it sends one request, ends with [searching] false and shows
    what the forward search returned.  [handleSearch] on a short value does
    not call it at all, so the results shown before stay.  Fetching
    suggestions never throws and touches neither the error nor the
    results, and [clearResults] empties the error. *)
Theorem search_never_reports_error :
  forall (text : option string) (center : option Point) (st : Geocoder)
         (env : Env GeocodeData) (w : World) (value : string),
    (exists st',
       fst (search text center st env w) = Ok st' /\
       (searchError st = None -> searchError st' = None) /\
       (tooShort text 3 = true ->
          results st' = [] /\ searching st' = searching st /\
          snd (search text center st env w) = w) /\
       (tooShort text 3 = false ->
          searching st' = false /\ searchError st' = None /\
          fst (geocodeAddress text center env w) = Ok (results st') /\
          exists req, sent (snd (search text center st env w)) = sent w ++ [req])) /\
    (String.length value < 3 ->
       handleSearch value st env w = (Ok (value, st), w)) /\
    (forall (envS : Env Suggest.SuggestData),
       exists st',
         fst (fetchSuggestions text center st envS w) = Ok st' /\
         searchError st' = searchError st /\
         results st' = results st) /\
    searchError (clearResults st) = None.
Proof.
  intros text center st env w value. split; [|split; [|split]]; cycle 2.
  { intros envS. unfold fetchSuggestions.
    destruct (tooShort text 2); [now eexists|].
    destruct (Suggest.getSuggestions text center envS w) as [[found | e] w1];
      now eexists. }
  { reflexivity. }
  - unfold search. destruct (tooShort text 3) eqn:Ht.
    + eexists. split; [reflexivity|]. cbn.
      split; [tauto|]. split; [intros _; repeat split | discriminate].
    + destruct (geocodeAddress_never_throws env w text center Ht)
        as [found [req Hg]].
      rewrite Hg. eexists. split; [reflexivity|].
      cbn [results searching searchError fst snd].
      split; [reflexivity|]. split; [discriminate|]. intros _.
      repeat split. now exists req.
  - intros Hlen. unfold handleSearch.
    apply Nat.leb_gt in Hlen. now rewrite Hlen.
Qed.

(** X3: the authentication hook follows the session and never throws.
    On mount [checkAuth] ends with [loading] false; when the callback check
    returns, the flag is what the session says at that instant, and when it
    throws, the flag is kept and the message is shown.  [logout] signs the
    session out and clears the flag, and the session is then authenticated
    at no instant.  [login] turns the missing client identifier into an
    error message and stores nothing. *)
Theorem auth_hook_follows_session :
  forall (st : Auth) (env : Env AuthService.TokenData) (w : World)
         (code : option string) (c : Pkce.Crypto) (pathname : string),
    (exists st',
       fst (checkAuth code st env w) = Ok st' /\
       authLoading st' = false /\
       snd (checkAuth code st env w) = snd (AuthFlow.checkForCallback code env w) /\
       (forall r,
          fst (AuthFlow.checkForCallback code env w) = Ok r ->
          isAuthenticated st'
            = AuthService.isAuthenticated (now env)
                (snd (AuthFlow.checkForCallback code env w)) /\
          authError st' = authError st) /\
       (forall e,
          fst (AuthFlow.checkForCallback code env w) = Thrown e ->
          isAuthenticated st' = isAuthenticated st /\
          authError st' = Some (messageOf e))) /\
    (exists st',
       logout st env w = (Ok st', AuthService.logout w) /\
       isAuthenticated st' = false /\
       authError st' = None /\
       forall t, AuthService.isAuthenticated t (AuthService.logout w) = false) /\
    (exists r, fst (login c pathname st env w) = Ok r) /\
    (clientId (arcgisConfig env) = "" ->
       login c pathname st env w
       = (Ok ({| isAuthenticated := isAuthenticated st;
                 authLoading := authLoading st;
                 authError := Some "OAuth client ID not configured" |}, None),
          w)).
Proof.
  intros st env w code c pathname.
  split; [|split; [|split]].
  - unfold checkAuth.
    destruct (AuthFlow.checkForCallback code env w) as [[r | e] w1];
      eexists; (split; [reflexivity|]);
      cbn [isAuthenticated authLoading authError fst snd];
      (split; [reflexivity|]); (split; [reflexivity|]); split.
    + intros r' _. split; reflexivity.
    + intros e; discriminate.
    + intros r; discriminate.
    + intros e' [= <-]. split; reflexivity.
  - eexists. split; [reflexivity|]. cbn [isAuthenticated authError].
    split; [reflexivity|]. split; [reflexivity|].
    intros t. apply AuthServiceFacts.isAuthenticated_logout.
  - unfold login.
    destruct (AuthFlow.login c pathname env w) as [[nav | e] w1]; now eexists.
  - intros Hid. unfold login, AuthFlow.login, bind, reads, throw.
    now rewrite Hid.
Qed.

End HooksFacts.
